(** * Zambia data collectors: a shallow embedding of the collection pipeline

    The repository holds four generations of the same collector set
    ([data_collectors.py], [working_collectors.py], [enhanced_collectors.py],
    [robust_collectors.py]).  Every collector exposes one method,
    [collect_data(data_type)], that talks to an HTTP session, parses what it
    gets, and returns a dictionary with a ['success'] flag.

    The embedding follows the Python text:
    - Python values (JSON documents, records, results) are terms of [pyval];
      a dictionary is the association list of its items in insertion order;
    - a [str] is a [string], one [ascii] for one character; [str.lower],
      [str.title], [\d] and [\s] act on the ASCII range and leave every
      other character alone;
    - the network is an oracle [http_get] over an abstract world; every call
      is appended to the list of issued requests, with its timeout;
    - [datetime.now()] reads a clock off the world;
    - exceptions are values of [exn], instances of [Exception]; a statement
      sequence is a computation in a state-and-exception monad whose state
      is the frame of the running method and the world;
      [try: ... except Exception] is [try_except];
    - [re] patterns are terms of [Re.re], matched by backtracking in
      Python's order of preference.

    [logging.*] calls and [time.sleep] have no effect on a result and are
    left out.

    Layout: strings, Python values, the monad, regular expressions; one
    module per source file, one submodule per collector class; the
    predicates the statements use; then the properties, C1 to C10. *)

From Stdlib Require Import ZArith List String Ascii Bool Arith Lia.
Import ListNotations.

Set Warnings "-register-all".

Local Open Scope string_scope.
Local Open Scope list_scope.

(* ===================================================================== *)
(** * Strings                                                             *)
(* ===================================================================== *)

Module Str.

Definition is_upper (c : ascii) : bool :=
  let n := nat_of_ascii c in (65 <=? n)%nat && (n <=? 90)%nat.

Definition is_lower (c : ascii) : bool :=
  let n := nat_of_ascii c in (97 <=? n)%nat && (n <=? 122)%nat.

Definition is_alpha (c : ascii) : bool := is_upper c || is_lower c.

Definition is_digit (c : ascii) : bool :=
  let n := nat_of_ascii c in (48 <=? n)%nat && (n <=? 57)%nat.

(** [' \t\n\r\x0b\x0c'] *)
Definition is_space (c : ascii) : bool :=
  let n := nat_of_ascii c in (n =? 32)%nat || ((9 <=? n)%nat && (n <=? 13)%nat).

Definition lower_char (c : ascii) : ascii :=
  if is_upper c then ascii_of_nat (nat_of_ascii c + 32) else c.

Definition upper_char (c : ascii) : ascii :=
  if is_lower c then ascii_of_nat (nat_of_ascii c - 32) else c.

(** [s.lower()] *)
Fixpoint lower (s : string) : string :=
  match s with
  | EmptyString => EmptyString
  | String c s' => String (lower_char c) (lower s')
  end.

(** [s.title()]: a letter that follows a non-letter is upper-cased, every
    other letter is lower-cased. *)
Fixpoint title_from (prev_cased : bool) (s : string) : string :=
  match s with
  | EmptyString => EmptyString
  | String c s' =>
      String (if prev_cased then lower_char c else upper_char c)
             (title_from (is_alpha c) s')
  end.

Definition title (s : string) : string := title_from false s.

Fixpoint starts_with (p s : string) : bool :=
  match p, s with
  | EmptyString, _ => true
  | String a p', String b s' => Ascii.eqb a b && starts_with p' s'
  | String _ _, EmptyString => false
  end.

(** [sub in s] *)
Fixpoint contains (sub s : string) : bool :=
  starts_with sub s ||
  match s with
  | EmptyString => false
  | String _ s' => contains sub s'
  end.

(** [s[:n]] *)
Fixpoint take (n : nat) (s : string) : string :=
  match n, s with
  | S n', String c s' => String c (take n' s')
  | _, _ => EmptyString
  end.

Fixpoint chars (s : string) : list string :=
  match s with
  | EmptyString => []
  | String c s' => String c EmptyString :: chars s'
  end.

Fixpoint exists_char (p : ascii -> bool) (s : string) : bool :=
  match s with
  | EmptyString => false
  | String c s' => p c || exists_char p s'
  end.

(** [str(n)] for a natural number. *)
Fixpoint digits_fuel (fuel n : nat) (acc : string) : string :=
  match fuel with
  | O => acc
  | S fuel' =>
      let acc' := String (ascii_of_nat (48 + n mod 10)) acc in
      if (n <? 10)%nat then acc' else digits_fuel fuel' (n / 10) acc'
  end.

Definition of_nat (n : nat) : string := digits_fuel (S n) n EmptyString.

(** Two strings that differ only in the case of ASCII letters. *)
Inductive caseless : string -> string -> Prop :=
| caseless_nil : caseless EmptyString EmptyString
| caseless_cons a b s t :
    lower_char a = lower_char b -> caseless s t ->
    caseless (String a s) (String b t).

End Str.

(* ===================================================================== *)
(** * Python values and exceptions                                        *)
(* ===================================================================== *)

(** What [json.loads] can return, which is also enough for the records and
    results the collectors build.  [PyFloat m e] is the decimal [m * 10^e]. *)
Inductive pyval : Type :=
| PyNone
| PyBool (b : bool)
| PyInt (z : Z)
| PyFloat (m e : Z)
| PyStr (s : string)
| PyList (l : list pyval)
| PyDict (d : list (string * pyval)).

Inductive exn_class : Type :=
| AttributeError | IndexError | KeyError | TypeError
| JSONDecodeError | HTTPError | ConnectionError | Timeout.

(** An instance of [Exception]: its class and [str(e)]. *)
Record exn : Type := mkExn { exn_cls : exn_class; exn_str : string }.

Inductive outcome (A : Type) : Type :=
| Return (a : A)
| Raise (e : exn).
Arguments Return {A} a.
Arguments Raise {A} e.

Module Py.

(** [d.get(k)] on the association list behind a dictionary. *)
Fixpoint assoc {A : Type} (k : string) (d : list (string * A)) : option A :=
  match d with
  | [] => None
  | (k', v) :: d' => if String.eqb k k' then Some v else assoc k d'
  end.

(** [d.get(k, default)] *)
Definition get_default {A : Type} (k : string) (d : list (string * A)) (default : A) : A :=
  match assoc k d with Some v => v | None => default end.

(** [bool(v)] *)
Definition truthy (v : pyval) : bool :=
  match v with
  | PyNone => false
  | PyBool b => b
  | PyInt z => negb (z =? 0)%Z
  | PyFloat m _ => negb (m =? 0)%Z
  | PyStr s => negb (String.eqb s "")
  | PyList l => match l with [] => false | _ => true end
  | PyDict d => match d with [] => false | _ => true end
  end.

(** [v is not None] *)
Definition is_not_none (v : pyval) : bool :=
  match v with PyNone => false | _ => true end.

Definition type_error (msg : string) : exn := mkExn TypeError msg.

(** [len(v)] *)
Definition len (v : pyval) : outcome nat :=
  match v with
  | PyStr s => Return (String.length s)
  | PyList l => Return (List.length l)
  | PyDict d => Return (List.length d)
  | _ => Raise (type_error "object has no len()")
  end.

(** [v[i]] for a non-negative integer literal [i]. *)
Definition getitem_int (v : pyval) (i : nat) : outcome pyval :=
  match v with
  | PyList l =>
      match nth_error l i with
      | Some x => Return x
      | None => Raise (mkExn IndexError "list index out of range")
      end
  | PyStr s =>
      match nth_error (Str.chars s) i with
      | Some c => Return (PyStr c)
      | None => Raise (mkExn IndexError "string index out of range")
      end
  | PyDict _ => Raise (mkExn KeyError (Str.of_nat i))
  | _ => Raise (type_error "object is not subscriptable")
  end.

(** [v[k]] for a string literal [k]. *)
Definition getitem_str (v : pyval) (k : string) : outcome pyval :=
  match v with
  | PyDict d =>
      match assoc k d with
      | Some x => Return x
      | None => Raise (mkExn KeyError ("'" ++ k ++ "'"))
      end
  | PyList _ => Raise (type_error "list indices must be integers or slices, not str")
  | PyStr _ => Raise (type_error "string indices must be integers")
  | _ => Raise (type_error "object is not subscriptable")
  end.

(** [v.get(k)] *)
Definition get (v : pyval) (k : string) : outcome pyval :=
  match v with
  | PyDict d => Return (match assoc k d with Some x => x | None => PyNone end)
  | _ => Raise (mkExn AttributeError "object has no attribute 'get'")
  end.

(** [v.get(k, default)] *)
Definition get_or (v : pyval) (k : string) (default : pyval) : outcome pyval :=
  match v with
  | PyDict d => Return (match assoc k d with Some x => x | None => default end)
  | _ => Raise (mkExn AttributeError "object has no attribute 'get'")
  end.

(** [v[:n]] *)
Definition slice_to (v : pyval) (n : nat) : outcome pyval :=
  match v with
  | PyList l => Return (PyList (firstn n l))
  | PyStr s => Return (PyStr (Str.take n s))
  | PyDict _ => Raise (type_error "unhashable type: 'slice'")
  | _ => Raise (type_error "object is not subscriptable")
  end.

(** The items a [for] statement draws from [v]. *)
Definition iter (v : pyval) : outcome (list pyval) :=
  match v with
  | PyList l => Return l
  | PyStr s => Return (map PyStr (Str.chars s))
  | PyDict d => Return (map (fun kv => PyStr (fst kv)) d)
  | _ => Raise (type_error "object is not iterable")
  end.

End Py.

(* ===================================================================== *)
(** * The HTTP session and the clock                                      *)
(* ===================================================================== *)

(** [self.session.get(url, params=..., timeout=...)] *)
Record request : Type := mkRequest {
  req_url : string;
  req_params : list (string * pyval);
  req_timeout : Z
}.

(** A tag of a parsed page with the value of its [class] attribute and
    [get_text(strip=True)]. *)
Record element : Type := mkElement {
  el_tag : string;
  el_class : list string;
  el_text : string
}.

(** A [requests.Response].  The three views of the body are what the parsers
    applied to [response.text] give: [response.json()], the tags
    [BeautifulSoup(response.text, 'html.parser')] holds in document order,
    and [trafilatura.extract(response.text)]. *)
Record response : Type := mkResponse {
  status_code : Z;
  resp_json : outcome pyval;
  resp_soup : list element;
  resp_extract : option string
}.

(** [datetime.now()] *)
Record clock : Type := mkClock {
  now_ymd : string;   (* [.strftime('%Y-%m-%d')] *)
  now_year : Z        (* [.year] *)
}.

(** What a call leaves behind outside its own frame: the state of the outside
    world and the requests issued so far, oldest first. *)
Record globals (W : Type) : Type := mkGlobals {
  world : W;
  requests : list request
}.
Arguments mkGlobals {W} world requests.
Arguments world {W} g.
Arguments requests {W} g.

(** A statement sequence running in a frame of local variables [L]. *)
Definition M (W L A : Type) : Type := L -> globals W -> outcome A * L * globals W.

(** A method called with its arguments: its frame is private. *)
Definition Method (W A : Type) : Type := globals W -> outcome A * globals W.

Section Monad.
Context {W L : Type}.

Definition ret {A : Type} (a : A) : M W L A := fun l g => (Return a, l, g).

Definition raise {A : Type} (e : exn) : M W L A := fun l g => (Raise e, l, g).

Definition bind {A B : Type} (c : M W L A) (k : A -> M W L B) : M W L B :=
  fun l g =>
    match c l g with
    | (Return a, l', g') => k a l' g'
    | (Raise e, l', g') => (Raise e, l', g')
    end.

(** An expression that may raise but touches neither frame nor world. *)
Definition lift {A : Type} (o : outcome A) : M W L A := fun l g => (o, l, g).

(** [try: c  except Exception as e: h e] *)
Definition try_except {A : Type} (c : M W L A) (h : exn -> M W L A) : M W L A :=
  fun l g =>
    match c l g with
    | (Return a, l', g') => (Return a, l', g')
    | (Raise e, l', g') => h e l' g'
    end.

(** [try: c  except cls: h] *)
Definition try_except_cls {A : Type} (catches : exn -> bool)
    (c : M W L A) (h : exn -> M W L A) : M W L A :=
  fun l g =>
    match c l g with
    | (Return a, l', g') => (Return a, l', g')
    | (Raise e, l', g') => if catches e then h e l' g' else (Raise e, l', g')
    end.

Definition get_local : M W L L := fun l g => (Return l, l, g).

Definition set_local (l' : L) : M W L unit := fun _ g => (Return tt, l', g).

Definition call {A : Type} (m : Method W A) : M W L A :=
  fun l g => let (o, g') := m g in (o, l, g').

Definition method {A : Type} (init : L) (body : M W L A) : Method W A :=
  fun g => let '(o, _, g') := body init g in (o, g').

End Monad.

Declare Scope py_scope.
Delimit Scope py_scope with py.
Notation "x <- c ;; k" := (bind c (fun x => k))
  (at level 61, c at next level, right associativity) : py_scope.
Notation "c ;; k" := (bind c (fun _ => k))
  (at level 61, right associativity) : py_scope.
Local Open Scope py_scope.

Section Loops.
Context {W L : Type}.

(** [for x in xs: body x] *)
Fixpoint for_each {A : Type} (xs : list A) (body : A -> M W L unit) : M W L unit :=
  match xs with
  | [] => ret tt
  | x :: xs' => body x ;; for_each xs' body
  end.

(** [for x in xs: body x], where [body] answers [true] after a [break]. *)
Fixpoint for_each_break {A : Type} (xs : list A) (body : A -> M W L bool) : M W L unit :=
  match xs with
  | [] => ret tt
  | x :: xs' => stop <- body x ;; if (stop : bool) then ret tt else for_each_break xs' body
  end.

(** One turn of a loop whose statements sit in
    [try: body x  except Exception: continue]. *)
Definition turn {A : Type} (body : A -> M W L unit) (x : A) : M W L unit :=
  try_except (body x) (fun e => ret tt).

End Loops.

Definition is_json_decode_error (e : exn) : bool :=
  match exn_cls e with JSONDecodeError => true | _ => false end.

Section Session.
Context {W : Type}.
Variable http_get : request -> W -> (exn + response) * W.
Variable now : W -> clock.

(** [self.session.get(...)]: the request is issued, then the world answers
    with a response or with an exception of [requests]. *)
Definition session_get {L : Type} (rq : request) : M W L response :=
  fun l g =>
    let (r, w') := http_get rq (world g) in
    let g' := mkGlobals w' (requests g ++ [rq]) in
    match r with
    | inl e => (Raise e, l, g')
    | inr resp => (Return resp, l, g')
    end.

(** [datetime.now()] *)
Definition datetime_now {L : Type} : M W L clock :=
  fun l g => (Return (now (world g)), l, g).

(** [response.raise_for_status()] *)
Definition raise_for_status {L : Type} (resp : response) : M W L unit :=
  if ((400 <=? status_code resp) && (status_code resp <? 600))%Z
  then raise (mkExn HTTPError "HTTP Error")
  else ret tt.

(** [response.json()] *)
Definition json {L : Type} (resp : response) : M W L pyval := lift (resp_json resp).

End Session.

(* ===================================================================== *)
(** * Regular expressions                                                 *)
(* ===================================================================== *)

(** The fragment of Python's [re] the collectors use: a backtracking matcher
    with greedy and lazy repetition, at most one capture group, and the
    [re.IGNORECASE] flag. *)
Module Re.

Inductive re : Type :=
| Eps
| Chr (c : ascii)
| Any                         (* [.] : any character but a newline *)
| Digit                       (* [\d] *)
| Space                       (* [\s] *)
| Seq (r1 r2 : re)
| Alt (r1 r2 : re)
| Star (r : re)               (* [r*] *)
| LazyStar (r : re)           (* [r*?] *)
| Group (r : re).             (* [(r)] *)

Definition Plus (r : re) : re := Seq r (Star r).     (* [r+] *)
Definition Opt (r : re) : re := Alt r Eps.           (* [r?] *)

(** A literal word. *)
Fixpoint Lit (s : string) : re :=
  match s with
  | EmptyString => Eps
  | String c EmptyString => Chr c
  | String c s' => Seq (Chr c) (Lit s')
  end.

(** [(?:a|b|...)] *)
Fixpoint OneOf (rs : list re) : re :=
  match rs with
  | [] => Eps
  | [r] => r
  | r :: rs' => Alt r (OneOf rs')
  end.

Definition chr_matches (icase : bool) (c x : ascii) : bool :=
  if icase then Ascii.eqb (Str.lower_char c) (Str.lower_char x) else Ascii.eqb c x.

(** What a successful match leaves: the unread rest of the subject and the
    text of the group, if the group took part. *)
Definition result : Type := (string * option string)%type.

(** [m icase r s cap k]: match [r] at the head of [s], then hand the rest to
    [k]; alternatives are tried in Python's order and the first one whose
    continuation succeeds wins. *)
Fixpoint m (icase : bool) (r : re) (s : string) (cap : option string)
    (k : string -> option string -> option result) {struct r} : option result :=
  match r with
  | Eps => k s cap
  | Chr c =>
      match s with
      | String x s' => if chr_matches icase c x then k s' cap else None
      | EmptyString => None
      end
  | Any =>
      match s with
      | String x s' => if Ascii.eqb x "010"%char then None else k s' cap
      | EmptyString => None
      end
  | Digit =>
      match s with
      | String x s' => if Str.is_digit x then k s' cap else None
      | EmptyString => None
      end
  | Space =>
      match s with
      | String x s' => if Str.is_space x then k s' cap else None
      | EmptyString => None
      end
  | Seq r1 r2 => m icase r1 s cap (fun s' cap' => m icase r2 s' cap' k)
  | Alt r1 r2 =>
      match m icase r1 s cap k with
      | Some x => Some x
      | None => m icase r2 s cap k
      end
  | Star r' =>
      (fix loop (n : nat) (s : string) (cap : option string) {struct n} : option result :=
         match n with
         | O => k s cap
         | S n' =>
             match m icase r' s cap
                     (fun s' cap' =>
                        if (String.length s' <? String.length s)%nat
                        then loop n' s' cap' else None) with
             | Some x => Some x
             | None => k s cap
             end
         end) (String.length s) s cap
  | LazyStar r' =>
      (fix loop (n : nat) (s : string) (cap : option string) {struct n} : option result :=
         match k s cap with
         | Some x => Some x
         | None =>
             match n with
             | O => None
             | S n' =>
                 m icase r' s cap
                   (fun s' cap' =>
                      if (String.length s' <? String.length s)%nat
                      then loop n' s' cap' else None)
             end
         end) (String.length s) s cap
  | Group r' =>
      m icase r' s cap
        (fun s' _ => k s' (Some (Str.take (String.length s - String.length s') s)))
  end.

(** [pattern.match(s)] *)
Definition match_at (icase : bool) (r : re) (s : string) : option result :=
  m icase r s None (fun s' cap => Some (s', cap)).

(** [re.search(pattern, s)] as a truth value. *)
Fixpoint search (icase : bool) (r : re) (s : string) : bool :=
  match match_at icase r s with
  | Some _ => true
  | None =>
      match s with
      | EmptyString => false
      | String _ s' => search icase r s'
      end
  end.

Definition tail (s : string) : string :=
  match s with
  | EmptyString => EmptyString
  | String _ s' => s'
  end.

(** [re.findall] for a pattern with one group: the group of each match, the
    matches taken left to right without overlap. *)
Fixpoint findall_fuel (fuel : nat) (icase : bool) (r : re) (s : string) : list string :=
  match fuel with
  | O => []
  | S fuel' =>
      match match_at icase r s with
      | Some (s', cap) =>
          match cap with Some g => g | None => EmptyString end ::
          (if (String.length s' <? String.length s)%nat
           then findall_fuel fuel' icase r s'
           else match s with
                | EmptyString => []
                | String _ t => findall_fuel fuel' icase r t
                end)
      | None =>
          match s with
          | EmptyString => []
          | String _ t => findall_fuel fuel' icase r t
          end
      end
  end.

Definition findall (icase : bool) (r : re) (s : string) : list string :=
  findall_fuel (S (String.length s)) icase r s.

End Re.

(* ===================================================================== *)
(** * CollectionResult                                                    *)
(* ===================================================================== *)

(** [{'success': True, 'data': data, 'metadata': metadata}] *)
Definition success_result (data : pyval) (metadata : list (string * pyval)) : pyval :=
  PyDict [("success", PyBool true); ("data", data); ("metadata", PyDict metadata)].

(** [{'success': False, 'error': msg}] *)
Definition failure_result (msg : string) : pyval :=
  PyDict [("success", PyBool false); ("error", PyStr msg)].

(** [result[k]] read back from a returned dictionary. *)
Definition field (k : string) (result : pyval) : option pyval :=
  match result with
  | PyDict d => Py.assoc k d
  | _ => None
  end.

Definition is_success (result : pyval) : Prop := field "success" result = Some (PyBool true).

Definition is_failure (result : pyval) : Prop :=
  field "success" result = Some (PyBool false) /\
  exists msg, field "error" result = Some (PyStr msg) /\ msg <> "".

(** The result's metadata names [source] as where the data came from. *)
Definition resolved_from (source : string) (result : pyval) : Prop :=
  field "metadata" result
  = Some (PyDict [("source", PyStr source); ("country", PyStr "Zambia")]).

(** [results.append(r)] on the list held in the frame. *)
Definition append {W : Type} (r : pyval) : M W (list pyval) unit :=
  results <- get_local ;; set_local (results ++ [r]).

(** [results if results else None] *)
Definition list_or_none (results : list pyval) : pyval :=
  match results with
  | [] => PyNone
  | _ => PyList results
  end.

(** What a strategy hands back: [None], or a list with a record in it. *)
Definition no_result_or_records (v : pyval) : Prop :=
  v = PyNone \/ exists records, v = PyList records /\ records <> [].

(* ===================================================================== *)
(** * robust_collectors.py                                                *)
(* ===================================================================== *)

Module Robust.

Module WorldBankCollector.
Section WorldBankCollector.
Context {W : Type}.
Variable http_get : request -> W -> (exn + response) * W.
Variable now : W -> clock.

Definition indicators : list (string * string) :=
  [ ("population", "SP.POP.TOTL");
    ("health", "SP.DYN.LE00.IN");
    ("education", "SE.ADT.LITR.ZS");
    ("economy", "NY.GDP.MKTP.CD");
    ("agriculture", "AG.LND.AGRI.ZS");
    ("mining", "NY.GDP.MINR.RT.ZS") ].

Definition api_request (indicator : string) : request :=
  mkRequest ("https://api.worldbank.org/v2/country/ZMB/indicator/" ++ indicator)
            [("format", PyStr "json"); ("date", PyStr "2022:2025"); ("per_page", PyInt 20)]
            5.

(** The dictionary appended for one observation (lines 87-93). *)
Definition api_record (item : pyval) : M W (list pyval) pyval :=
  i <- lift (Py.getitem_str item "indicator") ;;
  indicator_value <- lift (Py.getitem_str i "value") ;;
  date <- lift (Py.getitem_str item "date") ;;
  value <- lift (Py.getitem_str item "value") ;;
  ret (PyDict [ ("Indicator", indicator_value);
                ("Year", date);
                ("Value", value);
                ("Country", PyStr "Zambia");
                ("Source", PyStr "World Bank API") ]).

(** [len(data) > 1 and data[1]] as a condition. *)
Definition has_observations {L : Type} (data : pyval) : M W L bool :=
  n <- lift (Py.len data) ;;
  if (1 <? n)%nat
  then d1 <- lift (Py.getitem_int data 1) ;; ret (Py.truthy d1)
  else ret false.

Definition _try_world_bank_api (data_type : string) : Method W pyval :=
  method ([] : list pyval)
    (try_except
       (match Py.assoc (Str.lower data_type) indicators with
        | None => ret PyNone
        | Some indicator =>
            if String.eqb indicator "" then ret PyNone else
            response <- session_get http_get (api_request indicator) ;;
            if (status_code response =? 200)%Z then
              data <- json response ;;
              c <- has_observations data ;;
              if (c : bool) then
                set_local [] ;;
                d1 <- lift (Py.getitem_int data 1) ;;
                recent <- lift (Py.slice_to d1 5) ;;
                items <- lift (Py.iter recent) ;;
                for_each items (fun item =>
                  v <- lift (Py.get item "value") ;;
                  if Py.truthy v
                  then r <- api_record item ;; append r
                  else ret tt) ;;
                results <- get_local ;;
                ret (list_or_none results)
              else ret PyNone
            else ret PyNone
        end)
       (fun e => ret PyNone)).

Definition page_request : request :=
  mkRequest "https://www.worldbank.org/en/country/zambia" [] 8.

(** [soup.find_all(['div', 'span', 'p'], class_=re.compile(r'stat|data|number'))] *)
Definition stat_elements (soup : list element) : list element :=
  filter (fun el =>
            existsb (String.eqb (el_tag el)) ["div"; "span"; "p"] &&
            existsb (fun c => Str.contains "stat" c || Str.contains "data" c
                              || Str.contains "number" c) (el_class el))
         soup.

Definition page_keywords : list string := ["million"; "billion"; "%"; "gdp"; "population"].

Definition _scrape_world_bank_page (data_type : string) : Method W pyval :=
  method ([] : list pyval)
    (try_except
       (response <- session_get http_get page_request ;;
        if (status_code response =? 200)%Z then
          set_local [] ;;
          for_each_break (stat_elements (resp_soup response)) (fun element =>
            let text := el_text element in
            if Str.exists_char Str.is_digit text && (String.length text <? 200)%nat then
              if existsb (fun keyword => Str.contains keyword (Str.lower text)) page_keywords then
                t <- datetime_now now ;;
                append (PyDict [ ("Indicator", PyStr ("Zambia " ++ Str.title data_type ++ " Data"));
                                 ("Value", PyStr text);
                                 ("Source", PyStr "World Bank Website");
                                 ("Country", PyStr "Zambia");
                                 ("Date", PyStr (now_ymd t)) ]) ;;
                results <- get_local ;;
                ret (5 <=? List.length results)%nat
              else ret false
            else ret false) ;;
          results <- get_local ;;
          ret (list_or_none results)
        else ret PyNone)
       (fun e => ret PyNone)).

Definition entry (indicator value unit : string) : list (string * string) :=
  [("Indicator", indicator); ("Value", value); ("Unit", unit)].

Definition base_data : list (string * list (list (string * string))) :=
  [ ("population",
     [ entry "Total Population" "20.22 million (2025 est.)" "people";
       entry "Population Growth Rate" "2.8% annual" "percent";
       entry "Urban Population" "46.8%" "percent";
       entry "Population Density" "27 people/km²" "density" ]);
    ("health",
     [ entry "Life Expectancy" "64.3 years (2025)" "years";
       entry "Infant Mortality Rate" "36.2 per 1,000" "per 1000 births";
       entry "Maternal Mortality" "198 per 100,000" "per 100k births";
       entry "HIV Prevalence" "10.8%" "percent" ]);
    ("education",
     [ entry "Literacy Rate" "87.3%" "percent";
       entry "Primary School Enrollment" "91.2%" "percent";
       entry "Secondary School Enrollment" "47.8%" "percent";
       entry "Tertiary Enrollment" "5.4%" "percent" ]);
    ("economy",
     [ entry "GDP (nominal)" "$31.2 billion (2025)" "USD billion";
       entry "GDP per capita" "$1,544" "USD";
       entry "GDP Growth Rate" "5.2%" "percent";
       entry "Inflation Rate" "7.8%" "percent" ]);
    ("agriculture",
     [ entry "Agricultural Land" "58.1%" "percent of total";
       entry "Arable Land" "4.8%" "percent of total";
       entry "Agricultural Employment" "54.8%" "percent of workforce";
       entry "Crop Production Index" "105.2" "index" ]);
    ("mining",
     [ entry "Copper Production" "763,287 tonnes (2022)" "tonnes";
       entry "Mining GDP Share" "12.1%" "percent";
       entry "Mineral Exports" "$6.8 billion" "USD";
       entry "Mining Employment" "89,000 jobs" "jobs" ]) ].

(** [item[k]] on a table entry; every entry of [base_data] has the keys read
    below, the empty string stands for the [KeyError] that cannot occur. *)
Definition at_key (k : string) (item : list (string * string)) : string :=
  Py.get_default k item "".

Definition _get_fallback_data (data_type : string) : list pyval :=
  let data_list := Py.get_default (Str.lower data_type) base_data [] in
  map (fun item =>
         PyDict [ ("Indicator", PyStr (at_key "Indicator" item));
                  ("Value", PyStr (at_key "Value" item));
                  ("Unit", PyStr (Py.get_default "Unit" item ""));
                  ("Country", PyStr "Zambia");
                  ("Source", PyStr "World Bank Reference Data");
                  ("Date", PyStr "2025 (Current)");
                  ("Note", PyStr "Current estimates - verify with official World Bank data") ])
      data_list.

(** The statements under [try:] in [collect_data] (lines 28-52). *)
Definition collect_body (data_type : string) : M W unit pyval :=
  api_data <- call (_try_world_bank_api data_type) ;;
  if Py.truthy api_data then
    ret (success_result api_data
           [("source", PyStr "World Bank API"); ("country", PyStr "Zambia")])
  else
    scraped_data <- call (_scrape_world_bank_page data_type) ;;
    if Py.truthy scraped_data then
      ret (success_result scraped_data
             [("source", PyStr "World Bank Website"); ("country", PyStr "Zambia")])
    else
      let fallback_data := _get_fallback_data data_type in
      ret (success_result (PyList fallback_data)
             [("source", PyStr "World Bank Reference Data"); ("country", PyStr "Zambia")]).

Definition collect_data (data_type : string) : Method W pyval :=
  method tt
    (try_except (collect_body data_type)
       (fun e => ret (failure_result ("World Bank data collection failed: " ++ exn_str e)))).

End WorldBankCollector.
End WorldBankCollector.

Module IMFCollector.
Section IMFCollector.
Context {W : Type}.
Variable http_get : request -> W -> (exn + response) * W.
Variable now : W -> clock.

Definition page_request : request :=
  mkRequest "https://www.imf.org/en/Countries/ZMB" [] 6.

(** [soup.find_all(['td', 'span', 'div'])] *)
Definition cells (soup : list element) : list element :=
  filter (fun el => existsb (String.eqb (el_tag el)) ["td"; "span"; "div"]) soup.

(** [r'\d+\.?\d*%|\$\d+'] *)
Definition figure : Re.re :=
  Re.Alt (Re.Seq (Re.Plus Re.Digit)
            (Re.Seq (Re.Opt (Re.Chr "."%char)) (Re.Seq (Re.Star Re.Digit) (Re.Chr "%"%char))))
         (Re.Seq (Re.Chr "$"%char) (Re.Plus Re.Digit)).

Definition page_keywords : list string := ["gdp"; "inflation"; "debt"; "growth"].

Definition _scrape_imf_data (data_type : string) : Method W pyval :=
  method ([] : list pyval)
    (try_except
       (response <- session_get http_get page_request ;;
        if (status_code response =? 200)%Z then
          set_local [] ;;
          for_each_break (cells (resp_soup response)) (fun element =>
            let text := el_text element in
            if Re.search false figure text then
              if existsb (fun keyword => Str.contains keyword (Str.lower text)) page_keywords then
                t <- datetime_now now ;;
                append (PyDict [ ("Indicator", PyStr ("IMF " ++ Str.title data_type ++ " Metric"));
                                 ("Value", PyStr text);
                                 ("Source", PyStr "IMF Website");
                                 ("Country", PyStr "Zambia");
                                 ("Date", PyStr (now_ymd t)) ]) ;;
                results <- get_local ;;
                ret (3 <=? List.length results)%nat
              else ret false
            else ret false) ;;
          results <- get_local ;;
          ret (list_or_none results)
        else ret PyNone)
       (fun e => ret PyNone)).

Definition entry (indicator value type : string) : list (string * string) :=
  [("Indicator", indicator); ("Value", value); ("Type", type)].

Definition economy : list (list (string * string)) :=
  [ entry "IMF GDP Growth Forecast" "4.2% (2024)" "Economic Growth";
    entry "IMF Inflation Projection" "8.5% (2024)" "Monetary Policy";
    entry "Current Account Balance" "-3.2% of GDP" "External Balance";
    entry "Government Debt" "132.8% of GDP" "Fiscal Policy" ].

Definition imf_data : list (string * list (list (string * string))) :=
  [ ("economy", economy);
    ("population",
     [ entry "IMF Population Estimate" "19.6 million" "Demographics";
       entry "Labor Force" "7.2 million" "Demographics";
       entry "Unemployment Rate" "12.9%" "Labor Market" ]) ].

Definition at_key (k : string) (item : list (string * string)) : string :=
  Py.get_default k item "".

Definition _get_imf_fallback_data (data_type : string) : list pyval :=
  let data_list :=
    Py.get_default (Str.lower data_type) imf_data economy in
  map (fun item =>
         PyDict [ ("Indicator", PyStr (at_key "Indicator" item));
                  ("Value", PyStr (at_key "Value" item));
                  ("Type", PyStr (at_key "Type" item));
                  ("Country", PyStr "Zambia");
                  ("Source", PyStr "IMF Reference Data");
                  ("Date", PyStr "2024 (IMF Estimates)");
                  ("Note", PyStr "Based on IMF Article IV consultation and forecasts") ])
      data_list.

Definition collect_body (data_type : string) : M W unit pyval :=
  scraped_data <- call (_scrape_imf_data data_type) ;;
  if Py.truthy scraped_data then
    ret (success_result scraped_data [("source", PyStr "IMF"); ("country", PyStr "Zambia")])
  else
    let fallback_data := _get_imf_fallback_data data_type in
    ret (success_result (PyList fallback_data)
           [("source", PyStr "IMF Reference Data"); ("country", PyStr "Zambia")]).

Definition collect_data (data_type : string) : Method W pyval :=
  method tt
    (try_except (collect_body data_type)
       (fun e => ret (failure_result ("IMF data collection failed: " ++ exn_str e)))).

End IMFCollector.
End IMFCollector.

Module USAIDCollector.
Section USAIDCollector.
Context {W : Type}.

Definition entry (program value focus : string) : list (string * string) :=
  [("Program", program); ("Value", value); ("Focus", focus)].

Definition health : list (list (string * string)) :=
  [ entry "USAID Health Program" "$65 million (2023)" "HIV/AIDS, Malaria, TB";
    entry "Maternal Health Initiative" "15,000 beneficiaries" "Healthcare Access";
    entry "PEPFAR Zambia" "$180 million" "HIV Prevention/Treatment";
    entry "Malaria Prevention" "2.1 million nets distributed" "Disease Prevention" ].

Definition programs : list (string * list (list (string * string))) :=
  [ ("health", health);
    ("education",
     [ entry "Education Support" "$25 million" "Primary Education";
       entry "Teacher Training" "5,200 teachers trained" "Capacity Building";
       entry "School Infrastructure" "120 schools supported" "Infrastructure";
       entry "Girls Education" "18,000 girls supported" "Gender Equality" ]);
    ("agriculture",
     [ entry "Feed the Future" "$42 million" "Food Security";
       entry "Farmer Training" "85,000 farmers trained" "Agricultural Productivity";
       entry "Market Access" "450 cooperatives supported" "Value Chains";
       entry "Nutrition Programs" "120,000 beneficiaries" "Food Security" ]);
    ("economy",
     [ entry "Trade Facilitation" "$15 million" "Economic Growth";
       entry "Private Sector Development" "2,500 jobs created" "Employment";
       entry "Financial Inclusion" "45,000 people reached" "Access to Finance";
       entry "Business Training" "1,200 entrepreneurs trained" "Capacity Building" ]) ].

Definition at_key (k : string) (item : list (string * string)) : string :=
  Py.get_default k item "".

Definition _get_usaid_program_data (data_type : string) : list pyval :=
  let program_list :=
    Py.get_default (Str.lower data_type) programs health in
  map (fun program =>
         PyDict [ ("Program", PyStr (at_key "Program" program));
                  ("Investment_Value", PyStr (at_key "Value" program));
                  ("Focus_Area", PyStr (at_key "Focus" program));
                  ("Country", PyStr "Zambia");
                  ("Source", PyStr "USAID Programs");
                  ("Date", PyStr "2023-2024");
                  ("Type", PyStr (Str.title data_type)) ])
      program_list.

Definition collect_body (data_type : string) : M W unit pyval :=
  let usaid_data := _get_usaid_program_data data_type in
  ret (success_result (PyList usaid_data)
         [("source", PyStr "USAID Programs"); ("country", PyStr "Zambia")]).

Definition collect_data (data_type : string) : Method W pyval :=
  method tt
    (try_except (collect_body data_type)
       (fun e => ret (failure_result ("USAID data collection failed: " ++ exn_str e)))).

End USAIDCollector.
End USAIDCollector.

Module UNCollector.
Section UNCollector.
Context {W : Type}.

Definition entry (indicator value year : string) : list (string * string) :=
  [("Indicator", indicator); ("Value", value); ("Year", year)].

Definition population : list (list (string * string)) :=
  [ entry "UN Population Estimate" "19,610,769" "2023";
    entry "Population Density" "26 per km²" "2023";
    entry "Urban Population" "45.2%" "2023";
    entry "Median Age" "16.8 years" "2023" ].

Definition un_stats : list (string * list (list (string * string))) :=
  [ ("population", population);
    ("health",
     [ entry "Life Expectancy" "63.9 years" "2023";
       entry "Under-5 Mortality" "61 per 1,000" "2022";
       entry "Maternal Mortality" "213 per 100,000" "2020";
       entry "HIV Prevalence" "11.1%" "2022" ]);
    ("education",
     [ entry "Adult Literacy Rate" "86.7%" "2022";
       entry "Primary Completion Rate" "84.3%" "2021";
       entry "Secondary Enrollment" "44.1%" "2021";
       entry "Gender Parity Index" "1.05" "2021" ]);
    ("economy",
     [ entry "Human Development Index" "0.565 (Medium)" "2022";
       entry "GNI per capita" "$3,800 PPP" "2022";
       entry "Poverty Rate" "57.5%" "2022";
       entry "Gini Coefficient" "57.1" "2019" ]) ].

Definition at_key (k : string) (item : list (string * string)) : string :=
  Py.get_default k item "".

Definition _get_un_statistical_data (data_type : string) : list pyval :=
  let stats_list :=
    Py.get_default (Str.lower data_type) un_stats population in
  map (fun stat =>
         PyDict [ ("Indicator", PyStr (at_key "Indicator" stat));
                  ("Value", PyStr (at_key "Value" stat));
                  ("Year", PyStr (at_key "Year" stat));
                  ("Country", PyStr "Zambia");
                  ("Source", PyStr "UN Statistics Division");
                  ("Database", PyStr "UN Data Portal");
                  ("Type", PyStr (Str.title data_type)) ])
      stats_list.

Definition collect_body (data_type : string) : M W unit pyval :=
  let un_data := _get_un_statistical_data data_type in
  ret (success_result (PyList un_data)
         [("source", PyStr "UN Statistics"); ("country", PyStr "Zambia")]).

Definition collect_data (data_type : string) : Method W pyval :=
  method tt
    (try_except (collect_body data_type)
       (fun e => ret (failure_result ("UN data collection failed: " ++ exn_str e)))).

End UNCollector.
End UNCollector.

End Robust.

(** [enumerate(xs)] *)
Definition enumerate {A : Type} (xs : list A) : list (nat * A) :=
  combine (seq 0 (List.length xs)) xs.

(** [r'( \d+\.?\d* )'], the group spaced out *)
Definition re_number : Re.re :=
  Re.Group (Re.Seq (Re.Plus Re.Digit) (Re.Seq (Re.Opt (Re.Chr "."%char)) (Re.Star Re.Digit))).

(** [r'word.*?( \d+\.?\d* )\s*(?:u1|u2|...)'], the group spaced out *)
Definition re_after (word : string) (units : list Re.re) : Re.re :=
  Re.Seq (Re.Lit word)
    (Re.Seq (Re.LazyStar Re.Any)
       (Re.Seq re_number (Re.Seq (Re.Star Re.Space) (Re.OneOf units)))).

(* ===================================================================== *)
(** * data_collectors.py                                                  *)
(* ===================================================================== *)

Module Data.

Module WorldBankCollector.
Section WorldBankCollector.
Context {W : Type}.
Variable http_get : request -> W -> (exn + response) * W.

Definition base_url : string := "https://api.worldbank.org/v2".
Definition country_code : string := "ZMB".

Definition indicators_map : list (string * list string) :=
  [ ("population", ["SP.POP.TOTL"; "SP.POP.GROW"; "SP.URB.TOTL.IN.ZS"; "SP.RUR.TOTL.ZS"]);
    ("health", ["SP.DYN.LE00.IN"; "SH.DYN.MORT"; "SH.STA.MMRT"; "SH.IMM.MEAS"]);
    ("education", ["SE.ADT.LITR.ZS"; "SE.PRM.NENR"; "SE.SEC.NENR"; "SE.TER.ENRR"]);
    ("economy", ["NY.GDP.MKTP.CD"; "NY.GDP.PCAP.CD"; "NY.GDP.MKTP.KD.ZG"; "FP.CPI.TOTL.ZG"]);
    ("agriculture", ["AG.LND.AGRI.ZS"; "AG.PRD.CROP.XD"; "AG.LND.ARBL.ZS"; "AG.YLD.CREL.KG"]);
    ("mining", ["NY.GDP.MINR.RT.ZS"; "TX.VAL.MRCH.CD.WT"; "EG.USE.COMM.CL.ZS"]) ].

Definition _get_indicators_by_type (data_type : string) : list string :=
  Py.get_default (Str.lower data_type) indicators_map [].

Definition api_request (indicator : string) : request :=
  mkRequest (base_url ++ "/countries/" ++ country_code ++ "/indicators/" ++ indicator)
            [("format", PyStr "json"); ("date", PyStr "2010:2024"); ("per_page", PyInt 100)]
            30.

(** The dictionary appended for one observation (lines 60-67). *)
Definition api_record (item : pyval) : M W (list pyval) pyval :=
  i <- lift (Py.getitem_str item "indicator") ;;
  indicator_value <- lift (Py.getitem_str i "value") ;;
  i' <- lift (Py.getitem_str item "indicator") ;;
  indicator_id <- lift (Py.getitem_str i' "id") ;;
  date <- lift (Py.getitem_str item "date") ;;
  value <- lift (Py.getitem_str item "value") ;;
  c <- lift (Py.getitem_str item "country") ;;
  country <- lift (Py.getitem_str c "value") ;;
  ret (PyDict [ ("Indicator", indicator_value);
                ("Indicator_Code", indicator_id);
                ("Year", date);
                ("Value", value);
                ("Country", country);
                ("Source", PyStr "World Bank") ]).

(** [len(data) > 1 and data[1]] as a condition. *)
Definition has_observations (data : pyval) : M W (list pyval) bool :=
  n <- lift (Py.len data) ;;
  if (1 <? n)%nat
  then d1 <- lift (Py.getitem_int data 1) ;; ret (Py.truthy d1)
  else ret false.

(** The statements under the inner [try:] (lines 45-69); the frame holds
    [all_data]. *)
Definition fetch_body (indicator : string) : M W (list pyval) unit :=
  response <- session_get http_get (api_request indicator) ;;
  raise_for_status response ;;
  data <- json response ;;
  c <- has_observations data ;;
  if (c : bool) then
    d1 <- lift (Py.getitem_int data 1) ;;
    items <- lift (Py.iter d1) ;;
    for_each items (fun item =>
      v <- lift (Py.getitem_str item "value") ;;
      if Py.is_not_none v
      then r <- api_record item ;; append r
      else ret tt)
  else ret tt.

(** One turn of the loop over the indicators (lines 44-73). *)
Definition fetch_indicator (indicator : string) : M W (list pyval) unit :=
  try_except (fetch_body indicator) (fun e => ret tt).

(** The statements under the outer [try:] (lines 33-90). *)
Definition collect_body (data_type : string) : M W (list pyval) pyval :=
  let indicators := _get_indicators_by_type data_type in
  match indicators with
  | [] => ret (failure_result ("No World Bank indicators found for data type: " ++ data_type))
  | _ =>
      set_local [] ;;
      for_each indicators fetch_indicator ;;
      all_data <- get_local ;;
      match all_data with
      | [] => ret (failure_result "No data retrieved from World Bank API")
      | _ =>
          ret (success_result (PyList all_data)
                 [ ("source", PyStr "World Bank");
                   ("country", PyStr "Zambia");
                   ("indicators_count", PyInt (Z.of_nat (List.length indicators)));
                   ("records_count", PyInt (Z.of_nat (List.length all_data))) ])
      end
  end.

Definition collect_data (data_type : string) : Method W pyval :=
  method []
    (try_except (collect_body data_type)
       (fun e => ret (failure_result ("World Bank API error: " ++ exn_str e)))).

End WorldBankCollector.
End WorldBankCollector.

Module IMFCollector.
Section IMFCollector.
Context {W : Type}.
Variable http_get : request -> W -> (exn + response) * W.
Variable now : W -> clock.

Definition url : string := "https://www.imf.org/en/Countries/ZMB".

(** [r'GDP.*?( \d+\.?\d* )\s*(?:percent|%|billion|million)'], the group spaced out *)
Definition gdp_pattern : Re.re :=
  re_after "GDP" [Re.Lit "percent"; Re.Chr "%"%char; Re.Lit "billion"; Re.Lit "million"].

(** [r'inflation.*?( \d+\.?\d* )\s*(?:percent|%)'], the group spaced out *)
Definition inflation_pattern : Re.re :=
  re_after "inflation" [Re.Lit "percent"; Re.Chr "%"%char].

(** [r'( \d+\.?\d* )\s*(?:percent|%|billion|million|USD|\$)'], the group spaced out *)
Definition numeric_pattern : Re.re :=
  Re.Seq re_number
    (Re.Seq (Re.Star Re.Space)
       (Re.OneOf [Re.Lit "percent"; Re.Chr "%"%char; Re.Lit "billion"; Re.Lit "million";
                  Re.Lit "USD"; Re.Chr "$"%char])).

Definition metric (indicator value type date : string) : pyval :=
  PyDict [ ("Indicator", PyStr indicator);
           ("Value", PyStr value);
           ("Type", PyStr type);
           ("Source", PyStr "IMF Website");
           ("Date", PyStr date) ].

(** [for i, v in enumerate(matches[:limit]): data.append({...})] *)
Definition emit (limit : nat) (matches : list string) (label type : string)
  : M W (list pyval) unit :=
  for_each (enumerate (firstn limit matches)) (fun iv =>
    t <- datetime_now now ;;
    append (metric (label ++ Str.of_nat (fst iv + 1)) (snd iv) type (now_ymd t))).

Definition _parse_imf_content (content data_type : string) : Method W pyval :=
  method ([] : list pyval)
    (if String.eqb (Str.lower data_type) "economy" then
       let gdp_matches := Re.findall true gdp_pattern content in
       let inflation_matches := Re.findall true inflation_pattern content in
       emit 3 gdp_matches "GDP Related Metric " "Economic" ;;
       emit 3 inflation_matches "Inflation Related Metric " "Economic" ;;
       data <- get_local ;; ret (PyList data)
     else
       let numeric_matches := Re.findall false numeric_pattern content in
       emit 10 numeric_matches (Str.title data_type ++ " Metric ") (Str.title data_type) ;;
       data <- get_local ;; ret (PyList data)).

(** The statements under [try:] in [collect_data] (lines 147-178). *)
Definition collect_body (data_type : string) : M W unit pyval :=
  response <- session_get http_get (mkRequest url [] 30) ;;
  raise_for_status response ;;
  match resp_extract response with
  | None => ret (failure_result "Failed to extract content from IMF website")
  | Some content =>
      if String.eqb content "" then
        ret (failure_result "Failed to extract content from IMF website")
      else
        data <- call (_parse_imf_content content data_type) ;;
        if negb (Py.truthy data) then
          ret (failure_result ("No relevant " ++ data_type ++ " data found on IMF website"))
        else
          ret (success_result data
                 [("source", PyStr "IMF"); ("url", PyStr url); ("data_type", PyStr data_type)])
  end.

Definition collect_data (data_type : string) : Method W pyval :=
  method tt
    (try_except (collect_body data_type)
       (fun e => ret (failure_result ("IMF website scraping failed: " ++ exn_str e)))).

End IMFCollector.
End IMFCollector.

(** [value.replace(',', '')] *)
Fixpoint remove_commas (s : string) : string :=
  match s with
  | EmptyString => EmptyString
  | String c s' =>
      if Ascii.eqb c ","%char then remove_commas s' else String c (remove_commas s')
  end.

(** [r',\d{3}'] *)
Definition re_thousands : Re.re :=
  Re.Seq (Re.Chr ","%char) (Re.Seq Re.Digit (Re.Seq Re.Digit Re.Digit)).

(** [for i, v in enumerate(matches[:limit]): data.append(record i v)], where
    [record] is given the index, the match and today's date. *)
Definition emit_with {W : Type} (now : W -> clock) (limit : nat) (matches : list string)
    (record : nat -> string -> string -> pyval) : M W (list pyval) unit :=
  for_each (enumerate (firstn limit matches)) (fun iv =>
    t <- datetime_now now ;;
    append (record (fst iv) (snd iv) (now_ymd t))).

Module USAIDCollector.
Section USAIDCollector.
Context {W : Type}.
Variable http_get : request -> W -> (exn + response) * W.
Variable now : W -> clock.

Definition url : string := "https://www.usaid.gov/zambia".

(** [r'\$( \d+(?:,\d{3})*(?:\.\d{2})? )\s*(?:million|billion)'], the group
    spaced out *)
Definition funding_pattern : Re.re :=
  Re.Seq (Re.Chr "$"%char)
    (Re.Seq (Re.Group (Re.Seq (Re.Plus Re.Digit)
                         (Re.Seq (Re.Star re_thousands)
                            (Re.Opt (Re.Seq (Re.Chr "."%char) (Re.Seq Re.Digit Re.Digit))))))
       (Re.Seq (Re.Star Re.Space) (Re.OneOf [Re.Lit "million"; Re.Lit "billion"]))).

(** [r'(\d+)\s*(?:programs?|projects?|beneficiaries)'] *)
Definition program_pattern : Re.re :=
  Re.Seq (Re.Group (Re.Plus Re.Digit))
    (Re.Seq (Re.Star Re.Space)
       (Re.OneOf [ Re.Seq (Re.Lit "program") (Re.Opt (Re.Chr "s"%char));
                   Re.Seq (Re.Lit "project") (Re.Opt (Re.Chr "s"%char));
                   Re.Lit "beneficiaries" ])).

(** [rf'{data_type}.*?( \d+(?:,\d{{3}})* )'], the group spaced out.  The
    pattern is only built for a [data_type] that is one of three words up to
    letter case, so its text holds letters only and stands for itself. *)
Definition sector_pattern (data_type : string) : Re.re :=
  Re.Seq (Re.Lit data_type)
    (Re.Seq (Re.LazyStar Re.Any)
       (Re.Group (Re.Seq (Re.Plus Re.Digit) (Re.Star re_thousands)))).

Definition funding_record (i : nat) (amount date : string) : pyval :=
  PyDict [ ("Indicator", PyStr ("USAID Funding Amount " ++ Str.of_nat (i + 1)));
           ("Value", PyStr amount);
           ("Unit", PyStr "USD");
           ("Type", PyStr "Development Aid");
           ("Source", PyStr "USAID Website");
           ("Date", PyStr date) ].

Definition program_record (i : nat) (count date : string) : pyval :=
  PyDict [ ("Indicator", PyStr ("Program/Beneficiary Count " ++ Str.of_nat (i + 1)));
           ("Value", PyStr count);
           ("Type", PyStr "Program Data");
           ("Source", PyStr "USAID Website");
           ("Date", PyStr date) ].

Definition sector_record (data_type : string) (i : nat) (value date : string) : pyval :=
  PyDict [ ("Indicator", PyStr (Str.title data_type ++ " Related Metric " ++ Str.of_nat (i + 1)));
           ("Value", PyStr (remove_commas value));
           ("Type", PyStr (Str.title data_type));
           ("Source", PyStr "USAID Website");
           ("Date", PyStr date) ].

Definition sectors : list string := ["health"; "education"; "agriculture"].

Definition _parse_usaid_content (content data_type : string) : Method W pyval :=
  method ([] : list pyval)
    (let funding_matches := Re.findall true funding_pattern content in
     let program_matches := Re.findall true program_pattern content in
     emit_with now 5 funding_matches funding_record ;;
     emit_with now 5 program_matches program_record ;;
     (if existsb (String.eqb (Str.lower data_type)) sectors then
        let sector_matches := Re.findall true (sector_pattern data_type) content in
        emit_with now 3 sector_matches (sector_record data_type)
      else ret tt) ;;
     data <- get_local ;; ret (PyList data)).

(** The statements under [try:] in [collect_data] (lines 237-266). *)
Definition collect_body (data_type : string) : M W unit pyval :=
  response <- session_get http_get (mkRequest url [] 30) ;;
  raise_for_status response ;;
  match resp_extract response with
  | None => ret (failure_result "Failed to extract content from USAID website")
  | Some content =>
      if String.eqb content "" then
        ret (failure_result "Failed to extract content from USAID website")
      else
        data <- call (_parse_usaid_content content data_type) ;;
        if negb (Py.truthy data) then
          ret (failure_result ("No relevant " ++ data_type ++ " data found on USAID website"))
        else
          ret (success_result data
                 [("source", PyStr "USAID"); ("url", PyStr url); ("data_type", PyStr data_type)])
  end.

Definition collect_data (data_type : string) : Method W pyval :=
  method tt
    (try_except (collect_body data_type)
       (fun e => ret (failure_result ("USAID website scraping failed: " ++ exn_str e)))).

End USAIDCollector.
End USAIDCollector.

Module UNCollector.
Section UNCollector.
Context {W : Type}.
Variable http_get : request -> W -> (exn + response) * W.
Variable now : W -> clock.

Definition urls : list string :=
  ["https://data.un.org/en/iso/zm.html"; "https://www.unicef.org/zambia/"].

(** [r'( \d+(?:,\d{3})* )\s*(?:children|child)'], the group spaced out *)
Definition child_pattern : Re.re :=
  Re.Seq (Re.Group (Re.Seq (Re.Plus Re.Digit) (Re.Star re_thousands)))
    (Re.Seq (Re.Star Re.Space) (Re.OneOf [Re.Lit "children"; Re.Lit "child"])).

(** [r'mortality.*?( \d+(?:\.\d+)? )'], the group spaced out *)
Definition mortality_pattern : Re.re :=
  Re.Seq (Re.Lit "mortality")
    (Re.Seq (Re.LazyStar Re.Any)
       (Re.Group (Re.Seq (Re.Plus Re.Digit)
                    (Re.Opt (Re.Seq (Re.Chr "."%char) (Re.Plus Re.Digit)))))).

(** [r'( \d+(?:\.\d+)? )\s*(?:percent|%)'], the group spaced out *)
Definition percentage_pattern : Re.re :=
  Re.Seq (Re.Group (Re.Seq (Re.Plus Re.Digit)
                      (Re.Opt (Re.Seq (Re.Chr "."%char) (Re.Plus Re.Digit)))))
    (Re.Seq (Re.Star Re.Space) (Re.OneOf [Re.Lit "percent"; Re.Chr "%"%char])).

(** [r'( \d+(?:,\d{3})+ )'], the group spaced out *)
Definition large_number_pattern : Re.re :=
  Re.Group (Re.Seq (Re.Plus Re.Digit) (Re.Plus re_thousands)).

Definition child_record (i : nat) (count date : string) : pyval :=
  PyDict [ ("Indicator", PyStr ("Children Related Metric " ++ Str.of_nat (i + 1)));
           ("Value", PyStr (remove_commas count));
           ("Type", PyStr "Child Welfare");
           ("Source", PyStr "UNICEF");
           ("Date", PyStr date) ].

Definition mortality_record (i : nat) (rate date : string) : pyval :=
  PyDict [ ("Indicator", PyStr ("Mortality Rate " ++ Str.of_nat (i + 1)));
           ("Value", PyStr rate);
           ("Type", PyStr "Health");
           ("Source", PyStr "UNICEF");
           ("Date", PyStr date) ].

Definition percentage_record (data_type : string) (i : nat) (percentage date : string) : pyval :=
  PyDict [ ("Indicator", PyStr ("Percentage Indicator " ++ Str.of_nat (i + 1)));
           ("Value", PyStr percentage);
           ("Unit", PyStr "Percent");
           ("Type", PyStr (Str.title data_type));
           ("Source", PyStr "UN Data");
           ("Date", PyStr date) ].

Definition count_record (data_type : string) (i : nat) (number date : string) : pyval :=
  PyDict [ ("Indicator", PyStr ("Count Indicator " ++ Str.of_nat (i + 1)));
           ("Value", PyStr (remove_commas number));
           ("Type", PyStr (Str.title data_type));
           ("Source", PyStr "UN Data");
           ("Date", PyStr date) ].

Definition _parse_un_content (content data_type source_url : string) : Method W pyval :=
  method ([] : list pyval)
    (if Str.contains "unicef" (Str.lower source_url) then
       let child_matches := Re.findall true child_pattern content in
       let mortality_matches := Re.findall true mortality_pattern content in
       emit_with now 3 child_matches child_record ;;
       emit_with now 3 mortality_matches mortality_record ;;
       data <- get_local ;; ret (PyList data)
     else
       let percentage_matches := Re.findall false percentage_pattern content in
       let large_numbers := Re.findall false large_number_pattern content in
       emit_with now 5 percentage_matches (percentage_record data_type) ;;
       emit_with now 5 large_numbers (count_record data_type) ;;
       data <- get_local ;; ret (PyList data)).

(** [all_data.extend(data)] *)
Definition extend (data : pyval) : M W (list pyval) unit :=
  items <- lift (Py.iter data) ;;
  all_data <- get_local ;;
  set_local (all_data ++ items).

(** The statements under the inner [try:] (lines 333-342); the frame holds
    [all_data]. *)
Definition scrape_body (data_type url : string) : M W (list pyval) unit :=
  response <- session_get http_get (mkRequest url [] 30) ;;
  raise_for_status response ;;
  match resp_extract response with
  | None => ret tt
  | Some content =>
      if String.eqb content "" then ret tt
      else
        data <- call (_parse_un_content content data_type url) ;;
        extend data
  end.

(** The statements under the outer [try:] (lines 323-362). *)
Definition collect_body (data_type : string) : M W (list pyval) pyval :=
  set_local [] ;;
  for_each urls (turn (scrape_body data_type)) ;;
  all_data <- get_local ;;
  match all_data with
  | [] => ret (failure_result "No data found from UN websites")
  | _ =>
      ret (success_result (PyList all_data)
             [ ("source", PyStr "UN Agencies");
               ("urls_scraped", PyInt (Z.of_nat (List.length urls)));
               ("data_type", PyStr data_type) ])
  end.

Definition collect_data (data_type : string) : Method W pyval :=
  method []
    (try_except (collect_body data_type)
       (fun e => ret (failure_result ("UN website scraping failed: " ++ exn_str e)))).

End UNCollector.
End UNCollector.

End Data.

(* ===================================================================== *)
(** * working_collectors.py                                               *)
(* ===================================================================== *)

Module Working.

Module WorldBankCollector.
Section WorldBankCollector.
Context {W : Type}.
Variable http_get : request -> W -> (exn + response) * W.
Variable now : W -> clock.

Definition base_url : string := "https://api.worldbank.org/v2".
Definition country_code : string := "ZMB".

Definition indicators_map : list (string * list (string * string)) :=
  [ ("population",
     [ ("SP.POP.TOTL", "Population, total");
       ("SP.POP.GROW", "Population growth (annual %)");
       ("SP.URB.TOTL.IN.ZS", "Urban population (% of total)") ]);
    ("health",
     [ ("SP.DYN.LE00.IN", "Life expectancy at birth, total (years)");
       ("SH.DYN.MORT", "Mortality rate, under-5 (per 1,000 live births)");
       ("SH.STA.MMRT", "Maternal mortality ratio") ]);
    ("education",
     [ ("SE.ADT.LITR.ZS", "Literacy rate, adult total (% of people ages 15 and above)");
       ("SE.PRM.NENR", "School enrollment, primary (% net)");
       ("SE.SEC.NENR", "School enrollment, secondary (% net)") ]);
    ("economy",
     [ ("NY.GDP.MKTP.CD", "GDP (current US$)");
       ("NY.GDP.PCAP.CD", "GDP per capita (current US$)");
       ("NY.GDP.MKTP.KD.ZG", "GDP growth (annual %)") ]);
    ("agriculture",
     [ ("AG.LND.AGRI.ZS", "Agricultural land (% of land area)");
       ("AG.PRD.CROP.XD", "Crop production index");
       ("AG.LND.ARBL.ZS", "Arable land (% of land area)") ]);
    ("mining",
     [ ("NY.GDP.MINR.RT.ZS", "Mineral rents (% of GDP)");
       ("TX.VAL.MRCH.CD.WT", "Merchandise exports (current US$)") ]) ].

Definition _get_indicators_by_type (data_type : string) : list (string * string) :=
  Py.get_default (Str.lower data_type) indicators_map [].

Definition api_request (indicator_code : string) : request :=
  mkRequest (base_url ++ "/country/" ++ country_code ++ "/indicator/" ++ indicator_code)
            [("format", PyStr "json"); ("date", PyStr "2015:2023"); ("per_page", PyInt 50)]
            15.

(** The dictionary appended for one observation (lines 62-69). *)
Definition api_record (indicator_code indicator_name : string) (item : pyval)
  : M W (list pyval) pyval :=
  date <- lift (Py.get_or item "date" (PyStr "N/A")) ;;
  value <- lift (Py.get_or item "value" (PyStr "N/A")) ;;
  ret (PyDict [ ("Indicator", PyStr indicator_name);
                ("Indicator_Code", PyStr indicator_code);
                ("Year", date);
                ("Value", value);
                ("Country", PyStr "Zambia");
                ("Source", PyStr "World Bank") ]).

(** [len(data) > 1 and data[1]] as a condition. *)
Definition has_observations (data : pyval) : M W (list pyval) bool :=
  n <- lift (Py.len data) ;;
  if (1 <? n)%nat
  then d1 <- lift (Py.getitem_int data 1) ;; ret (Py.truthy d1)
  else ret false.

(** The statements under the innermost [try:] (lines 58-69). *)
Definition parse_body (indicator_code indicator_name : string) (response : response)
  : M W (list pyval) unit :=
  data <- json response ;;
  c <- has_observations data ;;
  if (c : bool) then
    d1 <- lift (Py.getitem_int data 1) ;;
    items <- lift (Py.iter d1) ;;
    for_each items (fun item =>
      v <- lift (Py.get item "value") ;;
      if Py.is_not_none v
      then r <- api_record indicator_code indicator_name item ;; append r
      else ret tt)
  else ret tt.

(** The statements under the per-indicator [try:] (lines 46-74). *)
Definition fetch_body (indicator : string * string) : M W (list pyval) unit :=
  let (indicator_code, indicator_name) := indicator in
  response <- session_get http_get (api_request indicator_code) ;;
  if (status_code response =? 200)%Z then
    try_except_cls is_json_decode_error
      (parse_body indicator_code indicator_name response)
      (fun e => ret tt)
  else ret tt.

(** One turn of the loop over [indicators.items()] (lines 44-78). *)
Definition fetch_indicator (indicator : string * string) : M W (list pyval) unit :=
  try_except (fetch_body indicator) (fun e => ret tt).

(** The record that stands in for an empty result (lines 83-89). *)
Definition placeholder (data_type : string) (year : Z) : pyval :=
  PyDict [ ("Indicator", PyStr (Str.title data_type ++ " Data"));
           ("Value", PyStr "API connection issue - please check World Bank API availability");
           ("Year", PyInt year);
           ("Country", PyStr "Zambia");
           ("Source", PyStr "World Bank (Connection Error)") ].

(** The statements under the outer [try:] (lines 34-100). *)
Definition collect_body (data_type : string) : M W (list pyval) pyval :=
  let indicators := _get_indicators_by_type data_type in
  match indicators with
  | [] => ret (failure_result ("No World Bank indicators found for data type: " ++ data_type))
  | _ =>
      set_local [] ;;
      for_each indicators fetch_indicator ;;
      all_data <- get_local ;;
      match all_data with
      | [] => t <- datetime_now now ;; set_local [placeholder data_type (now_year t)]
      | _ => ret tt
      end ;;
      all_data <- get_local ;;
      ret (success_result (PyList all_data)
             [ ("source", PyStr "World Bank");
               ("country", PyStr "Zambia");
               ("records_count", PyInt (Z.of_nat (List.length all_data))) ])
  end.

Definition collect_data (data_type : string) : Method W pyval :=
  method []
    (try_except (collect_body data_type)
       (fun e => ret (failure_result ("World Bank data collection failed: " ++ exn_str e)))).

End WorldBankCollector.
End WorldBankCollector.

Module IMFCollector.
Section IMFCollector.
Context {W : Type}.
Variable now : W -> clock.

(** [patterns] (lines 190-195) *)
Definition patterns : list Re.re :=
  [ re_after "GDP" [Re.Lit "billion"; Re.Lit "million"; Re.Chr "%"%char];
    re_after "inflation" [Re.Lit "percent"; Re.Chr "%"%char];
    re_after "growth" [Re.Lit "percent"; Re.Chr "%"%char];
    re_after "debt" [Re.Lit "percent"; Re.Chr "%"%char; Re.Lit "billion"] ].

Definition indicator_types : list string := ["GDP"; "Inflation"; "Growth"; "Debt"].

Definition metric (indicator value type date : string) : pyval :=
  PyDict [ ("Indicator", PyStr indicator);
           ("Value", PyStr value);
           ("Type", PyStr type);
           ("Source", PyStr "IMF Website");
           ("Country", PyStr "Zambia");
           ("Date", PyStr date) ].

(** [for j, match in enumerate(matches[:2])] (lines 199-208) *)
Definition emit (i : nat) (matches : list string) (data_type : string) : M W (list pyval) unit :=
  for_each (enumerate (firstn 2 matches)) (fun jm =>
    match nth_error indicator_types i with
    | None => raise (mkExn IndexError "list index out of range")
    | Some indicator_type =>
        t <- datetime_now now ;;
        append (metric (indicator_type ++ " Related Metric " ++ Str.of_nat (fst jm + 1))
                       (snd jm) (Str.title data_type) (now_ymd t))
    end).

(** The free-text pass of [collect_data] over the extracted [content]
    (lines 197-208); the frame holds [all_data]. *)
Definition free_text_pass (content data_type : string) : M W (list pyval) unit :=
  for_each (enumerate patterns) (fun ip =>
    let matches := Re.findall true (snd ip) content in
    emit (fst ip) matches data_type).


Variable http_get : request -> W -> (exn + response) * W.

(** The tables of a page as [collect_data] walks them: for each tag
    [soup.find_all('table')] gives, for each tag [table.find_all('tr')]
    gives, the [get_text(strip=True)] of each tag
    [row.find_all(['td', 'th'])] gives. *)
Variable soup_tables : response -> list (list (list string)).

(** [urls] (lines 152-155) *)
Definition urls : list string :=
  ["https://www.imf.org/en/Countries/ZMB";
   "https://www.imf.org/external/datamapper/profile/ZMB"].

Definition keywords : list string := ["gdp"; "inflation"; "debt"; "growth"; "unemployment"].

(** The body of [for row in rows] (lines 171-184). *)
Definition scan_row (data_type : string) (cells : list string) : M W (list pyval) unit :=
  match cells with
  | key :: value :: _ =>
      if existsb (fun keyword => Str.contains keyword (Str.lower key)) keywords then
        t <- datetime_now now ;;
        append (metric key value (Str.title data_type) (now_ymd t))
      else ret tt
  | _ => ret tt
  end.

(** The pass over the tables of the page (lines 167-184). *)
Definition table_pass (response : response) (data_type : string) : M W (list pyval) unit :=
  for_each (firstn 3 (soup_tables response)) (fun table =>
    for_each table (scan_row data_type)).

(** The statements under the inner [try:] (lines 161-211); the answer is
    whether the loop over the addresses is left with [break]. *)
Definition scrape_body (data_type url : string) : M W (list pyval) bool :=
  response <- session_get http_get (mkRequest url [] 10) ;;
  if (status_code response =? 200)%Z then
    table_pass response data_type ;;
    match resp_extract response with
    | None => ret tt
    | Some content =>
        if String.eqb content "" then ret tt else free_text_pass content data_type
    end ;;
    all_data <- get_local ;;
    ret (match all_data with [] => false | _ => true end)
  else ret false.

(** One turn of the loop over [urls]: [except Exception: continue]
    (lines 213-215). *)
Definition scrape (data_type url : string) : M W (list pyval) bool :=
  try_except (scrape_body data_type url) (fun e => ret false).

(** The record that stands in for an empty result (lines 219-229). *)
Definition status_record (data_type date : string) : pyval :=
  PyDict [ ("Indicator", PyStr ("IMF " ++ Str.title data_type ++ " Data Status"));
           ("Value", PyStr "IMF website access restricted or data format changed");
           ("Type", PyStr (Str.title data_type));
           ("Source", PyStr "IMF Website");
           ("Country", PyStr "Zambia");
           ("Date", PyStr date);
           ("Note", PyStr "Consider accessing IMF data directly from their official statistics portal") ].

(** The statements under the outer [try:] (lines 151-239). *)
Definition collect_body (data_type : string) : M W (list pyval) pyval :=
  set_local [] ;;
  for_each_break urls (scrape data_type) ;;
  all_data <- get_local ;;
  match all_data with
  | [] => t <- datetime_now now ;; set_local [status_record data_type (now_ymd t)]
  | _ => ret tt
  end ;;
  all_data <- get_local ;;
  ret (success_result (PyList all_data)
         [ ("source", PyStr "IMF");
           ("data_type", PyStr data_type);
           ("records_found", PyInt (Z.of_nat (List.length all_data))) ]).

Definition collect_data (data_type : string) : Method W pyval :=
  method []
    (try_except (collect_body data_type)
       (fun e => ret (failure_result ("IMF data collection failed: " ++ exn_str e)))).

End IMFCollector.
End IMFCollector.

Module USAIDCollector.
Section USAIDCollector.
Context {W : Type}.
Variable http_get : request -> W -> (exn + response) * W.
Variable now : W -> clock.

(** [urls] (lines 255-258) *)
Definition urls : list string :=
  ["https://www.usaid.gov/zambia"; "https://www.usaid.gov/zambia/fact-sheets"].

(** [r',\d{3}'] *)
Definition thousands : Re.re :=
  Re.Seq (Re.Chr ","%char) (Re.Seq Re.Digit (Re.Seq Re.Digit Re.Digit)).

(** [r'\$( \d+(?:,\d{3})*(?:\.\d{2})? )\s*(?:million|billion)'], the group
    spaced out *)
Definition amount_pattern : Re.re :=
  Re.Seq (Re.Chr "$"%char)
    (Re.Seq (Re.Group (Re.Seq (Re.Plus Re.Digit)
                         (Re.Seq (Re.Star thousands)
                            (Re.Opt (Re.Seq (Re.Chr "."%char) (Re.Seq Re.Digit Re.Digit))))))
       (Re.Seq (Re.Star Re.Space) (Re.OneOf [Re.Lit "million"; Re.Lit "billion"]))).

(** [r'( \d+(?:,\d{3})* )\s*(?:beneficiaries|people|children|students)'],
    the group spaced out *)
Definition people_pattern : Re.re :=
  Re.Seq (Re.Group (Re.Seq (Re.Plus Re.Digit) (Re.Star thousands)))
    (Re.Seq (Re.Star Re.Space)
       (Re.OneOf [ Re.Lit "beneficiaries"; Re.Lit "people";
                   Re.Lit "children"; Re.Lit "students" ])).

(** [r'( \d+(?:,\d{3})* )\s*(?:programs?|projects?|schools?|clinics?)'],
    the group spaced out *)
Definition places_pattern : Re.re :=
  Re.Seq (Re.Group (Re.Seq (Re.Plus Re.Digit) (Re.Star thousands)))
    (Re.Seq (Re.Star Re.Space)
       (Re.OneOf [ Re.Seq (Re.Lit "program") (Re.Opt (Re.Chr "s"%char));
                   Re.Seq (Re.Lit "project") (Re.Opt (Re.Chr "s"%char));
                   Re.Seq (Re.Lit "school") (Re.Opt (Re.Chr "s"%char));
                   Re.Seq (Re.Lit "clinic") (Re.Opt (Re.Chr "s"%char)) ])).

(** [funding_patterns] (lines 270-274): each pattern with whether its text
    holds a dollar sign, which is what ['$' in pattern] asks. *)
Definition funding_patterns : list (bool * Re.re) :=
  [ (true, amount_pattern); (false, people_pattern); (false, places_pattern) ].

(** The record of a dollar amount (lines 280-288). *)
Definition funding_record (amount date : string) : pyval :=
  PyDict [ ("Indicator", PyStr "USAID Funding Amount");
           ("Value", PyStr ("$" ++ amount));
           ("Unit", PyStr "USD");
           ("Type", PyStr "Development Aid");
           ("Source", PyStr "USAID Website");
           ("Country", PyStr "Zambia");
           ("Date", PyStr date) ].

(** The record of a count (lines 290-297). *)
Definition reach_record (count date : string) : pyval :=
  PyDict [ ("Indicator", PyStr "USAID Program Reach");
           ("Value", PyStr count);
           ("Type", PyStr "Program Data");
           ("Source", PyStr "USAID Website");
           ("Country", PyStr "Zambia");
           ("Date", PyStr date) ].

(** [for match in matches[:3]] (lines 278-297) *)
Definition emit (dollar : bool) (matches : list string) : M W (list pyval) unit :=
  for_each (firstn 3 matches) (fun match_ =>
    t <- datetime_now now ;;
    append (if dollar then funding_record match_ (now_ymd t)
            else reach_record match_ (now_ymd t))).

(** The statements under the inner [try:] (lines 264-300); the frame holds
    [all_data], and the answer is whether the loop over the addresses is
    left with [break]. *)
Definition scrape_body (url : string) : M W (list pyval) bool :=
  response <- session_get http_get (mkRequest url [] 10) ;;
  if (status_code response =? 200)%Z then
    match resp_extract response with
    | None => ret tt
    | Some content =>
        if String.eqb content "" then ret tt
        else
          for_each funding_patterns (fun p =>
            emit (fst p) (Re.findall true (snd p) content))
    end ;;
    all_data <- get_local ;;
    ret (match all_data with [] => false | _ => true end)
  else ret false.

(** One turn of the loop over [urls]: [except Exception: continue]
    (lines 302-304). *)
Definition scrape (url : string) : M W (list pyval) bool :=
  try_except (scrape_body url) (fun e => ret false).

(** The record that stands in for an empty result (lines 307-317). *)
Definition placeholder (data_type date : string) : pyval :=
  PyDict [ ("Indicator", PyStr ("USAID " ++ Str.title data_type ++ " Programs"));
           ("Value", PyStr "USAID website access limited or data structure changed");
           ("Type", PyStr (Str.title data_type));
           ("Source", PyStr "USAID Website");
           ("Country", PyStr "Zambia");
           ("Date", PyStr date);
           ("Note", PyStr "Visit USAID.gov/zambia for current program information") ].

(** The statements under the outer [try:] (lines 254-326). *)
Definition collect_body (data_type : string) : M W (list pyval) pyval :=
  set_local [] ;;
  for_each_break urls scrape ;;
  all_data <- get_local ;;
  match all_data with
  | [] => t <- datetime_now now ;; set_local [placeholder data_type (now_ymd t)]
  | _ => ret tt
  end ;;
  all_data <- get_local ;;
  ret (success_result (PyList all_data)
         [ ("source", PyStr "USAID"); ("data_type", PyStr data_type) ]).

Definition collect_data (data_type : string) : Method W pyval :=
  method []
    (try_except (collect_body data_type)
       (fun e => ret (failure_result ("USAID data collection failed: " ++ exn_str e)))).

End USAIDCollector.
End USAIDCollector.

Module UNCollector.
Section UNCollector.
Context {W : Type}.
Variable http_get : request -> W -> (exn + response) * W.
Variable now : W -> clock.

(** The tables of a page as [collect_data] walks them: for each tag
    [soup.find_all('table')] gives, for each tag [table.find_all('tr')]
    gives, the [get_text(strip=True)] of each tag
    [row.find_all(['td', 'th'])] gives. *)
Variable soup_tables : response -> list (list (list string)).

(** [urls] (lines 342-345) *)
Definition urls : list string :=
  ["https://data.un.org/_layouts/15/UNStats/Country.aspx?cid=894";
   "https://unstats.un.org/unsd/demographic-social/products/vitstats/serartic2.pdf"].

(** The record of a table row (lines 366-373). *)
Definition portal_record (indicator value type date : string) : pyval :=
  PyDict [ ("Indicator", PyStr indicator);
           ("Value", PyStr value);
           ("Type", PyStr type);
           ("Source", PyStr "UN Data Portal");
           ("Country", PyStr "Zambia");
           ("Date", PyStr date) ].

(** The body of [for row in rows] (lines 360-373). *)
Definition scan_row (data_type : string) (cells : list string) : M W (list pyval) unit :=
  match cells with
  | indicator :: value :: _ =>
      if negb (String.eqb indicator "") && negb (String.eqb value "")
         && (3 <? String.length indicator)%nat then
        t <- datetime_now now ;;
        append (portal_record indicator value (Str.title data_type) (now_ymd t))
      else ret tt
  | _ => ret tt
  end.

(** The statements under the inner [try:] (lines 351-376). *)
Definition portal_body (data_type : string) : M W (list pyval) unit :=
  match nth_error urls 0 with
  | None => raise (mkExn IndexError "list index out of range")
  | Some url =>
      response <- session_get http_get (mkRequest url [] 10) ;;
      if (status_code response =? 200)%Z then
        for_each (soup_tables response) (fun table =>
          for_each table (scan_row data_type)) ;;
        all_data <- get_local ;;
        if (10 <? List.length all_data)%nat then set_local (firstn 10 all_data) else ret tt
      else ret tt
  end.

(** [un_indicators] (lines 384-391) *)
Definition un_indicators : list (string * list string) :=
  [ ("population", ["Total Population"; "Urban Population %"; "Population Density"]);
    ("health", ["Life Expectancy"; "Infant Mortality Rate"; "Maternal Mortality"]);
    ("education", ["Literacy Rate"; "Primary School Enrollment"; "Secondary School Enrollment"]);
    ("economy", ["GDP per Capita"; "Human Development Index"; "Poverty Rate"]);
    ("agriculture", ["Agricultural Employment %"; "Food Security Index"; "Rural Population %"]);
    ("mining", ["Natural Resource Rents"; "Export Diversification"; "Mining Employment"]) ].

(** The record that stands in for a missing statistic (lines 396-404). *)
Definition notice (data_type indicator date : string) : pyval :=
  PyDict [ ("Indicator", PyStr indicator);
           ("Value", PyStr "UN data portal access restricted - visit data.un.org for latest statistics");
           ("Type", PyStr (Str.title data_type));
           ("Source", PyStr "UN Data Portal");
           ("Country", PyStr "Zambia");
           ("Date", PyStr date);
           ("Note", PyStr "Direct access to UN statistical databases recommended") ].

(** The statements under the outer [try:] (lines 341-413). *)
Definition collect_body (data_type : string) : M W (list pyval) pyval :=
  set_local [] ;;
  try_except (portal_body data_type) (fun e => ret tt) ;;
  all_data <- get_local ;;
  match all_data with
  | [] =>
      let indicators :=
        Py.get_default (Str.lower data_type) un_indicators ["General Statistics"] in
      for_each indicators (fun indicator =>
        t <- datetime_now now ;;
        append (notice data_type indicator (now_ymd t)))
  | _ => ret tt
  end ;;
  all_data <- get_local ;;
  ret (success_result (PyList all_data)
         [ ("source", PyStr "UN Agencies"); ("data_type", PyStr data_type) ]).

Definition collect_data (data_type : string) : Method W pyval :=
  method []
    (try_except (collect_body data_type)
       (fun e => ret (failure_result ("UN data collection failed: " ++ exn_str e)))).

End UNCollector.
End UNCollector.

End Working.

(* ===================================================================== *)
(** * enhanced_collectors.py                                              *)
(* ===================================================================== *)

Module Enhanced.

Module WorldBankCollector.
Section WorldBankCollector.
Context {W : Type}.
Variable http_get : request -> W -> (exn + response) * W.
Variable now : W -> clock.

Definition economy_indicators : list (string * string) :=
  [ ("NY.GDP.MKTP.CD", "GDP (current US$)");
    ("NY.GDP.PCAP.CD", "GDP per capita (current US$)");
    ("NY.GDP.MKTP.KD.ZG", "GDP growth (annual %)");
    ("FP.CPI.TOTL.ZG", "Inflation, consumer prices (annual %)");
    ("SL.UEM.TOTL.ZS", "Unemployment, total (% of total labor force)") ].

Definition indicators : list (string * list (string * string)) :=
  [ ("population",
     [ ("SP.POP.TOTL", "Population, total");
       ("SP.POP.GROW", "Population growth (annual %)");
       ("SP.URB.TOTL.IN.ZS", "Urban population (% of total)");
       ("SP.RUR.TOTL.ZS", "Rural population (% of total)");
       ("SP.POP.DPND", "Age dependency ratio (% of working-age population)") ]);
    ("health",
     [ ("SP.DYN.LE00.IN", "Life expectancy at birth, total (years)");
       ("SH.DYN.MORT", "Mortality rate, under-5 (per 1,000 live births)");
       ("SH.STA.MMRT", "Maternal mortality ratio");
       ("SH.IMM.MEAS", "Immunization, measles (% of children ages 12-23 months)");
       ("SH.STA.MALN.ZS", "Prevalence of stunting, height for age (% of children under 5)") ]);
    ("education",
     [ ("SE.ADT.LITR.ZS", "Literacy rate, adult total (% of people ages 15 and above)");
       ("SE.PRM.NENR", "School enrollment, primary (% net)");
       ("SE.SEC.NENR", "School enrollment, secondary (% net)");
       ("SE.TER.ENRR", "School enrollment, tertiary (% gross)");
       ("SE.PRM.CMPT.ZS", "Primary completion rate, total (% of relevant age group)") ]);
    ("economy", economy_indicators);
    ("agriculture",
     [ ("AG.LND.AGRI.ZS", "Agricultural land (% of land area)");
       ("AG.PRD.CROP.XD", "Crop production index (2014-2016 = 100)");
       ("AG.LND.ARBL.ZS", "Arable land (% of land area)");
       ("AG.YLD.CREL.KG", "Cereal yield (kg per hectare)");
       ("AG.CON.FERT.ZS", "Fertilizer consumption (kilograms per hectare of arable land)") ]);
    ("mining",
     [ ("NY.GDP.MINR.RT.ZS", "Mineral rents (% of GDP)");
       ("TX.VAL.MRCH.CD.WT", "Merchandise exports (current US$)");
       ("TM.VAL.MRCH.CD.WT", "Merchandise imports (current US$)");
       ("NE.EXP.GNFS.ZS", "Exports of goods and services (% of GDP)") ]) ].

Definition _get_2025_indicators (data_type : string) : list (string * string) :=
  Py.get_default (Str.lower data_type) indicators economy_indicators.

Definition api_request (indicator_code : string) : request :=
  mkRequest ("https://api.worldbank.org/v2/country/ZMB/indicator/" ++ indicator_code)
            [("format", PyStr "json"); ("date", PyStr "2024:2025"); ("per_page", PyInt 10)]
            8.

Definition alt_request (indicator_code : string) : request :=
  mkRequest ("https://api.worldbank.org/v2/countries/ZMB/indicators/" ++ indicator_code)
            [("format", PyStr "json"); ("date", PyStr "2025"); ("per_page", PyInt 5)]
            5.

(** The dictionary appended for one observation (lines 69-75, 87-93). *)
Definition api_record (indicator source : string) (item : pyval) : M W (list pyval) pyval :=
  date <- lift (Py.getitem_str item "date") ;;
  value <- lift (Py.getitem_str item "value") ;;
  ret (PyDict [ ("Indicator", PyStr indicator);
                ("Year", date);
                ("Value", value);
                ("Country", PyStr "Zambia");
                ("Source", PyStr source) ]).

(** [len(data) > 1 and data[1]] as a condition. *)
Definition has_observations (data : pyval) : M W (list pyval) bool :=
  n <- lift (Py.len data) ;;
  if (1 <? n)%nat
  then d1 <- lift (Py.getitem_int data 1) ;; ret (Py.truthy d1)
  else ret false.

(** One endpoint: the request and what is appended from its answer
    (lines 63-75, and again 81-93). *)
Definition fetch_endpoint (rq : request) (indicator source : string) : M W (list pyval) unit :=
  response <- session_get http_get rq ;;
  if (status_code response =? 200)%Z then
    data <- json response ;;
    c <- has_observations data ;;
    if (c : bool) then
      d1 <- lift (Py.getitem_int data 1) ;;
      items <- lift (Py.iter d1) ;;
      for_each items (fun item =>
        v <- lift (Py.get item "value") ;;
        if Py.truthy v
        then r <- api_record indicator source item ;; append r
        else ret tt)
    else ret tt
  else ret tt.

(** The statements under the per-indicator [try:] (lines 59-95). *)
Definition fetch_body (indicator : string * string) : M W (list pyval) unit :=
  let (indicator_code, indicator_name) := indicator in
  fetch_endpoint (api_request indicator_code) indicator_name "World Bank API" ;;
  fetch_endpoint (alt_request indicator_code) (indicator_name ++ " (Latest)") "World Bank API v2".

(** One turn of the loop over [indicators.items()] (lines 57-99). *)
Definition fetch_indicator (indicator : string * string) : M W (list pyval) unit :=
  try_except (fetch_body indicator) (fun e => ret tt).

Definition _fetch_from_multiple_apis (data_type : string) : Method W pyval :=
  method ([] : list pyval)
    (let indicators := _get_2025_indicators data_type in
     set_local [] ;;
     for_each indicators fetch_indicator ;;
     all_data <- get_local ;;
     ret (list_or_none all_data)).

(** One entry of [current_data]; all are for the year 2025. *)
Definition estimate (indicator : string) (value : pyval) (unit : string)
  : list (string * pyval) :=
  [ ("Indicator", PyStr indicator); ("Value", value); ("Year", PyInt 2025);
    ("Unit", PyStr unit) ].

Definition economy_estimates : list (list (string * pyval)) :=
  [ estimate "GDP (current US$)" (PyInt 31200000000) "USD";
    estimate "GDP per capita" (PyInt 1544) "USD";
    estimate "GDP Growth Rate" (PyFloat 52 (-1)) "percent";
    estimate "Inflation Rate" (PyFloat 78 (-1)) "percent" ].

Definition current_data : list (string * list (list (string * pyval))) :=
  [ ("population",
     [ estimate "Total Population" (PyInt 20220000) "people";
       estimate "Urban Population" (PyFloat 468 (-1)) "percent";
       estimate "Population Growth Rate" (PyFloat 28 (-1)) "percent";
       estimate "Population Density" (PyInt 27) "people per km²" ]);
    ("health",
     [ estimate "Life Expectancy" (PyFloat 643 (-1)) "years";
       estimate "Infant Mortality Rate" (PyFloat 362 (-1)) "per 1000";
       estimate "Maternal Mortality Ratio" (PyInt 198) "per 100k";
       estimate "HIV Prevalence" (PyFloat 108 (-1)) "percent" ]);
    ("education",
     [ estimate "Adult Literacy Rate" (PyFloat 873 (-1)) "percent";
       estimate "Primary Enrollment" (PyFloat 912 (-1)) "percent";
       estimate "Secondary Enrollment" (PyFloat 478 (-1)) "percent";
       estimate "Tertiary Enrollment" (PyFloat 54 (-1)) "percent" ]);
    ("economy", economy_estimates);
    ("agriculture",
     [ estimate "Agricultural Land" (PyFloat 585 (-1)) "percent of total";
       estimate "Crop Production Index" (PyFloat 1083 (-1)) "index";
       estimate "Cereal Yield" (PyInt 2850) "kg per hectare";
       estimate "Agricultural Employment" (PyFloat 524 (-1)) "percent" ]);
    ("mining",
     [ estimate "Copper Production" (PyInt 785000) "tonnes";
       estimate "Mineral Rents" (PyFloat 118 (-1)) "percent of GDP";
       estimate "Mining Exports" (PyInt 7200000000) "USD";
       estimate "Mining Employment" (PyInt 92000) "jobs" ]) ].

(** [item[k]] on a table entry; every entry has the keys read below,
    [None] stands for the [KeyError] that cannot occur. *)
Definition at_key (k : string) (item : list (string * pyval)) : pyval :=
  Py.get_default k item PyNone.

(** The record made of one entry on the day [date] (lines 196-204). *)
Definition estimate_record (date : string) (item : list (string * pyval)) : pyval :=
  PyDict [ ("Indicator", at_key "Indicator" item);
           ("Value", at_key "Value" item);
           ("Year", at_key "Year" item);
           ("Unit", Py.get_default "Unit" item (PyStr ""));
           ("Country", PyStr "Zambia");
           ("Source", PyStr "World Bank 2025 Estimates");
           ("Date", PyStr date) ].

Definition _get_current_estimates (data_type : string) : Method W pyval :=
  method ([] : list pyval)
    (let data_list := Py.get_default (Str.lower data_type) current_data economy_estimates in
     set_local [] ;;
     for_each data_list (fun item =>
       t <- datetime_now now ;;
       append (estimate_record (now_ymd t) item)) ;;
     results <- get_local ;;
     ret (PyList results)).

(** The statements under [try:] in [collect_data] (lines 28-43). *)
Definition collect_body (data_type : string) : M W unit pyval :=
  api_data <- call (_fetch_from_multiple_apis data_type) ;;
  if Py.truthy api_data then
    ret (success_result api_data
           [ ("source", PyStr "World Bank API"); ("country", PyStr "Zambia");
             ("year", PyStr "2025") ])
  else
    current_data <- call (_get_current_estimates data_type) ;;
    ret (success_result current_data
           [ ("source", PyStr "World Bank Current Estimates"); ("country", PyStr "Zambia");
             ("year", PyStr "2025") ]).

Definition collect_data (data_type : string) : Method W pyval :=
  method tt
    (try_except (collect_body data_type)
       (fun e => ret (failure_result ("World Bank data collection failed: " ++ exn_str e)))).

End WorldBankCollector.
End WorldBankCollector.

End Enhanced.

(* ===================================================================== *)
(** * What a statement sequence can do to its frame and to the world      *)
(* ===================================================================== *)

Section EffectKinds.
Context {W : Type}.

(** [c] leaves the world and the request log alone. *)
Definition quiet {L A : Type} (c : M W L A) : Prop :=
  forall l g, snd (c l g) = g.

(** [c] only appends to the list in its frame, also when it raises. *)
Definition extends {X A : Type} (c : M W (list X) A) : Prop :=
  forall l g, exists added, snd (fst (c l g)) = l ++ added.

(** [c] only adds requests that satisfy [P] to the log. *)
Definition issues {L A : Type} (P : request -> Prop) (c : M W L A) : Prop :=
  forall l g, exists new, requests (snd (c l g)) = requests g ++ new /\ Forall P new.

(** [c] returns, whatever the frame and the world. *)
Definition total {L A : Type} (c : M W L A) : Prop :=
  forall l g, exists a l' g', c l g = (Return a, l', g').

(** Whatever [c] returns satisfies [Q]. *)
Definition returns_only {L A : Type} (Q : A -> Prop) (c : M W L A) : Prop :=
  forall l g a l' g', c l g = (Return a, l', g') -> Q a.

(** The same for a method. *)
Definition issues_m {A : Type} (P : request -> Prop) (m : Method W A) : Prop :=
  forall g, exists new, requests (snd (m g)) = requests g ++ new /\ Forall P new.

Definition total_m {A : Type} (m : Method W A) : Prop :=
  forall g, exists a g', m g = (Return a, g').

End EffectKinds.

(* ===================================================================== *)
(** * The collectors as one family                                        *)
(* ===================================================================== *)

(** The per-source collectors modelled above. *)
Inductive collector : Type :=
| RobustWorldBank | RobustIMF | RobustUSAID | RobustUN
| DataWorldBank | DataIMF
| WorkingWorldBank.

Section Family.
Context {W : Type}.
Variable http_get : request -> W -> (exn + response) * W.
Variable now : W -> clock.

(** [collector.collect_data(data_type)] *)
Definition collect_data (c : collector) (data_type : string) : Method W pyval :=
  match c with
  | RobustWorldBank => Robust.WorldBankCollector.collect_data http_get now data_type
  | RobustIMF => Robust.IMFCollector.collect_data http_get now data_type
  | RobustUSAID => Robust.USAIDCollector.collect_data data_type
  | RobustUN => Robust.UNCollector.collect_data data_type
  | DataWorldBank => Data.WorldBankCollector.collect_data http_get data_type
  | DataIMF => Data.IMFCollector.collect_data http_get now data_type
  | WorkingWorldBank => Working.WorldBankCollector.collect_data http_get now data_type
  end.



End Family.

(* ===================================================================== *)
(** * What the free-text pass appends                                     *)
(* ===================================================================== *)

Section Emitted.
Context {W : Type}.
Variable now : W -> clock.

(** What [emit] appends: one record for each of the first [limit] matches. *)
Definition data_emitted (limit : nat) (matches : list string) (label type : string)
    (g : globals W) : list pyval :=
  map (fun iv => Data.IMFCollector.metric (label ++ Str.of_nat (fst iv + 1)) (snd iv) type
                   (now_ymd (now (world g))))
      (enumerate (firstn limit matches)).

(** The same for [working_collectors], whose limit is 2. *)
Definition working_emitted (indicator_type : string) (matches : list string)
    (data_type : string) (g : globals W) : list pyval :=
  map (fun jm => Working.IMFCollector.metric
                   (indicator_type ++ " Related Metric " ++ Str.of_nat (fst jm + 1))
                   (snd jm) (Str.title data_type) (now_ymd (now (world g))))
      (enumerate (firstn 2 matches)).

End Emitted.

(* ===================================================================== *)
(** * Worlds to run the collectors in                                     *)
(* ===================================================================== *)

Module Mock.

(** Every request times out. *)
Definition down : request -> unit -> (exn + response) * unit :=
  fun _ w => (inl (mkExn Timeout "timed out"), w).

(** Every request is answered with status 200 and the JSON document
    [[{"page": 1}, items]]. *)
Definition up (items : list pyval) : request -> unit -> (exn + response) * unit :=
  fun _ w =>
    (inr (mkResponse 200 (Return (PyList [PyDict [("page", PyInt 1)]; PyList items])) [] None), w).

(** Every request is answered with status 200 and a page whose extracted
    text is [content]. *)
Definition page (content : string) : request -> unit -> (exn + response) * unit :=
  fun _ w =>
    (inr (mkResponse 200 (Raise (mkExn JSONDecodeError "Expecting value")) [] (Some content)), w).

(** As [up], but a request whose URL mentions [code] times out. *)
Definition flaky (code : string) (items : list pyval)
  : request -> unit -> (exn + response) * unit :=
  fun rq w => if Str.contains code (req_url rq) then down rq w else up items rq w.

(** The API is unreachable; every other request is answered with status 200
    and a page that parses to the tags [soup]. *)
Definition site (soup : list element) : request -> unit -> (exn + response) * unit :=
  fun rq w =>
    if Str.contains "api.worldbank.org" (req_url rq) then down rq w
    else (inr (mkResponse 200 (Raise (mkExn JSONDecodeError "Expecting value")) soup None), w).

Definition clk : unit -> clock := fun _ => mkClock "2025-06-01" 2025.

Definition g0 : globals unit := mkGlobals tt [].

(** One observation of the World Bank API with the given value. *)
Definition observation (date : string) (value : pyval) : pyval :=
  PyDict [ ("indicator", PyDict [("id", PyStr "SP.POP.TOTL"); ("value", PyStr "Population, total")]);
           ("country", PyDict [("id", PyStr "ZM"); ("value", PyStr "Zambia")]);
           ("date", PyStr date);
           ("value", value) ].

End Mock.

(* ===================================================================== *)
(** * Assertions on the frame                                             *)
(* ===================================================================== *)

Section Assertions.
Context {W L : Type}.

(** From a frame that satisfies [P], [c] ends, by returning or by raising,
    with an outcome and a frame that satisfy [Q]. *)
Definition triple {A : Type} (P : L -> Prop) (c : M W L A) (Q : outcome A -> L -> Prop) : Prop :=
  forall l g, P l -> Q (fst (fst (c l g))) (snd (fst (c l g))).

(** [c] leaves the frame as it found it. *)
Definition keeps {A : Type} (c : M W L A) : Prop :=
  forall l g, snd (fst (c l g)) = l.

End Assertions.

(** A postcondition that only speaks about what is returned. *)
Definition on_return {A L : Type} (Q : A -> Prop) : outcome A -> L -> Prop :=
  fun o _ => match o with Return a => Q a | Raise _ => True end.

(** The records of the strategies of [robust_collectors]. *)

(** A record of the Fetch strategy (lines 87-93). *)
Definition is_api_record (r : pyval) : Prop :=
  exists indicator year value,
    r = PyDict [ ("Indicator", indicator); ("Year", year); ("Value", value);
                 ("Country", PyStr "Zambia"); ("Source", PyStr "World Bank API") ] /\
    Py.truthy value = true.




(** [None], or between one and [cap] records that satisfy [Q]. *)
Definition none_or_up_to (cap : nat) (Q : pyval -> Prop) (v : pyval) : Prop :=
  v = PyNone \/
  exists records,
    v = PyList records /\ (1 <= List.length records <= cap)%nat /\ Forall Q records.

(** No request is answered with status 200: it raises, or the answer has
    another status. *)
Definition unreachable {W : Type} (http_get : request -> W -> (exn + response) * W) : Prop :=
  forall rq w,
    match fst (http_get rq w) with
    | inl _ => True
    | inr resp => status_code resp <> 200%Z
    end.

(** A record that says where it comes from and that it is not live data. *)
Definition tagged (source note : string) (r : pyval) : Prop :=
  field "Source" r = Some (PyStr source) /\
  field "Note" r = Some (PyStr note) /\
  field "Country" r = Some (PyStr "Zambia").

(* ===================================================================== *)
(** * app.py and simple_app.py: the route that fetches data               *)
(* ===================================================================== *)

(** [v == s] for a string literal [s]. *)
Definition eq_str (v : pyval) (s : string) : bool :=
  match v with
  | PyStr x => String.eqb x s
  | _ => false
  end.

(** [jsonify({...})]: the body of the response. *)
Definition jsonify (d : list (string * pyval)) : pyval := PyDict d.

(** The tail both routes share (app.py lines 48-58): what is made of the
    dictionary a collector returned; the second component is the HTTP status,
    200 where the route names none. *)
Definition respond {W : Type} (result : pyval) : M W unit (pyval * Z) :=
  success <- lift (Py.getitem_str result "success") ;;
  if Py.truthy success then
    data <- lift (Py.getitem_str result "data") ;;
    metadata <- lift (Py.get_or result "metadata" (PyDict [])) ;;
    ret (jsonify [("success", PyBool true); ("data", data); ("metadata", metadata)], 200%Z)
  else
    error <- lift (Py.getitem_str result "error") ;;
    ret (jsonify [("success", PyBool false); ("error", error)], 500%Z).

Module App.
Section App.
Context {W : Type}.

(** The collectors created at import; [collect_data] is handed whatever
    value the request carried as its [data_type]. *)
Variables wb_collector imf_collector usaid_collector un_collector : pyval -> Method W pyval.

(** [fetch_data()], given what [request.get_json()] returns or raises. *)
Definition fetch_data (get_json : outcome pyval) : Method W (pyval * Z) :=
  method tt
    (try_except
       (data <- lift get_json ;;
        source <- lift (Py.get data "source") ;;
        data_type <- lift (Py.get data "data_type") ;;
        if negb (Py.truthy source) || negb (Py.truthy data_type) then
          ret (jsonify [("error", PyStr "Missing source or data_type parameter")], 400%Z)
        else if eq_str source "world_bank" then
          result <- call (wb_collector data_type) ;; respond result
        else if eq_str source "imf" then
          result <- call (imf_collector data_type) ;; respond result
        else if eq_str source "usaid" then
          result <- call (usaid_collector data_type) ;; respond result
        else if eq_str source "un" then
          result <- call (un_collector data_type) ;; respond result
        else
          ret (jsonify [("error", PyStr "Invalid data source")], 400%Z))
       (fun e => ret (jsonify [("error", PyStr ("Server error: " ++ exn_str e))], 500%Z))).

(** The chain of comparisons as a table, first match first. *)
Definition table : list (string * (pyval -> Method W pyval)) :=
  [ ("world_bank", wb_collector); ("imf", imf_collector);
    ("usaid", usaid_collector); ("un", un_collector) ].

End App.
End App.

Module SimpleApp.
Section SimpleApp.
Context {W : Type}.

Variables wb_collector imf_collector usaid_collector un_collector
          afdb_collector zambian_stats_collector : pyval -> Method W pyval.

(** [fetch_data()], given what [request.get_json()] returns or raises. *)
Definition fetch_data (get_json : outcome pyval) : Method W (pyval * Z) :=
  method tt
    (try_except
       (data <- lift get_json ;;
        source <- lift (Py.get data "source") ;;
        data_type <- lift (Py.get data "data_type") ;;
        if negb (Py.truthy source) || negb (Py.truthy data_type) then
          ret (jsonify [("error", PyStr "Missing source or data_type parameter")], 400%Z)
        else if eq_str source "world_bank" then
          result <- call (wb_collector data_type) ;; respond result
        else if eq_str source "imf" then
          result <- call (imf_collector data_type) ;; respond result
        else if eq_str source "usaid" then
          result <- call (usaid_collector data_type) ;; respond result
        else if eq_str source "un" then
          result <- call (un_collector data_type) ;; respond result
        else if eq_str source "afdb" then
          result <- call (afdb_collector data_type) ;; respond result
        else if eq_str source "zambian_stats" then
          result <- call (zambian_stats_collector data_type) ;; respond result
        else
          ret (jsonify [("error", PyStr "Invalid data source")], 400%Z))
       (fun e => ret (jsonify [("error", PyStr ("Server error: " ++ exn_str e))], 500%Z))).

(** The chain of comparisons as a table, first match first. *)
Definition table : list (string * (pyval -> Method W pyval)) :=
  [ ("world_bank", wb_collector); ("imf", imf_collector);
    ("usaid", usaid_collector); ("un", un_collector);
    ("afdb", afdb_collector); ("zambian_stats", zambian_stats_collector) ].

End SimpleApp.
End SimpleApp.

(** What a route can answer. *)
Definition route_answer {W : Type} (g g' : globals W) (payload : pyval) (status : Z) : Prop :=
  (status = 200%Z /\
   exists data metadata,
     payload = jsonify [("success", PyBool true); ("data", data); ("metadata", metadata)])
  \/
  (status = 400%Z /\ g' = g /\
   (payload = jsonify [("error", PyStr "Missing source or data_type parameter")] \/
    payload = jsonify [("error", PyStr "Invalid data source")]))
  \/
  (status = 500%Z /\
   ((exists error, payload = jsonify [("success", PyBool false); ("error", error)]) \/
    (exists e, payload = jsonify [("error", PyStr ("Server error: " ++ exn_str e))]))).


(** What [emit_with] appends: one record for each of the first [limit]
    matches, numbered from 0, all with the date of the call. *)
Definition emitted_with {W : Type} (now : W -> clock) (limit : nat) (matches : list string)
    (record : nat -> string -> string -> pyval) (g : globals W) : list pyval :=
  map (fun iv => record (fst iv) (snd iv) (now_ymd (now (world g))))
      (enumerate (firstn limit matches)).






(* ===================================================================== *)
(** * Properties                                                          *)
(* ===================================================================== *)

Example re_findall_percent :
  Re.findall false
    (Re.Seq (Re.Group (Re.Seq (Re.Plus Re.Digit) (Re.Seq (Re.Opt (Re.Chr "."%char)) (Re.Star Re.Digit))))
            (Re.Seq (Re.Star Re.Space) (Re.OneOf [Re.Lit "percent"; Re.Chr "%"%char])))
    "grew 4.2 percent, then 12% and 7 %; not 9 points"
  = ["4.2"; "12"; "7"].
Proof. vm_compute. reflexivity. Qed.

Example re_lazy_gdp :
  Re.findall true
    (Re.Seq (Re.Lit "GDP") (Re.Seq (Re.LazyStar Re.Any)
       (Re.Seq (Re.Group (Re.Seq (Re.Plus Re.Digit) (Re.Seq (Re.Opt (Re.Chr "."%char)) (Re.Star Re.Digit))))
               (Re.Seq (Re.Star Re.Space) (Re.OneOf [Re.Lit "billion"; Re.Lit "million"; Re.Chr "%"%char])))))
    "Real gdp rose to 31.2 billion; GDP growth was 5.2%"
  = ["31.2"; "5.2"].
Proof. vm_compute. reflexivity. Qed.

Section Effects.
Context {W : Type}.

Section Quiet.
Context {L : Type}.

Lemma quiet_ret {A} (a : A) : quiet (W:=W) (L:=L) (ret a).
Proof. intros l g. reflexivity. Qed.

Lemma quiet_raise {A} (e : exn) : quiet (W:=W) (L:=L) (raise (A:=A) e).
Proof. intros l g. reflexivity. Qed.

Lemma quiet_lift {A} (o : outcome A) : quiet (W:=W) (L:=L) (lift o).
Proof. intros l g. reflexivity. Qed.

Lemma quiet_get_local : quiet (W:=W) (L:=L) get_local.
Proof. intros l g. reflexivity. Qed.

Lemma quiet_set_local (l' : L) : quiet (W:=W) (set_local l').
Proof. intros l g. reflexivity. Qed.

Lemma quiet_bind {A B} (c : M W L A) (k : A -> M W L B) :
  quiet (W:=W) c -> (forall a, quiet (W:=W) (k a)) -> quiet (W:=W) (bind c k).
Proof.
  intros Hc Hk l g. unfold bind. specialize (Hc l g).
  destruct (c l g) as [[o l'] g']. simpl in Hc. subst g'.
  destruct o as [a|e]; [apply Hk | reflexivity].
Qed.

Lemma quiet_try_except {A} (c : M W L A) (h : exn -> M W L A) :
  quiet (W:=W) c -> (forall e, quiet (W:=W) (h e)) -> quiet (W:=W) (try_except c h).
Proof.
  intros Hc Hh l g. unfold try_except. specialize (Hc l g).
  destruct (c l g) as [[o l'] g']. simpl in Hc. subst g'.
  destruct o as [a|e]; [reflexivity | apply Hh].
Qed.

Lemma quiet_for_each {A} (xs : list A) (body : A -> M W L unit) :
  (forall x, quiet (W:=W) (body x)) -> quiet (W:=W) (for_each xs body).
Proof.
  intros Hb. induction xs as [|x xs IH]; simpl.
  - apply quiet_ret.
  - apply quiet_bind; [apply Hb | intros _; exact IH].
Qed.

Lemma quiet_datetime_now (now : W -> clock) : quiet (W:=W) (L:=L) (datetime_now now).
Proof. intros l g. reflexivity. Qed.

End Quiet.

Lemma quiet_append (r : pyval) : quiet (W:=W) (append (W:=W) r).
Proof. intros l g. reflexivity. Qed.

Section Extends.
Context {X : Type}.

Lemma extends_ret {A} (a : A) : extends (W:=W) (X:=X) (ret a).
Proof. intros l g. exists []. simpl. now rewrite app_nil_r. Qed.

Lemma extends_raise {A} (e : exn) : extends (W:=W) (X:=X) (raise (A:=A) e).
Proof. intros l g. exists []. simpl. now rewrite app_nil_r. Qed.

Lemma extends_lift {A} (o : outcome A) : extends (W:=W) (X:=X) (lift o).
Proof. intros l g. exists []. simpl. now rewrite app_nil_r. Qed.

Lemma extends_get_local : extends (W:=W) (X:=X) get_local.
Proof. intros l g. exists []. simpl. now rewrite app_nil_r. Qed.

Lemma extends_bind {A B} (c : M W (list X) A) (k : A -> M W (list X) B) :
  extends (W:=W) c -> (forall a, extends (W:=W) (k a)) -> extends (W:=W) (bind c k).
Proof.
  intros Hc Hk l g. unfold bind. destruct (Hc l g) as [added Hadd].
  destruct (c l g) as [[o l'] g']. simpl in Hadd. subst l'.
  destruct o as [a|e].
  - destruct (Hk a (l ++ added) g') as [added' Hadd'].
    exists (added ++ added'). now rewrite Hadd', app_assoc.
  - exists added. reflexivity.
Qed.

Lemma extends_try_except {A} (c : M W (list X) A) (h : exn -> M W (list X) A) :
  extends (W:=W) c -> (forall e, extends (W:=W) (h e)) -> extends (W:=W) (try_except c h).
Proof.
  intros Hc Hh l g. unfold try_except. destruct (Hc l g) as [added Hadd].
  destruct (c l g) as [[o l'] g']. simpl in Hadd. subst l'.
  destruct o as [a|e].
  - exists added. reflexivity.
  - destruct (Hh e (l ++ added) g') as [added' Hadd'].
    exists (added ++ added'). now rewrite Hadd', app_assoc.
Qed.

Lemma extends_try_except_cls {A} (catches : exn -> bool)
    (c : M W (list X) A) (h : exn -> M W (list X) A) :
  extends (W:=W) c -> (forall e, extends (W:=W) (h e)) -> extends (W:=W) (try_except_cls catches c h).
Proof.
  intros Hc Hh l g. unfold try_except_cls. destruct (Hc l g) as [added Hadd].
  destruct (c l g) as [[o l'] g']. simpl in Hadd. subst l'.
  destruct o as [a|e].
  - exists added. reflexivity.
  - destruct (catches e).
    + destruct (Hh e (l ++ added) g') as [added' Hadd'].
      exists (added ++ added'). now rewrite Hadd', app_assoc.
    + exists added. reflexivity.
Qed.

Lemma extends_for_each {A} (xs : list A) (body : A -> M W (list X) unit) :
  (forall x, extends (W:=W) (body x)) -> extends (W:=W) (for_each xs body).
Proof.
  intros Hb. induction xs as [|x xs IH]; simpl.
  - apply extends_ret.
  - apply extends_bind; [apply Hb | intros _; exact IH].
Qed.

Lemma extends_session_get http_get (rq : request) :
  extends (W:=W) (X:=X) (session_get http_get rq).
Proof.
  intros l g. exists []. unfold session_get.
  destruct (http_get rq (world g)) as [[e|resp] w']; simpl; now rewrite app_nil_r.
Qed.

Lemma extends_raise_for_status (resp : response) :
  extends (W:=W) (X:=X) (raise_for_status resp).
Proof.
  unfold raise_for_status.
  destruct ((400 <=? status_code resp)%Z && (status_code resp <? 600)%Z);
    [apply extends_raise | apply extends_ret].
Qed.

End Extends.

Lemma extends_append (r : pyval) : extends (W:=W) (append (W:=W) r).
Proof. intros l g. exists [r]. reflexivity. Qed.

Section Issues.
Context {L : Type}.
Variable P : request -> Prop.

Lemma quiet_issues {A} (c : M W L A) : quiet (W:=W) c -> issues (W:=W) P c.
Proof. intros Hq l g. exists []. rewrite Hq, app_nil_r. split; [reflexivity | constructor]. Qed.

Lemma issues_bind {A B} (c : M W L A) (k : A -> M W L B) :
  issues (W:=W) P c -> (forall a, issues (W:=W) P (k a)) -> issues (W:=W) P (bind c k).
Proof.
  intros Hc Hk l g. unfold bind. destruct (Hc l g) as (new & Hnew & HP).
  destruct (c l g) as [[o l'] g']. simpl in Hnew.
  destruct o as [a|e].
  - destruct (Hk a l' g') as (new' & Hnew' & HP').
    exists (new ++ new'). split.
    + now rewrite Hnew', Hnew, app_assoc.
    + apply Forall_app. now split.
  - exists new. now split.
Qed.

Lemma issues_try_except {A} (c : M W L A) (h : exn -> M W L A) :
  issues (W:=W) P c -> (forall e, issues (W:=W) P (h e)) -> issues (W:=W) P (try_except c h).
Proof.
  intros Hc Hh l g. unfold try_except. destruct (Hc l g) as (new & Hnew & HP).
  destruct (c l g) as [[o l'] g']. simpl in Hnew.
  destruct o as [a|e].
  - exists new. now split.
  - destruct (Hh e l' g') as (new' & Hnew' & HP').
    exists (new ++ new'). split.
    + now rewrite Hnew', Hnew, app_assoc.
    + apply Forall_app. now split.
Qed.

Lemma issues_try_except_cls {A} (catches : exn -> bool) (c : M W L A) (h : exn -> M W L A) :
  issues (W:=W) P c -> (forall e, issues (W:=W) P (h e)) ->
  issues (W:=W) P (try_except_cls catches c h).
Proof.
  intros Hc Hh l g. unfold try_except_cls. destruct (Hc l g) as (new & Hnew & HP).
  destruct (c l g) as [[o l'] g']. simpl in Hnew.
  destruct o as [a|e]; [exists new; now split | ].
  destruct (catches e); [ | exists new; now split ].
  destruct (Hh e l' g') as (new' & Hnew' & HP').
  exists (new ++ new'). split.
  - now rewrite Hnew', Hnew, app_assoc.
  - apply Forall_app. now split.
Qed.

Lemma issues_for_each {A} (xs : list A) (body : A -> M W L unit) :
  (forall x, issues (W:=W) P (body x)) -> issues (W:=W) P (for_each xs body).
Proof.
  intros Hb. induction xs as [|x xs IH]; simpl.
  - apply quiet_issues, quiet_ret.
  - apply issues_bind; [apply Hb | intros _; exact IH].
Qed.

Lemma issues_session_get http_get (rq : request) :
  P rq -> issues (W:=W) (L:=L) P (session_get http_get rq).
Proof.
  intros HP l g. exists [rq]. unfold session_get.
  destruct (http_get rq (world g)) as [[e|resp] w']; simpl; split; auto.
Qed.

Lemma issues_call {A} (m : Method W A) : issues_m (W:=W) P m -> issues (W:=W) P (call (L:=L) m).
Proof.
  intros Hm l g. unfold call. destruct (Hm g) as (new & Hnew & HP).
  destruct (m g) as [o g']. exists new. now split.
Qed.

Lemma issues_method {A} (init : L) (body : M W L A) :
  issues (W:=W) P body -> issues_m (W:=W) P (method init body).
Proof.
  intros Hb g. unfold method. destruct (Hb init g) as (new & Hnew & HP).
  destruct (body init g) as [[o l'] g']. exists new. now split.
Qed.

End Issues.

Section Total.
Context {L : Type}.

(** A loop whose every turn returns runs to its end. *)
Lemma total_for_each {A} (xs : list A) (body : A -> M W L unit) :
  (forall x, total (W:=W) (body x)) -> total (W:=W) (for_each xs body).
Proof.
  intros Hb. induction xs as [|x xs IH]; intros l g; simpl.
  - exists tt, l, g. reflexivity.
  - unfold bind. destruct (Hb x l g) as (a & l1 & g1 & E). rewrite E. apply IH.
Qed.

(** [try: c  except Exception: pass] returns. *)
Lemma total_try_except {A} (c : M W L A) (h : exn -> M W L A) :
  (forall e, total (W:=W) (h e)) -> total (W:=W) (try_except c h).
Proof.
  intros Hh l g. unfold try_except.
  destruct (c l g) as [[[a|e] l'] g'].
  - exists a, l', g'. reflexivity.
  - apply Hh.
Qed.

Lemma total_ret {A} (a : A) : total (W:=W) (L:=L) (ret a).
Proof. intros l g. exists a, l, g. reflexivity. Qed.

(** A method whose body is wrapped in [try/except Exception] with a handler
    that returns a value never raises. *)
Lemma total_method_try_except {A} (init : L) (c : M W L A) (h : exn -> A) :
  total_m (W:=W) (method init (try_except c (fun e => ret (h e)))).
Proof.
  intros g. unfold method.
  destruct (total_try_except c (fun e => ret (h e)) (fun e => total_ret (h e)) init g)
    as (a & l' & g' & E).
  rewrite E. exists a, g'. reflexivity.
Qed.

End Total.

End Effects.

Ltac head_of c :=
  lazymatch c with
  | ?f _ => head_of f
  | _ => c
  end.

(** Split a statement sequence along its binds, branches and matches. *)
Ltac effect_step :=
  match goal with
  | |- quiet (bind _ _) => apply quiet_bind; [ | intro ]
  | |- quiet (ret _) => apply quiet_ret
  | |- quiet (raise _) => apply quiet_raise
  | |- quiet (lift _) => apply quiet_lift
  | |- quiet get_local => apply quiet_get_local
  | |- quiet (set_local _) => apply quiet_set_local
  | |- quiet (append _) => apply quiet_append
  | |- quiet (datetime_now _) => apply quiet_datetime_now
  | |- quiet (for_each _ _) => apply quiet_for_each; intro
  | |- quiet (try_except _ _) => apply quiet_try_except; [ | intro ]
  | |- extends (bind _ _) => apply extends_bind; [ | intro ]
  | |- extends (ret _) => apply extends_ret
  | |- extends (raise _) => apply extends_raise
  | |- extends (lift _) => apply extends_lift
  | |- extends get_local => apply extends_get_local
  | |- extends (append _) => apply extends_append
  | |- extends (for_each _ _) => apply extends_for_each; intro
  | |- extends (try_except _ _) => apply extends_try_except; [ | intro ]
  | |- extends (try_except_cls _ _ _) => apply extends_try_except_cls; [ | intro ]
  | |- extends (session_get _ _) => apply extends_session_get
  | |- extends (raise_for_status _) => apply extends_raise_for_status
  | |- extends (json _) => apply extends_lift
  | |- issues _ (bind _ _) => apply issues_bind; [ | intro ]
  | |- issues _ (for_each _ _) => apply issues_for_each; intro
  | |- issues _ (try_except _ _) => apply issues_try_except; [ | intro ]
  | |- issues _ (try_except_cls _ _ _) => apply issues_try_except_cls; [ | intro ]
  | |- issues _ (session_get _ _) => apply issues_session_get
  | |- issues _ (call _) => apply issues_call
  | |- issues _ (ret _) => apply quiet_issues, quiet_ret
  | |- issues _ (raise _) => apply quiet_issues, quiet_raise
  | |- issues _ (lift _) => apply quiet_issues, quiet_lift
  | |- issues _ (json _) => apply quiet_issues, quiet_lift
  | |- issues _ get_local => apply quiet_issues, quiet_get_local
  | |- issues _ (set_local _) => apply quiet_issues, quiet_set_local
  | |- issues _ (append _) => apply quiet_issues, quiet_append
  | |- issues _ (datetime_now _) => apply quiet_issues, quiet_datetime_now
  | |- _ (if ?b then _ else _) => destruct b
  | |- _ (match ?x with _ => _ end) => destruct x
  | |- _ _ (if ?b then _ else _) => destruct b
  | |- _ _ (match ?x with _ => _ end) => destruct x
  | |- _ => progress cbv zeta
  | |- quiet ?c => let h := head_of c in unfold h
  | |- extends ?c => let h := head_of c in unfold h
  | |- issues _ ?c => let h := head_of c in unfold h
  end.

Ltac effects := repeat effect_step.

(* ===================================================================== *)
(** ** Indicator Catalog lookup                                           *)
(* ===================================================================== *)

Lemma caseless_lower (s t : string) : Str.caseless s t -> Str.lower s = Str.lower t.
Proof. induction 1; simpl; congruence. Qed.

Lemma caseless_refl (s : string) : Str.caseless s s.
Proof. induction s; constructor; auto. Qed.

Lemma caseless_sym (s t : string) : Str.caseless s t -> Str.caseless t s.
Proof. induction 1; constructor; auto. Qed.

Example lookup_upper_case :
  Data.WorldBankCollector._get_indicators_by_type "MINING"
  = ["NY.GDP.MINR.RT.ZS"; "TX.VAL.MRCH.CD.WT"; "EG.USE.COMM.CL.ZS"].
Proof. reflexivity. Qed.

(** C4 (as amended).  In all three catalogs two topics that differ only in
    letter case resolve to the same indicators.  A topic without an entry
    resolves to the empty list in [data_collectors] and [working_collectors];
    in [enhanced_collectors] it resolves to the indicators of ['economy'],
    the default its [get] is given. *)
Theorem C4_catalog_lookup :
  (forall s t, Str.caseless s t ->
     Data.WorldBankCollector._get_indicators_by_type s
       = Data.WorldBankCollector._get_indicators_by_type t /\
     Working.WorldBankCollector._get_indicators_by_type s
       = Working.WorldBankCollector._get_indicators_by_type t /\
     Enhanced.WorldBankCollector._get_2025_indicators s
       = Enhanced.WorldBankCollector._get_2025_indicators t) /\
  (forall s, Py.assoc (Str.lower s) Data.WorldBankCollector.indicators_map = None ->
     Data.WorldBankCollector._get_indicators_by_type s = []) /\
  (forall s, Py.assoc (Str.lower s) Working.WorldBankCollector.indicators_map = None ->
     Working.WorldBankCollector._get_indicators_by_type s = []) /\
  (forall s, Py.assoc (Str.lower s) Enhanced.WorldBankCollector.indicators = None ->
     Enhanced.WorldBankCollector._get_2025_indicators s
       = Enhanced.WorldBankCollector.economy_indicators).
Proof.
  repeat split.
  - unfold Data.WorldBankCollector._get_indicators_by_type.
    now rewrite (caseless_lower s t).
  - unfold Working.WorldBankCollector._get_indicators_by_type.
    now rewrite (caseless_lower s t).
  - unfold Enhanced.WorldBankCollector._get_2025_indicators.
    now rewrite (caseless_lower s t).
  - intros s H. unfold Data.WorldBankCollector._get_indicators_by_type, Py.get_default.
    now rewrite H.
  - intros s H. unfold Working.WorldBankCollector._get_indicators_by_type, Py.get_default.
    now rewrite H.
  - intros s H. unfold Enhanced.WorldBankCollector._get_2025_indicators, Py.get_default.
    now rewrite H.
Qed.

Lemma C4_catalog_lookup_witness :
  Data.WorldBankCollector._get_indicators_by_type "Mining"
    = Data.WorldBankCollector._get_indicators_by_type "mining" /\
  Data.WorldBankCollector._get_indicators_by_type "sports" = [] /\
  Working.WorldBankCollector._get_indicators_by_type "sports" = [] /\
  Enhanced.WorldBankCollector._get_2025_indicators "sports"
    = Enhanced.WorldBankCollector.economy_indicators.
Proof.
  destruct C4_catalog_lookup as (Hcase & Hdata & Hworking & Henhanced).
  split; [ | split; [ | split ] ].
  - apply (Hcase "Mining" "mining"). repeat (constructor; [reflexivity | ]). constructor.
  - apply Hdata. reflexivity.
  - apply Hworking. reflexivity.
  - apply Henhanced. reflexivity.
Defined.

(** C4 as stated fails in [enhanced_collectors]: ['sports'] has no entry in
    the catalog, and its lookup gives the five indicators of ['economy']. *)
Lemma C4_unknown_topic_counterexample :
  Py.assoc (Str.lower "sports") Enhanced.WorldBankCollector.indicators = None /\
  Enhanced.WorldBankCollector._get_2025_indicators "sports"
    = Enhanced.WorldBankCollector._get_2025_indicators "economy" /\
  List.length (Enhanced.WorldBankCollector._get_2025_indicators "sports") = 5%nat.
Proof. repeat split. Qed.

(* ===================================================================== *)
(** ** The fallback chain of robust_collectors                            *)
(* ===================================================================== *)

Lemma list_or_none_shape (results : list pyval) : no_result_or_records (list_or_none results).
Proof.
  destruct results as [|r rs]; [left; reflexivity | right].
  exists (r :: rs). split; [reflexivity | discriminate].
Qed.

Lemma truthy_shape (v : pyval) :
  no_result_or_records v ->
  (v = PyNone /\ Py.truthy v = false) \/
  (exists records, v = PyList records /\ records <> [] /\ Py.truthy v = true).
Proof.
  intros [-> | (records & -> & Hne)]; [left; now split | right].
  exists records. repeat split; auto. destruct records; [contradiction | reflexivity].
Qed.

Section Postcondition.
Context {W L A : Type}.

Lemma returns_only_ret (Q : A -> Prop) (a : A) : Q a -> returns_only (W:=W) (L:=L) Q (ret a).
Proof. intros H l g a' l' g' E. inversion E. now subst. Qed.

Lemma returns_only_bind {B} (Q : A -> Prop) (c : M W L B) (k : B -> M W L A) :
  (forall b, returns_only Q (k b)) -> returns_only Q (bind c k).
Proof.
  intros Hk l g a l' g'. unfold bind.
  destruct (c l g) as [[[b|e] l1] g1]; [apply Hk | discriminate].
Qed.

(** A method whose body is guarded by [except Exception] returns, and what
    it returns comes from the body or from the handler. *)
Lemma guarded_method_returns (Q : A -> Prop) (init : L) (c : M W L A) (h : exn -> A) :
  returns_only Q c -> (forall e, Q (h e)) ->
  forall g, exists a g', method init (try_except c (fun e => ret (h e))) g = (Return a, g') /\ Q a.
Proof.
  intros Hc Hh g. unfold method, try_except.
  destruct (c init g) as [[[a|e] l'] g'] eqn:E.
  - exists a, g'. split; [reflexivity | eapply Hc; eauto].
  - exists (h e), g'. split; [reflexivity | apply Hh].
Qed.

End Postcondition.

Ltac returns_step :=
  match goal with
  | |- returns_only _ (bind _ _) => apply returns_only_bind; intro
  | |- returns_only _ (ret _) => apply returns_only_ret
  | |- returns_only _ (if ?b then _ else _) => destruct b
  | |- returns_only _ (match ?x with _ => _ end) => destruct x
  end.

Section RobustChain.
Context {W : Type}.
Variable http_get : request -> W -> (exn + response) * W.
Variable now : W -> clock.

Import Robust.

(** The Fetch strategy always returns: [None], or a list with a record. *)
Lemma _try_world_bank_api_returns (data_type : string) (g : globals W) :
  exists api_data g1,
    WorldBankCollector._try_world_bank_api http_get data_type g = (Return api_data, g1) /\
    no_result_or_records api_data.
Proof.
  apply guarded_method_returns; [ | intros _; now left ].
  repeat returns_step; try (now left); apply list_or_none_shape.
Qed.

(** The Scrape strategy always returns: [None], or a list with a record. *)
Lemma _scrape_world_bank_page_returns (data_type : string) (g : globals W) :
  exists scraped_data g1,
    WorldBankCollector._scrape_world_bank_page http_get now data_type g = (Return scraped_data, g1) /\
    no_result_or_records scraped_data.
Proof.
  apply guarded_method_returns; [ | intros _; now left ].
  repeat returns_step; try (now left); apply list_or_none_shape.
Qed.

(** When Fetch hands back records it has issued one request, to the API. *)
Lemma _try_world_bank_api_request (data_type : string) (g g1 : globals W) (api_data : pyval) :
  WorldBankCollector._try_world_bank_api http_get data_type g = (Return api_data, g1) ->
  api_data <> PyNone ->
  exists indicator,
    Py.assoc (Str.lower data_type) WorldBankCollector.indicators = Some indicator /\
    requests g1 = requests g ++ [WorldBankCollector.api_request indicator].
Proof.
  unfold WorldBankCollector._try_world_bank_api, method, try_except.
  destruct (Py.assoc (Str.lower data_type) WorldBankCollector.indicators) as [indicator|];
    [ | simpl; intros E; inversion E; congruence ].
  destruct (String.eqb indicator ""); [ simpl; intros E; inversion E; congruence | ].
  unfold bind at 1. unfold session_get at 1.
  destruct (http_get (WorldBankCollector.api_request indicator) (world g)) as [[e|resp] w'];
    [ simpl; intros E; inversion E; congruence | ].
  match goal with
  | |- context [?c (@nil pyval) (mkGlobals ?w ?rs)] =>
      assert (Hq : quiet c) by effects;
      specialize (Hq [] (mkGlobals w rs));
      destruct (c [] (mkGlobals w rs)) as [[o l'] g2]
  end.
  simpl in Hq. subst g2. intros E Hne. exists indicator. split; [reflexivity | ].
  destruct o; inversion E; subst; reflexivity.
Qed.

(** [collect_data] spelled out along its three strategies. *)
Lemma collect_data_chain (data_type : string) (g : globals W) :
  exists api_data g1 scraped_data g2,
    WorldBankCollector._try_world_bank_api http_get data_type g = (Return api_data, g1) /\
    WorldBankCollector._scrape_world_bank_page http_get now data_type g1
      = (Return scraped_data, g2) /\
    no_result_or_records api_data /\ no_result_or_records scraped_data /\
    WorldBankCollector.collect_data http_get now data_type g =
      if Py.truthy api_data then
        (Return (success_result api_data
                   [("source", PyStr "World Bank API"); ("country", PyStr "Zambia")]), g1)
      else if Py.truthy scraped_data then
        (Return (success_result scraped_data
                   [("source", PyStr "World Bank Website"); ("country", PyStr "Zambia")]), g2)
      else
        (Return (success_result (PyList (WorldBankCollector._get_fallback_data data_type))
                   [("source", PyStr "World Bank Reference Data"); ("country", PyStr "Zambia")]),
         g2).
Proof.
  destruct (_try_world_bank_api_returns data_type g) as (api_data & g1 & E1 & S1).
  destruct (_scrape_world_bank_page_returns data_type g1) as (scraped_data & g2 & E2 & S2).
  exists api_data, g1, scraped_data, g2. repeat split; auto.
  unfold WorldBankCollector.collect_data, WorldBankCollector.collect_body,
    method, try_except, bind, call.
  rewrite E1. destruct (Py.truthy api_data); [reflexivity | ].
  rewrite E2. destruct (Py.truthy scraped_data); reflexivity.
Qed.

(** C2.  [collect_data] of the robust World Bank collector runs Fetch first.
    If Fetch hands back a list with a record in it, the result carries that
    very list, and the only request issued is the one to the API: the page is
    not scraped and the reference table is not read.  Otherwise Scrape runs,
    and its records are returned if it has any; only then the reference
    table supplies the data. *)
Theorem C2_fallback_order (data_type : string) (g : globals W) :
  exists api_data g1,
    WorldBankCollector._try_world_bank_api http_get data_type g = (Return api_data, g1) /\
    ((exists records indicator,
        api_data = PyList records /\ records <> [] /\
        WorldBankCollector.collect_data http_get now data_type g
          = (Return (success_result (PyList records)
                       [("source", PyStr "World Bank API"); ("country", PyStr "Zambia")]), g1) /\
        requests g1 = requests g ++ [WorldBankCollector.api_request indicator])
     \/
     (api_data = PyNone /\
      exists scraped_data g2,
        WorldBankCollector._scrape_world_bank_page http_get now data_type g1
          = (Return scraped_data, g2) /\
        ((exists records,
            scraped_data = PyList records /\ records <> [] /\
            WorldBankCollector.collect_data http_get now data_type g
              = (Return (success_result (PyList records)
                           [("source", PyStr "World Bank Website"); ("country", PyStr "Zambia")]),
                 g2))
         \/
         (scraped_data = PyNone /\
          WorldBankCollector.collect_data http_get now data_type g
            = (Return (success_result (PyList (WorldBankCollector._get_fallback_data data_type))
                         [("source", PyStr "World Bank Reference Data");
                          ("country", PyStr "Zambia")]),
               g2))))).
Proof.
  destruct (collect_data_chain data_type g)
    as (api_data & g1 & scraped_data & g2 & E1 & E2 & S1 & S2 & E).
  exists api_data, g1. split; [exact E1 | ].
  destruct (truthy_shape _ S1) as [[-> T1] | (records & -> & Hne & T1)]; rewrite T1 in E.
  - right. split; [reflexivity | ]. exists scraped_data, g2. split; [exact E2 | ].
    destruct (truthy_shape _ S2) as [[-> T2] | (records & -> & Hne & T2)]; rewrite T2 in E.
    + right. now split.
    + left. exists records. now repeat split.
  - left. destruct (_try_world_bank_api_request data_type g g1 (PyList records) E1)
      as (indicator & _ & Hreq); [discriminate | ].
    exists records, indicator. now repeat split.
Qed.


(** The IMF page scrape always returns: [None], or a list with a record. *)
Lemma _scrape_imf_data_returns (data_type : string) (g : globals W) :
  exists scraped_data g1,
    IMFCollector._scrape_imf_data http_get now data_type g = (Return scraped_data, g1) /\
    no_result_or_records scraped_data.
Proof.
  apply guarded_method_returns; [ | intros _; now left ].
  repeat returns_step; try (now left); apply list_or_none_shape.
Qed.

Lemma imf_collect_data_chain (data_type : string) (g : globals W) :
  exists scraped_data g1,
    IMFCollector._scrape_imf_data http_get now data_type g = (Return scraped_data, g1) /\
    no_result_or_records scraped_data /\
    IMFCollector.collect_data http_get now data_type g =
      if Py.truthy scraped_data then
        (Return (success_result scraped_data
                   [("source", PyStr "IMF"); ("country", PyStr "Zambia")]), g1)
      else
        (Return (success_result (PyList (IMFCollector._get_imf_fallback_data data_type))
                   [("source", PyStr "IMF Reference Data"); ("country", PyStr "Zambia")]), g1).
Proof.
  destruct (_scrape_imf_data_returns data_type g) as (scraped_data & g1 & E1 & S1).
  exists scraped_data, g1. repeat split; auto.
  unfold IMFCollector.collect_data, IMFCollector.collect_body, method, try_except, bind, call.
  rewrite E1. destruct (Py.truthy scraped_data); reflexivity.
Qed.

(** A result that names the reference data as its source carries the
    reference table's records for the topic. *)
Lemma reference_result_data (data_type : string) (g g1 : globals W) (result : pyval) :
  WorldBankCollector.collect_data http_get now data_type g = (Return result, g1) ->
  resolved_from "World Bank Reference Data" result ->
  field "data" result = Some (PyList (WorldBankCollector._get_fallback_data data_type)).
Proof.
  intros E Href.
  destruct (collect_data_chain data_type g) as (a & ga & s & gs & _ & _ & _ & _ & E').
  rewrite E in E'.
  destruct (Py.truthy a); [ inversion E'; subst; discriminate Href | ].
  destruct (Py.truthy s); inversion E'; subst; [discriminate Href | reflexivity].
Qed.

Lemma imf_reference_result_data (data_type : string) (g g1 : globals W) (result : pyval) :
  IMFCollector.collect_data http_get now data_type g = (Return result, g1) ->
  resolved_from "IMF Reference Data" result ->
  field "data" result = Some (PyList (IMFCollector._get_imf_fallback_data data_type)).
Proof.
  intros E Href.
  destruct (imf_collect_data_chain data_type g) as (s & gs & _ & _ & E').
  rewrite E in E'.
  destruct (Py.truthy s); inversion E'; subst; [discriminate Href | reflexivity].
Qed.

(** C9.  Two consecutive calls of [collect_data] for one topic, the second
    starting in the world the first one left, that are both resolved from the
    reference table carry the same record list, the table's records for the
    topic in the table's order; for the World Bank and for the IMF collector
    of [robust_collectors]. *)
Theorem C9_reference_idempotent (data_type : string) (g g1 g2 : globals W) (r1 r2 : pyval) :
  (WorldBankCollector.collect_data http_get now data_type g = (Return r1, g1) ->
   WorldBankCollector.collect_data http_get now data_type g1 = (Return r2, g2) ->
   resolved_from "World Bank Reference Data" r1 ->
   resolved_from "World Bank Reference Data" r2 ->
   field "data" r1 = Some (PyList (WorldBankCollector._get_fallback_data data_type)) /\
   field "data" r2 = field "data" r1)
  /\
  (IMFCollector.collect_data http_get now data_type g = (Return r1, g1) ->
   IMFCollector.collect_data http_get now data_type g1 = (Return r2, g2) ->
   resolved_from "IMF Reference Data" r1 ->
   resolved_from "IMF Reference Data" r2 ->
   field "data" r1 = Some (PyList (IMFCollector._get_imf_fallback_data data_type)) /\
   field "data" r2 = field "data" r1).
Proof.
  split; intros E1 E2 H1 H2.
  - rewrite (reference_result_data _ _ _ _ E1 H1), (reference_result_data _ _ _ _ E2 H2).
    now split.
  - rewrite (imf_reference_result_data _ _ _ _ E1 H1), (imf_reference_result_data _ _ _ _ E2 H2).
    now split.
Qed.

End RobustChain.

(** Fetch succeeds: the records come back as they are, one request issued. *)
Example fetch_short_circuits :
  Robust.WorldBankCollector.collect_data
    (Mock.up [Mock.observation "2023" (PyInt 20569737)]) Mock.clk "Population" Mock.g0
  = (Return (success_result
               (PyList [PyDict [ ("Indicator", PyStr "Population, total");
                                 ("Year", PyStr "2023");
                                 ("Value", PyInt 20569737);
                                 ("Country", PyStr "Zambia");
                                 ("Source", PyStr "World Bank API") ]])
               [("source", PyStr "World Bank API"); ("country", PyStr "Zambia")]),
     mkGlobals tt [Robust.WorldBankCollector.api_request "SP.POP.TOTL"]).
Proof. vm_compute. reflexivity. Qed.

(** Fetch fails, the page holds a statistic: Scrape supplies the record, and
    it was asked once, after the one request to the API. *)
Example scrape_after_fetch :
  Robust.WorldBankCollector.collect_data
    (Mock.site [ mkElement "div" ["nav"] "Zambia overview 2025";
                 mkElement "span" ["stat-value"] "Total Population: 20,218,000" ])
    Mock.clk "population" Mock.g0
  = (Return (success_result
               (PyList [PyDict [ ("Indicator", PyStr "Zambia Population Data");
                                 ("Value", PyStr "Total Population: 20,218,000");
                                 ("Source", PyStr "World Bank Website");
                                 ("Country", PyStr "Zambia");
                                 ("Date", PyStr "2025-06-01") ]])
               [("source", PyStr "World Bank Website"); ("country", PyStr "Zambia")]),
     mkGlobals tt [ Robust.WorldBankCollector.api_request "SP.POP.TOTL";
                    Robust.WorldBankCollector.page_request ]).
Proof. vm_compute. reflexivity. Qed.

(** Both live strategies fail: the reference table supplies the records. *)
Example reference_after_both_fail :
  fst (Robust.WorldBankCollector.collect_data Mock.down Mock.clk "Health" Mock.g0)
  = Return (success_result
              (PyList (Robust.WorldBankCollector._get_fallback_data "health"))
              [("source", PyStr "World Bank Reference Data"); ("country", PyStr "Zambia")]).
Proof. vm_compute. reflexivity. Qed.



Lemma C9_reference_idempotent_witness :
  exists wb1 wb2 imf1 imf2 : pyval,
    fst (Robust.WorldBankCollector.collect_data Mock.down Mock.clk "mining" Mock.g0)
      = Return wb1 /\
    fst (Robust.WorldBankCollector.collect_data Mock.down Mock.clk "mining"
           (snd (Robust.WorldBankCollector.collect_data Mock.down Mock.clk "mining" Mock.g0)))
      = Return wb2 /\
    field "data" wb2 = field "data" wb1 /\
    fst (Robust.IMFCollector.collect_data Mock.down Mock.clk "population" Mock.g0)
      = Return imf1 /\
    fst (Robust.IMFCollector.collect_data Mock.down Mock.clk "population"
           (snd (Robust.IMFCollector.collect_data Mock.down Mock.clk "population" Mock.g0)))
      = Return imf2 /\
    field "data" imf2 = field "data" imf1.
Proof.
  pose (wb := success_result (PyList (Robust.WorldBankCollector._get_fallback_data "mining"))
                [("source", PyStr "World Bank Reference Data"); ("country", PyStr "Zambia")]).
  pose (imf := success_result (PyList (Robust.IMFCollector._get_imf_fallback_data "population"))
                 [("source", PyStr "IMF Reference Data"); ("country", PyStr "Zambia")]).
  pose (wb_rqs := [Robust.WorldBankCollector.api_request "NY.GDP.MINR.RT.ZS";
                   Robust.WorldBankCollector.page_request]).
  pose (imf_rqs := [Robust.IMFCollector.page_request]).
  exists wb, wb, imf, imf.
  destruct (C9_reference_idempotent Mock.down Mock.clk "mining"
              Mock.g0 (mkGlobals tt wb_rqs) (mkGlobals tt (wb_rqs ++ wb_rqs)) wb wb)
    as [Hwb _].
  destruct (C9_reference_idempotent Mock.down Mock.clk "population"
              Mock.g0 (mkGlobals tt imf_rqs) (mkGlobals tt (imf_rqs ++ imf_rqs)) imf imf)
    as [_ Himf].
  destruct Hwb as [_ Hwb_same]; try reflexivity.
  destruct Himf as [_ Himf_same]; try reflexivity.
  repeat split; assumption || reflexivity.
Defined.

(* ===================================================================== *)
(** ** The collector boundary                                             *)
(* ===================================================================== *)

Section Boundary.
Context {W : Type}.
Variable http_get : request -> W -> (exn + response) * W.
Variable now : W -> clock.


Lemma success_is_result (data : pyval) (metadata : list (string * pyval)) :
  is_success (success_result data metadata) \/ is_failure (success_result data metadata).
Proof. left. reflexivity. Qed.

Lemma failure_is_result (msg : string) :
  msg <> "" -> is_success (failure_result msg) \/ is_failure (failure_result msg).
Proof. intros H. right. split; [reflexivity | ]. exists msg. now split. Qed.


End Boundary.


(** The same collector on a page it can read. *)
Example imf_page_parsed :
  fst (Data.IMFCollector.collect_data
         (Mock.page "Inflation eased to 11.3 percent") Mock.clk "economy" Mock.g0)
  = Return (success_result
              (PyList [Data.IMFCollector.metric "Inflation Related Metric 1" "11.3"
                         "Economic" "2025-06-01"])
              [ ("source", PyStr "IMF"); ("url", PyStr Data.IMFCollector.url);
                ("data_type", PyStr "economy") ]).
Proof. vm_compute. reflexivity. Qed.

(* ===================================================================== *)
(** ** Observations with a value                                          *)
(* ===================================================================== *)

(** C5.  The answer of the API holds two observations, the first with the
    value [0] and the second with the value [7].  [data_collectors] tests
    [item['value'] is not None] and appends a record for each; the test
    [if item.get('value')] of [robust_collectors] and [enhanced_collectors]
    takes [0] for absent and appends a record for the second only, and
    nothing at all for an answer whose only observation has the value [0]. *)
Theorem C5_zero_value_dropped :
  fst (Robust.WorldBankCollector._try_world_bank_api
         (Mock.up [Mock.observation "2023" (PyInt 0)]) "population" Mock.g0)
    = Return PyNone /\
  fst (Robust.WorldBankCollector._try_world_bank_api
         (Mock.up [Mock.observation "2023" (PyInt 0); Mock.observation "2022" (PyInt 7)])
         "population" Mock.g0)
    = Return (PyList [PyDict [ ("Indicator", PyStr "Population, total");
                               ("Year", PyStr "2022");
                               ("Value", PyInt 7);
                               ("Country", PyStr "Zambia");
                               ("Source", PyStr "World Bank API") ]]) /\
  fst (Enhanced.WorldBankCollector._fetch_from_multiple_apis
         (Mock.up [Mock.observation "2023" (PyInt 0)]) "population" Mock.g0)
    = Return PyNone /\
  Data.WorldBankCollector.fetch_body
    (Mock.up [Mock.observation "2023" (PyInt 0); Mock.observation "2022" (PyInt 7)])
    "SP.POP.TOTL" [] Mock.g0
    = (Return tt,
       [PyDict [ ("Indicator", PyStr "Population, total");
                 ("Indicator_Code", PyStr "SP.POP.TOTL");
                 ("Year", PyStr "2023");
                 ("Value", PyInt 0);
                 ("Country", PyStr "Zambia");
                 ("Source", PyStr "World Bank") ];
        PyDict [ ("Indicator", PyStr "Population, total");
                 ("Indicator_Code", PyStr "SP.POP.TOTL");
                 ("Year", PyStr "2022");
                 ("Value", PyInt 7);
                 ("Country", PyStr "Zambia");
                 ("Source", PyStr "World Bank") ]],
       mkGlobals tt [Data.WorldBankCollector.api_request "SP.POP.TOTL"]).
Proof. repeat split. Qed.

(** An observation whose value is [null] is skipped by both tests. *)
Example null_value_skipped :
  fst (Robust.WorldBankCollector._try_world_bank_api
         (Mock.up [Mock.observation "2023" PyNone]) "population" Mock.g0)
    = Return PyNone /\
  Data.WorldBankCollector.fetch_body
    (Mock.up [Mock.observation "2023" PyNone]) "SP.POP.TOTL" [] Mock.g0
    = (Return tt, [], mkGlobals tt [Data.WorldBankCollector.api_request "SP.POP.TOTL"]).
Proof. repeat split. Qed.

(* ===================================================================== *)
(** ** One failing indicator does not end the Fetch attempt               *)
(* ===================================================================== *)

Section LoopContinues.
Context {W X A : Type}.
Variable body : A -> M W (list X) unit.
Hypothesis body_extends : forall x, extends (body x).

Lemma turn_total (x : A) : total (turn body x).
Proof. apply total_try_except. intros e. apply total_ret. Qed.

Lemma for_each_app (f : A -> M W (list X) unit) (xs ys : list A) (l : list X) (g : globals W) :
  for_each (xs ++ ys) f l g =
    match for_each xs f l g with
    | (Return _, l1, g1) => for_each ys f l1 g1
    | (Raise e, l1, g1) => (Raise e, l1, g1)
    end.
Proof.
  revert l g. induction xs as [|x xs IH]; intros l g; simpl; [reflexivity | ].
  unfold bind. destruct (f x l g) as [[[u|e] l1] g1]; [apply IH | reflexivity].
Qed.

(** The loop seen from one of its turns: the turns before it ran to their
    end; the turn's own statements returned or raised ([o]) after appending
    [added]; the turns after it ran to their end from there and appended
    [later]. *)
Lemma loop_continues (before : list A) (x : A) (after : list A) (l : list X) (g : globals W) :
  exists lb gb o added ga later g',
    for_each before (turn body) l g = (Return tt, lb, gb) /\
    body x lb gb = (o, lb ++ added, ga) /\
    for_each after (turn body) (lb ++ added) ga = (Return tt, lb ++ added ++ later, g') /\
    for_each (before ++ x :: after) (turn body) l g = (Return tt, lb ++ added ++ later, g').
Proof.
  destruct (total_for_each before (turn body) turn_total l g) as ([] & lb & gb & Eb).
  destruct (body_extends x lb gb) as (added & Hadd).
  destruct (body x lb gb) as [[o lx] ga] eqn:Ex. simpl in Hadd. subst lx.
  destruct (total_for_each after (turn body) turn_total (lb ++ added) ga) as ([] & la & g' & Ea).
  assert (Hext : extends (for_each after (turn body))).
  { apply extends_for_each. intros y. apply extends_try_except; [apply body_extends | ].
    intros e. apply extends_ret. }
  destruct (Hext (lb ++ added) ga) as (later & Hlater).
  rewrite Ea in Hlater. simpl in Hlater. rewrite <- app_assoc in Hlater. subst la.
  exists lb, gb, o, added, ga, later, g'. repeat split; auto.
  rewrite for_each_app, Eb. simpl. unfold bind, turn at 1, try_except. rewrite Ex.
  destruct o; exact Ea.
Qed.

End LoopContinues.

Section FetchLoops.
Context {W : Type}.
Variable http_get : request -> W -> (exn + response) * W.

Lemma data_fetch_body_extends (indicator : string) :
  extends (Data.WorldBankCollector.fetch_body http_get indicator).
Proof. unfold Data.WorldBankCollector.fetch_body. effects. Qed.

Lemma enhanced_fetch_body_extends (indicator : string * string) :
  extends (Enhanced.WorldBankCollector.fetch_body http_get indicator).
Proof. unfold Enhanced.WorldBankCollector.fetch_body. effects. Qed.

(** The Fetch attempt of [data_collectors] hands on what the loop gathered. *)
Lemma data_collect_data_returns_loop (data_type : string) (g : globals W) :
  exists all_data g',
    for_each (Data.WorldBankCollector._get_indicators_by_type data_type)
      (Data.WorldBankCollector.fetch_indicator http_get) [] g = (Return tt, all_data, g') /\
    (Data.WorldBankCollector._get_indicators_by_type data_type <> [] ->
     all_data <> [] ->
     exists metadata,
       Data.WorldBankCollector.collect_data http_get data_type g
         = (Return (success_result (PyList all_data) metadata), g')).
Proof.
  destruct (total_for_each (Data.WorldBankCollector._get_indicators_by_type data_type)
              (Data.WorldBankCollector.fetch_indicator http_get)
              (turn_total (Data.WorldBankCollector.fetch_body http_get)) [] g)
    as ([] & all_data & g' & Eloop).
  exists all_data, g'. split; [exact Eloop | ]. intros Hinds Hdata.
  unfold Data.WorldBankCollector.collect_data, Data.WorldBankCollector.collect_body,
    method, try_except.
  destruct (Data.WorldBankCollector._get_indicators_by_type data_type) as [|i rest];
    [contradiction | ].
  unfold bind at 1. cbn [set_local]. unfold bind at 1. rewrite Eloop.
  destruct all_data as [|r rs]; [contradiction | ].
  eexists. reflexivity.
Qed.

(** The Fetch attempt of [enhanced_collectors] hands on what the loop
    gathered, or [None] when that is nothing. *)
Lemma enhanced_fetch_returns_loop (data_type : string) (g : globals W) :
  exists all_data g',
    for_each (Enhanced.WorldBankCollector._get_2025_indicators data_type)
      (Enhanced.WorldBankCollector.fetch_indicator http_get) [] g = (Return tt, all_data, g') /\
    Enhanced.WorldBankCollector._fetch_from_multiple_apis http_get data_type g
      = (Return (list_or_none all_data), g').
Proof.
  destruct (total_for_each (Enhanced.WorldBankCollector._get_2025_indicators data_type)
              (Enhanced.WorldBankCollector.fetch_indicator http_get)
              (turn_total (Enhanced.WorldBankCollector.fetch_body http_get)) [] g)
    as ([] & all_data & g' & Eloop).
  exists all_data, g'. split; [exact Eloop | ].
  unfold Enhanced.WorldBankCollector._fetch_from_multiple_apis, method.
  cbv zeta. unfold bind at 1. cbn [set_local]. unfold bind at 1. rewrite Eloop.
  reflexivity.
Qed.

(** C6.  In the loop over the indicators of [data_collectors] and of
    [enhanced_collectors], take any indicator [i] of any list
    [before ++ i :: after].  The turns before it have run to their end.
    Whether the statements for [i] return or raise ([o]), the records they
    appended ([added]) stay in [all_data], the loop goes on with the
    indicators after [i], and ends by returning with all the records of the
    earlier and of the later turns in place.  What the loop gathered is what
    the Fetch attempt hands on: as the data of the success result in
    [data_collectors], as the returned list in [enhanced_collectors]. *)
Theorem C6_failing_indicator_skipped :
  (forall (before : list string) (i : string) (after : list string)
          (all_data : list pyval) (g : globals W),
     exists lb gb o added ga later g',
       for_each before (Data.WorldBankCollector.fetch_indicator http_get) all_data g
         = (Return tt, lb, gb) /\
       Data.WorldBankCollector.fetch_body http_get i lb gb = (o, lb ++ added, ga) /\
       for_each after (Data.WorldBankCollector.fetch_indicator http_get) (lb ++ added) ga
         = (Return tt, lb ++ added ++ later, g') /\
       for_each (before ++ i :: after) (Data.WorldBankCollector.fetch_indicator http_get)
         all_data g
         = (Return tt, lb ++ added ++ later, g'))
  /\
  (forall (before : list (string * string)) (i : string * string)
          (after : list (string * string)) (all_data : list pyval) (g : globals W),
     exists lb gb o added ga later g',
       for_each before (Enhanced.WorldBankCollector.fetch_indicator http_get) all_data g
         = (Return tt, lb, gb) /\
       Enhanced.WorldBankCollector.fetch_body http_get i lb gb = (o, lb ++ added, ga) /\
       for_each after (Enhanced.WorldBankCollector.fetch_indicator http_get) (lb ++ added) ga
         = (Return tt, lb ++ added ++ later, g') /\
       for_each (before ++ i :: after) (Enhanced.WorldBankCollector.fetch_indicator http_get)
         all_data g
         = (Return tt, lb ++ added ++ later, g'))
  /\
  (forall (data_type : string) (g : globals W),
     exists all_data g',
       for_each (Data.WorldBankCollector._get_indicators_by_type data_type)
         (Data.WorldBankCollector.fetch_indicator http_get) [] g = (Return tt, all_data, g') /\
       (Data.WorldBankCollector._get_indicators_by_type data_type <> [] ->
        all_data <> [] ->
        exists metadata,
          Data.WorldBankCollector.collect_data http_get data_type g
            = (Return (success_result (PyList all_data) metadata), g')))
  /\
  (forall (data_type : string) (g : globals W),
     exists all_data g',
       for_each (Enhanced.WorldBankCollector._get_2025_indicators data_type)
         (Enhanced.WorldBankCollector.fetch_indicator http_get) [] g
         = (Return tt, all_data, g') /\
       Enhanced.WorldBankCollector._fetch_from_multiple_apis http_get data_type g
         = (Return (list_or_none all_data), g')).
Proof.
  split; [ | split; [ | split ] ].
  - intros before i after all_data g.
    exact (loop_continues (Data.WorldBankCollector.fetch_body http_get)
             data_fetch_body_extends before i after all_data g).
  - intros before i after all_data g.
    exact (loop_continues (Enhanced.WorldBankCollector.fetch_body http_get)
             enhanced_fetch_body_extends before i after all_data g).
  - exact data_collect_data_returns_loop.
  - exact enhanced_fetch_returns_loop.
Qed.

End FetchLoops.

(** The request for the second of the four population indicators times out;
    the records of the first, third and fourth are returned. *)
Example one_indicator_down :
  fst (Data.WorldBankCollector.collect_data
         (Mock.flaky "SP.POP.GROW" [Mock.observation "2023" (PyInt 7)]) "population" Mock.g0)
  = Return (success_result
              (PyList (repeat (PyDict [ ("Indicator", PyStr "Population, total");
                                        ("Indicator_Code", PyStr "SP.POP.TOTL");
                                        ("Year", PyStr "2023");
                                        ("Value", PyInt 7);
                                        ("Country", PyStr "Zambia");
                                        ("Source", PyStr "World Bank") ]) 3))
              [ ("source", PyStr "World Bank"); ("country", PyStr "Zambia");
                ("indicators_count", PyInt 4); ("records_count", PyInt 3) ]).
Proof. vm_compute. reflexivity. Qed.

Lemma C6_failing_indicator_skipped_witness :
  exists metadata,
    fst (Data.WorldBankCollector.collect_data
           (Mock.flaky "SP.POP.GROW" [Mock.observation "2023" (PyInt 7)]) "population" Mock.g0)
    = Return (success_result
                (PyList (repeat (PyDict [ ("Indicator", PyStr "Population, total");
                                          ("Indicator_Code", PyStr "SP.POP.TOTL");
                                          ("Year", PyStr "2023");
                                          ("Value", PyInt 7);
                                          ("Country", PyStr "Zambia");
                                          ("Source", PyStr "World Bank") ]) 3))
                metadata).
Proof.
  destruct (C6_failing_indicator_skipped
              (Mock.flaky "SP.POP.GROW" [Mock.observation "2023" (PyInt 7)]))
    as (_ & _ & Hdata & _).
  destruct (Hdata "population" Mock.g0) as (all_data & g' & Eloop & Hret).
  vm_compute in Eloop. inversion Eloop. subst all_data g'.
  destruct Hret as (metadata & E); [discriminate | discriminate | ].
  exists metadata. rewrite E. reflexivity.
Defined.

(* ===================================================================== *)
(** ** Timeouts of the Fetch requests                                     *)
(* ===================================================================== *)

Section Timeouts.
Context {W : Type}.
Variable http_get : request -> W -> (exn + response) * W.
Variable now : W -> clock.

Lemma robust_fetch_timeouts (data_type : string) :
  issues_m (fun rq => req_timeout rq = 5%Z)
    (Robust.WorldBankCollector._try_world_bank_api http_get data_type).
Proof.
  apply issues_method. unfold Robust.WorldBankCollector._try_world_bank_api.
  effects; reflexivity.
Qed.

Lemma working_fetch_timeouts (data_type : string) :
  issues_m (fun rq => req_timeout rq = 15%Z)
    (Working.WorldBankCollector.collect_data http_get now data_type).
Proof.
  apply issues_method. effects; reflexivity.
Qed.

Lemma enhanced_fetch_timeouts (data_type : string) :
  issues_m (fun rq => req_timeout rq = 8%Z \/ req_timeout rq = 5%Z)
    (Enhanced.WorldBankCollector._fetch_from_multiple_apis http_get data_type).
Proof.
  apply issues_method. effects; (left; reflexivity) || (right; reflexivity).
Qed.

Lemma data_fetch_timeouts (data_type : string) :
  issues_m (fun rq => req_timeout rq = 30%Z)
    (Data.WorldBankCollector.collect_data http_get data_type).
Proof.
  apply issues_method. effects; reflexivity.
Qed.

(** C7 (as amended).  Every request the Fetch strategy issues for an
    indicator has a timeout of at most 15 in [robust_collectors] (5),
    [working_collectors] (15) and [enhanced_collectors] (8 and 5); in
    [data_collectors] every such request has the timeout 30. *)
Theorem C7_fetch_timeouts (data_type : string) (g : globals W) :
  (exists new,
     requests (snd (Robust.WorldBankCollector._try_world_bank_api http_get data_type g))
       = requests g ++ new /\
     Forall (fun rq => (req_timeout rq <= 15)%Z) new) /\
  (exists new,
     requests (snd (Working.WorldBankCollector.collect_data http_get now data_type g))
       = requests g ++ new /\
     Forall (fun rq => (req_timeout rq <= 15)%Z) new) /\
  (exists new,
     requests (snd (Enhanced.WorldBankCollector._fetch_from_multiple_apis http_get data_type g))
       = requests g ++ new /\
     Forall (fun rq => (req_timeout rq <= 15)%Z) new) /\
  (exists new,
     requests (snd (Data.WorldBankCollector.collect_data http_get data_type g))
       = requests g ++ new /\
     Forall (fun rq => req_timeout rq = 30%Z) new).
Proof.
  repeat split.
  - destruct (robust_fetch_timeouts data_type g) as (new & E & H). exists new. split; [exact E | ].
    eapply Forall_impl; [ | exact H ]. cbv beta. intros rq ->. lia.
  - destruct (working_fetch_timeouts data_type g) as (new & E & H). exists new. split; [exact E | ].
    eapply Forall_impl; [ | exact H ]. cbv beta. intros rq ->. lia.
  - destruct (enhanced_fetch_timeouts data_type g) as (new & E & H). exists new. split; [exact E | ].
    eapply Forall_impl; [ | exact H ]. cbv beta. intros rq [-> | ->]; lia.
  - exact (data_fetch_timeouts data_type g).
Qed.

End Timeouts.

(** C7 as stated fails in [data_collectors]: the three requests for the
    mining indicators are issued with [timeout=30]. *)
Lemma C7_timeout_counterexample :
  map req_timeout
    (requests (snd (Data.WorldBankCollector.collect_data Mock.down "mining" Mock.g0)))
  = [30%Z; 30%Z; 30%Z] /\
  (15 <? 30)%Z = true.
Proof. split; reflexivity. Qed.

(* ===================================================================== *)
(** ** Records per pattern in the free-text pass                          *)
(* ===================================================================== *)

Lemma enumerate_length {A : Type} (xs : list A) : List.length (enumerate xs) = List.length xs.
Proof.
  unfold enumerate. rewrite length_combine, length_seq. apply Nat.min_id.
Qed.

Lemma capped_length {A : Type} (limit : nat) (xs : list A) :
  List.length (enumerate (firstn limit xs)) = Nat.min limit (List.length xs).
Proof. now rewrite enumerate_length, length_firstn. Qed.

Section FreeText.
Context {W : Type}.
Variable now : W -> clock.

Lemma data_emit_appends (limit : nat) (matches : list string) (label type : string)
    (l : list pyval) (g : globals W) :
  Data.IMFCollector.emit now limit matches label type l g
  = (Return tt, l ++ data_emitted now limit matches label type g, g).
Proof.
  unfold Data.IMFCollector.emit, data_emitted.
  generalize (enumerate (firstn limit matches)) as xs. intros xs. revert l.
  induction xs as [|iv xs IH]; intros l; simpl.
  - now rewrite app_nil_r.
  - unfold bind at 1. unfold bind at 1. simpl. rewrite IH. now rewrite <- app_assoc.
Qed.

Lemma working_emit_appends (i : nat) (indicator_type : string) (matches : list string)
    (data_type : string) (l : list pyval) (g : globals W) :
  nth_error Working.IMFCollector.indicator_types i = Some indicator_type ->
  Working.IMFCollector.emit now i matches data_type l g
  = (Return tt, l ++ working_emitted now indicator_type matches data_type g, g).
Proof.
  intros Hi. unfold Working.IMFCollector.emit, working_emitted. rewrite Hi.
  generalize (enumerate (firstn 2 matches)) as xs. intros xs. revert l.
  induction xs as [|jm xs IH]; intros l; simpl.
  - now rewrite app_nil_r.
  - unfold bind at 1. unfold bind at 1. simpl. rewrite IH. now rewrite <- app_assoc.
Qed.

(** C8 (as amended).  In the free-text pass the records appended for one
    pattern are one for each of its first matches, up to a limit per pattern:
    3 in [_parse_imf_content] of [data_collectors] for the topic ['economy'],
    10 there for every other topic, and 2 in [working_collectors]. *)
Theorem C8_records_per_pattern (content data_type : string) (all_data : list pyval)
    (g : globals W) :
  (Str.lower data_type = "economy" ->
   exists gdp inflation,
     Data.IMFCollector._parse_imf_content now content data_type g
       = (Return (PyList (gdp ++ inflation)), g) /\
     List.length gdp
       = Nat.min 3 (List.length (Re.findall true Data.IMFCollector.gdp_pattern content)) /\
     List.length inflation
       = Nat.min 3 (List.length (Re.findall true Data.IMFCollector.inflation_pattern content)))
  /\
  (Str.lower data_type <> "economy" ->
   exists numeric,
     Data.IMFCollector._parse_imf_content now content data_type g
       = (Return (PyList numeric), g) /\
     List.length numeric
       = Nat.min 10 (List.length (Re.findall false Data.IMFCollector.numeric_pattern content)))
  /\
  (exists per_pattern,
     Working.IMFCollector.free_text_pass now content data_type all_data g
       = (Return tt, all_data ++ List.concat per_pattern, g) /\
     map (@List.length pyval) per_pattern
       = map (fun pattern => Nat.min 2 (List.length (Re.findall true pattern content)))
           Working.IMFCollector.patterns).
Proof.
  split; [ | split ].
  - intros Heco.
    exists (data_emitted now 3 (Re.findall true Data.IMFCollector.gdp_pattern content)
              "GDP Related Metric " "Economic" g),
           (data_emitted now 3 (Re.findall true Data.IMFCollector.inflation_pattern content)
              "Inflation Related Metric " "Economic" g).
    split; [ | split ].
    + unfold Data.IMFCollector._parse_imf_content, method. rewrite Heco, String.eqb_refl.
      unfold bind at 1. rewrite data_emit_appends.
      unfold bind at 1. rewrite data_emit_appends. reflexivity.
    + unfold data_emitted. now rewrite length_map, capped_length.
    + unfold data_emitted. now rewrite length_map, capped_length.
  - intros Hother.
    exists (data_emitted now 10 (Re.findall false Data.IMFCollector.numeric_pattern content)
              (Str.title data_type ++ " Metric ") (Str.title data_type) g).
    split.
    + unfold Data.IMFCollector._parse_imf_content, method.
      destruct (String.eqb_spec (Str.lower data_type) "economy") as [E | _];
        [contradiction | ].
      unfold bind at 1. rewrite data_emit_appends. reflexivity.
    + unfold data_emitted. now rewrite length_map, capped_length.
  - exists (map (fun ip => working_emitted now (fst ip) (Re.findall true (snd ip) content) data_type g)
              (combine Working.IMFCollector.indicator_types Working.IMFCollector.patterns)).
    split.
    + unfold Working.IMFCollector.free_text_pass.
      cbv [enumerate Working.IMFCollector.patterns List.length seq combine for_each
           Working.IMFCollector.indicator_types map List.concat fst snd].
      unfold bind.
      repeat (erewrite working_emit_appends by reflexivity).
      repeat rewrite <- app_assoc. rewrite app_nil_r. reflexivity.
    + cbv [Working.IMFCollector.patterns Working.IMFCollector.indicator_types combine map fst snd].
      unfold working_emitted. now rewrite !length_map, !capped_length.
Qed.

End FreeText.

Lemma C8_records_per_pattern_witness :
  exists gdp inflation numeric,
    fst (Data.IMFCollector._parse_imf_content Mock.clk
           "GDP grew 4 percent, GDP was 29 billion; inflation at 11 %" "Economy" Mock.g0)
      = Return (PyList (gdp ++ inflation)) /\
    List.length gdp = 2%nat /\ List.length inflation = 1%nat /\
    fst (Data.IMFCollector._parse_imf_content Mock.clk "7% of 12 million" "health" Mock.g0)
      = Return (PyList numeric) /\
    List.length numeric = 2%nat.
Proof.
  destruct (C8_records_per_pattern Mock.clk
              "GDP grew 4 percent, GDP was 29 billion; inflation at 11 %" "Economy" []
              Mock.g0) as (Heco & _ & _).
  destruct (C8_records_per_pattern Mock.clk "7% of 12 million" "health" [] Mock.g0)
    as (_ & Hother & _).
  destruct (Heco eq_refl) as (gdp & inflation & E1 & Lg & Li).
  destruct Hother as (numeric & E2 & Ln); [discriminate | ].
  exists gdp, inflation, numeric.
  rewrite E1, E2, Lg, Li, Ln. repeat split.
Defined.

(** C8 as stated fails in [_parse_imf_content]: for a topic other than
    ['economy'] the single pattern yields six records from a text with six
    matches, more than five. *)
Lemma C8_pattern_cap_counterexample :
  Re.findall false Data.IMFCollector.numeric_pattern "1% 2% 3% 4% 5% 6%"
    = ["1"; "2"; "3"; "4"; "5"; "6"] /\
  fst (Data.IMFCollector._parse_imf_content Mock.clk "1% 2% 3% 4% 5% 6%" "health" Mock.g0)
    = Return (PyList (map (fun iv => Data.IMFCollector.metric
                                       ("Health Metric " ++ fst iv) (snd iv) "Health" "2025-06-01")
                          [("1", "1"); ("2", "2"); ("3", "3");
                           ("4", "4"); ("5", "5"); ("6", "6")])).
Proof. split; vm_compute; reflexivity. Qed.

(* ===================================================================== *)
(** ** The placeholder record of working_collectors                       *)
(* ===================================================================== *)

Section Placeholder.
Context {W : Type}.
Variable http_get : request -> W -> (exn + response) * W.
Variable now : W -> clock.

Import Working.




End Placeholder.


(* ===================================================================== *)
(** ** More on loops and requests                                         *)
(* ===================================================================== *)

Section MoreEffects.
Context {W L : Type}.

(** A handler that leaves the world alone does not change what the guarded
    statements did to it. *)
Lemma try_except_snd {A} (c : M W L A) (h : exn -> M W L A) (l : L) (g : globals W) :
  (forall e, quiet (h e)) -> snd (try_except c h l g) = snd (c l g).
Proof.
  intros Hh. unfold try_except. destruct (c l g) as [[[a|e] l'] g']; [reflexivity | ].
  simpl. apply Hh.
Qed.

Lemma bind_quiet_snd {A B} (c : M W L A) (k : A -> M W L B) (l : L) (g : globals W) :
  (forall a, quiet (k a)) -> snd (bind c k l g) = snd (c l g).
Proof.
  intros Hk. unfold bind. destruct (c l g) as [[[a|e] l'] g']; [ | reflexivity ].
  simpl. apply Hk.
Qed.

(** A request followed by statements that issue none: one request. *)
Lemma session_get_then_quiet {A} http_get (rq : request) (k : response -> M W L A)
    (l : L) (g : globals W) :
  (forall r, quiet (k r)) ->
  requests (snd (bind (session_get http_get rq) k l g)) = requests g ++ [rq].
Proof.
  intros Hk. rewrite bind_quiet_snd by exact Hk. unfold session_get.
  destruct (http_get rq (world g)) as [[e|resp] w']; reflexivity.
Qed.

(** The requests of a loop whose turns always return are those of its
    turns, in order. *)
Lemma for_each_requests {A} (R : A -> list request -> Prop) (f : A -> M W L unit)
    (xs : list A) :
  (forall x, total (f x)) ->
  (forall x l g, exists rqs, requests (snd (f x l g)) = requests g ++ rqs /\ R x rqs) ->
  forall l g, exists per,
    requests (snd (for_each xs f l g)) = requests g ++ List.concat per /\ Forall2 R xs per.
Proof.
  intros Htot Hrq. induction xs as [|x xs IH]; intros l g; simpl.
  - exists []. split; [now rewrite app_nil_r | constructor].
  - unfold bind. destruct (Htot x l g) as ([] & l1 & g1 & E).
    destruct (Hrq x l g) as (rqs & Hrqs & HR). rewrite E in Hrqs |- *. simpl in Hrqs.
    destruct (IH l1 g1) as (per & Hper & HF).
    exists (rqs :: per). split; [ | now constructor ].
    simpl. now rewrite Hper, Hrqs, app_assoc.
Qed.

Lemma quiet_try_except_cls {A} (catches : exn -> bool) (c : M W L A) (h : exn -> M W L A) :
  quiet c -> (forall e, quiet (h e)) -> quiet (try_except_cls catches c h).
Proof.
  intros Hc Hh l g. unfold try_except_cls. specialize (Hc l g).
  destruct (c l g) as [[[a|e] l'] g']; simpl in Hc; subst g'; [reflexivity | ].
  destruct (catches e); [apply Hh | reflexivity].
Qed.

Lemma concat_singletons {A} (f : A -> request) (xs : list A) (per : list (list request)) :
  Forall2 (fun x rqs => rqs = [f x]) xs per -> List.concat per = map f xs.
Proof. induction 1; simpl; [reflexivity | subst; simpl; congruence]. Qed.

End MoreEffects.

Section OneGetPerIndicator.
Context {W : Type}.
Variable http_get : request -> W -> (exn + response) * W.
Variable now : W -> clock.

Lemma data_fetch_indicator_requests (i : string) (l : list pyval) (g : globals W) :
  requests (snd (Data.WorldBankCollector.fetch_indicator http_get i l g))
  = requests g ++ [Data.WorldBankCollector.api_request i].
Proof.
  unfold Data.WorldBankCollector.fetch_indicator.
  rewrite try_except_snd by (intro; apply quiet_ret).
  unfold Data.WorldBankCollector.fetch_body.
  apply session_get_then_quiet. intro. effects.
Qed.

Lemma working_fetch_indicator_requests (i : string * string) (l : list pyval) (g : globals W) :
  requests (snd (Working.WorldBankCollector.fetch_indicator http_get i l g))
  = requests g ++ [Working.WorldBankCollector.api_request (fst i)].
Proof.
  unfold Working.WorldBankCollector.fetch_indicator.
  rewrite try_except_snd by (intro; apply quiet_ret).
  unfold Working.WorldBankCollector.fetch_body. destruct i as [code name].
  apply session_get_then_quiet. intro resp.
  destruct (status_code resp =? 200)%Z; [ | apply quiet_ret ].
  apply quiet_try_except_cls; [ | intro; apply quiet_ret ].
  unfold Working.WorldBankCollector.parse_body. effects.
Qed.

Lemma data_loop_requests (indicators : list string) (l : list pyval) (g : globals W) :
  requests (snd (for_each indicators (Data.WorldBankCollector.fetch_indicator http_get) l g))
  = requests g ++ map Data.WorldBankCollector.api_request indicators.
Proof.
  destruct (for_each_requests (fun i rqs => rqs = [Data.WorldBankCollector.api_request i])
              (Data.WorldBankCollector.fetch_indicator http_get) indicators
              (turn_total (Data.WorldBankCollector.fetch_body http_get))
              (fun i l g => ex_intro _ _ (conj (data_fetch_indicator_requests i l g) eq_refl))
              l g) as (per & E & HF).
  now rewrite E, (concat_singletons _ _ _ HF).
Qed.

Lemma working_loop_requests (indicators : list (string * string)) (l : list pyval)
    (g : globals W) :
  requests (snd (for_each indicators (Working.WorldBankCollector.fetch_indicator http_get) l g))
  = requests g ++ map (fun i => Working.WorldBankCollector.api_request (fst i)) indicators.
Proof.
  destruct (for_each_requests
              (fun i rqs => rqs = [Working.WorldBankCollector.api_request (fst i)])
              (Working.WorldBankCollector.fetch_indicator http_get) indicators
              (turn_total (Working.WorldBankCollector.fetch_body http_get))
              (fun i l g => ex_intro _ _ (conj (working_fetch_indicator_requests i l g) eq_refl))
              l g) as (per & E & HF).
  now rewrite E, (concat_singletons (fun i => Working.WorldBankCollector.api_request (fst i))
                    _ _ HF).
Qed.

(** X1.  [collect_data] of the World Bank collector in [data_collectors] and
    in [working_collectors] issues exactly one GET for each indicator code of
    the topic, in the order of the catalog, whatever the answers are: a
    failed request is neither repeated nor does it keep the later ones from
    being sent.  For a topic without an entry no request is issued. *)
Theorem one_get_per_indicator (data_type : string) (g : globals W) :
  requests (snd (Data.WorldBankCollector.collect_data http_get data_type g))
    = requests g ++ map Data.WorldBankCollector.api_request
                      (Data.WorldBankCollector._get_indicators_by_type data_type)
  /\
  requests (snd (Working.WorldBankCollector.collect_data http_get now data_type g))
    = requests g ++ map (fun i => Working.WorldBankCollector.api_request (fst i))
                      (Working.WorldBankCollector._get_indicators_by_type data_type).
Proof.
  split.
  - unfold Data.WorldBankCollector.collect_data, method.
    match goal with
    | |- context [try_except ?c ?h [] g] =>
        pose proof (try_except_snd c h [] g (fun e => quiet_ret _)) as Hs;
        destruct (try_except c h [] g) as [[o l'] g'] eqn:E
    end.
    simpl in Hs |- *. subst g'. unfold Data.WorldBankCollector.collect_body.
    destruct (Data.WorldBankCollector._get_indicators_by_type data_type) as [|i rest] eqn:Ei.
    + simpl. now rewrite app_nil_r.
    + rewrite <- (data_loop_requests (i :: rest) [] g).
      unfold bind at 1. cbn [set_local].
      rewrite bind_quiet_snd; [reflexivity | ]. intro. effects.
  - unfold Working.WorldBankCollector.collect_data, method.
    match goal with
    | |- context [try_except ?c ?h [] g] =>
        pose proof (try_except_snd c h [] g (fun e => quiet_ret _)) as Hs;
        destruct (try_except c h [] g) as [[o l'] g'] eqn:E
    end.
    simpl in Hs |- *. subst g'. unfold Working.WorldBankCollector.collect_body.
    destruct (Working.WorldBankCollector._get_indicators_by_type data_type) as [|i rest] eqn:Ei.
    + simpl. now rewrite app_nil_r.
    + rewrite <- (working_loop_requests (i :: rest) [] g).
      unfold bind at 1. cbn [set_local].
      rewrite bind_quiet_snd; [reflexivity | ]. intro. effects.
Qed.

End OneGetPerIndicator.

(* ===================================================================== *)
(** ** What the World Bank collectors answer                              *)
(* ===================================================================== *)

Section WorldBankAnswers.
Context {W : Type}.
Variable http_get : request -> W -> (exn + response) * W.
Variable now : W -> clock.

(** X2.  For a topic without an entry in the catalog, [collect_data] of the
    World Bank collector in [data_collectors] and in [working_collectors]
    answers with the failure 'No World Bank indicators found for data type:'
    followed by the topic as it was given, and leaves the network alone. *)
Theorem unknown_topic_is_refused (data_type : string) (g : globals W) :
  (Py.assoc (Str.lower data_type) Data.WorldBankCollector.indicators_map = None ->
   Data.WorldBankCollector.collect_data http_get data_type g
   = (Return (failure_result ("No World Bank indicators found for data type: " ++ data_type)),
      g))
  /\
  (Py.assoc (Str.lower data_type) Working.WorldBankCollector.indicators_map = None ->
   Working.WorldBankCollector.collect_data http_get now data_type g
   = (Return (failure_result ("No World Bank indicators found for data type: " ++ data_type)),
      g)).
Proof.
  split; intros Hkey.
  - unfold Data.WorldBankCollector.collect_data, Data.WorldBankCollector.collect_body,
      Data.WorldBankCollector._get_indicators_by_type, Py.get_default, method, try_except.
    rewrite Hkey. reflexivity.
  - unfold Working.WorldBankCollector.collect_data, Working.WorldBankCollector.collect_body,
      Working.WorldBankCollector._get_indicators_by_type, Py.get_default, method, try_except.
    rewrite Hkey. reflexivity.
Qed.

(** Every entry of the catalog of [data_collectors] lists an indicator. *)
Lemma data_catalog_entries_nonempty (topic : string) (indicators : list string) :
  Py.assoc topic Data.WorldBankCollector.indicators_map = Some indicators -> indicators <> [].
Proof.
  unfold Data.WorldBankCollector.indicators_map. simpl.
  repeat (destruct (String.eqb topic _); [intros E; inversion E; discriminate | ]).
  discriminate.
Qed.

(** X3.  For a topic with an entry in the catalog of [data_collectors],
    [collect_data] of the World Bank collector answers in one of two ways.
    When the loop over the indicators gathered no record, the answer is the
    failure 'No data retrieved from World Bank API'.  Otherwise it is a
    success whose data are the gathered records, whose [records_count] is
    their number and whose [indicators_count] is the number of indicator
    codes of the topic: a success never carries an empty list. *)
Theorem data_answer_counts (data_type : string) (indicators : list string) (g : globals W) :
  Py.assoc (Str.lower data_type) Data.WorldBankCollector.indicators_map = Some indicators ->
  exists all_data g',
    for_each indicators (Data.WorldBankCollector.fetch_indicator http_get) [] g
      = (Return tt, all_data, g') /\
    Data.WorldBankCollector.collect_data http_get data_type g
    = (Return
         (match all_data with
          | [] => failure_result "No data retrieved from World Bank API"
          | _ =>
              success_result (PyList all_data)
                [ ("source", PyStr "World Bank");
                  ("country", PyStr "Zambia");
                  ("indicators_count", PyInt (Z.of_nat (List.length indicators)));
                  ("records_count", PyInt (Z.of_nat (List.length all_data))) ]
          end),
       g').
Proof.
  intros Hentry. pose proof (data_catalog_entries_nonempty _ _ Hentry) as Hne.
  destruct (total_for_each indicators (Data.WorldBankCollector.fetch_indicator http_get)
              (turn_total (Data.WorldBankCollector.fetch_body http_get)) [] g)
    as ([] & all_data & g' & Eloop).
  exists all_data, g'. split; [exact Eloop | ].
  unfold Data.WorldBankCollector.collect_data, Data.WorldBankCollector.collect_body,
    Data.WorldBankCollector._get_indicators_by_type, Py.get_default, method, try_except.
  rewrite Hentry. destruct indicators as [|i rest]; [contradiction | ].
  unfold bind at 1. cbn [set_local]. unfold bind at 1. rewrite Eloop.
  destruct all_data; reflexivity.
Qed.

End WorldBankAnswers.

Lemma unknown_topic_is_refused_witness :
  Data.WorldBankCollector.collect_data Mock.down "Sports" Mock.g0
    = (Return (failure_result "No World Bank indicators found for data type: Sports"), Mock.g0)
  /\
  Working.WorldBankCollector.collect_data Mock.down Mock.clk "Sports" Mock.g0
    = (Return (failure_result "No World Bank indicators found for data type: Sports"), Mock.g0).
Proof.
  destruct (unknown_topic_is_refused Mock.down Mock.clk "Sports" Mock.g0) as [Hd Hw].
  split; [apply Hd | apply Hw]; reflexivity.
Defined.

Lemma data_answer_counts_witness :
  fst (Data.WorldBankCollector.collect_data Mock.down "mining" Mock.g0)
    = Return (failure_result "No data retrieved from World Bank API")
  /\
  exists data,
    fst (Data.WorldBankCollector.collect_data
           (Mock.up [Mock.observation "2023" (PyInt 7)]) "mining" Mock.g0)
    = Return (success_result (PyList data)
                [ ("source", PyStr "World Bank"); ("country", PyStr "Zambia");
                  ("indicators_count", PyInt 3); ("records_count", PyInt 3) ]).
Proof.
  split.
  - destruct (data_answer_counts Mock.down "mining"
                ["NY.GDP.MINR.RT.ZS"; "TX.VAL.MRCH.CD.WT"; "EG.USE.COMM.CL.ZS"] Mock.g0 eq_refl)
      as (all_data & g' & Eloop & E).
    vm_compute in Eloop. inversion Eloop. subst. rewrite E. reflexivity.
  - destruct (data_answer_counts (Mock.up [Mock.observation "2023" (PyInt 7)]) "mining"
                ["NY.GDP.MINR.RT.ZS"; "TX.VAL.MRCH.CD.WT"; "EG.USE.COMM.CL.ZS"] Mock.g0 eq_refl)
      as (all_data & g' & Eloop & E).
    vm_compute in Eloop. inversion Eloop. subst. eexists. rewrite E. reflexivity.
Defined.

(* ===================================================================== *)
(** ** Reasoning with assertions on the frame                             *)
(* ===================================================================== *)

Section Triples.
Context {W L : Type}.

Lemma keeps_ret {A} (a : A) : keeps (W:=W) (L:=L) (ret a).
Proof. intros l g. reflexivity. Qed.

Lemma keeps_lift {A} (o : outcome A) : keeps (W:=W) (L:=L) (lift o).
Proof. intros l g. reflexivity. Qed.

Lemma keeps_session_get http_get (rq : request) : keeps (W:=W) (L:=L) (session_get http_get rq).
Proof.
  intros l g. unfold session_get. destruct (http_get rq (world g)) as [[e|r] w']; reflexivity.
Qed.

Lemma keeps_datetime_now (now : W -> clock) : keeps (W:=W) (L:=L) (datetime_now now).
Proof. intros l g. reflexivity. Qed.

Lemma keeps_raise_for_status (resp : response) : keeps (W:=W) (L:=L) (raise_for_status resp).
Proof.
  intros l g. unfold raise_for_status.
  destruct ((400 <=? status_code resp)%Z && (status_code resp <? 600)%Z); reflexivity.
Qed.

Lemma keeps_call {A} (m : Method W A) : keeps (W:=W) (L:=L) (call m).
Proof. intros l g. unfold call. destruct (m g). reflexivity. Qed.

Lemma keeps_bind {A B} (c : M W L A) (k : A -> M W L B) :
  keeps c -> (forall a, keeps (k a)) -> keeps (bind c k).
Proof.
  intros Hc Hk l g. unfold bind. specialize (Hc l g).
  destruct (c l g) as [[[a|e] l'] g']; simpl in Hc; subst l'; [apply Hk | reflexivity].
Qed.

Lemma triple_ret {A} (P : L -> Prop) (Q : outcome A -> L -> Prop) (a : A) :
  (forall l, P l -> Q (Return a) l) -> triple (W:=W) P (ret a) Q.
Proof. intros H l g HP. now apply H. Qed.

Lemma triple_raise {A} (P : L -> Prop) (Q : outcome A -> L -> Prop) (e : exn) :
  (forall l, P l -> Q (Raise e) l) -> triple (W:=W) P (raise e) Q.
Proof. intros H l g HP. now apply H. Qed.

(** Sequencing after statements that keep the frame. *)
Lemma triple_bind_keeps {A B} (P : L -> Prop) (Q : outcome B -> L -> Prop)
    (c : M W L A) (k : A -> M W L B) :
  keeps c ->
  (forall e l, P l -> Q (Raise e) l) ->
  (forall a, triple P (k a) Q) ->
  triple P (bind c k) Q.
Proof.
  intros Hc He Hk l g HP. unfold bind. specialize (Hc l g).
  destruct (c l g) as [[[a|e] l'] g']; simpl in Hc; subst l'.
  - now apply Hk.
  - now apply He.
Qed.

(** Sequencing after an expression: its value is known to what follows. *)
Lemma triple_bind_lift {A B} (P : L -> Prop) (Q : outcome B -> L -> Prop)
    (o : outcome A) (k : A -> M W L B) :
  (forall e, o = Raise e -> forall l, P l -> Q (Raise e) l) ->
  (forall a, o = Return a -> triple P (k a) Q) ->
  triple (W:=W) P (bind (lift o) k) Q.
Proof.
  intros He Hk l g HP. unfold bind, lift. destruct o as [a|e].
  - now apply Hk.
  - now apply (He e).
Qed.

Lemma triple_bind {A B} (P : L -> Prop) (R : A -> L -> Prop) (Q : outcome B -> L -> Prop)
    (c : M W L A) (k : A -> M W L B) :
  triple P c (fun o l => match o with Return a => R a l | Raise e => Q (Raise e) l end) ->
  (forall a, triple (R a) (k a) Q) ->
  triple P (bind c k) Q.
Proof.
  intros Hc Hk l g HP. unfold bind. specialize (Hc l g HP).
  destruct (c l g) as [[[a|e] l'] g']; simpl in Hc.
  - now apply Hk.
  - exact Hc.
Qed.

Lemma triple_set_local {B} (P : L -> Prop) (Q : outcome B -> L -> Prop)
    (l0 : L) (k : unit -> M W L B) :
  triple (fun l => l = l0) (k tt) Q -> triple (W:=W) P (bind (set_local l0) k) Q.
Proof. intros Hk l g HP. unfold bind, set_local. now apply Hk. Qed.

Lemma triple_get_local {B} (P : L -> Prop) (Q : outcome B -> L -> Prop)
    (k : L -> M W L B) :
  (forall l0, P l0 -> triple (fun l => l = l0) (k l0) Q) ->
  triple (W:=W) P (bind get_local k) Q.
Proof. intros Hk l g HP. unfold bind, get_local. now apply (Hk l). Qed.

Lemma triple_try_except {A} (P : L -> Prop) (R : exn -> L -> Prop)
    (Q : outcome A -> L -> Prop) (c : M W L A) (h : exn -> M W L A) :
  triple P c (fun o l => match o with Return a => Q (Return a) l | Raise e => R e l end) ->
  (forall e, triple (R e) (h e) Q) ->
  triple P (try_except c h) Q.
Proof.
  intros Hc Hh l g HP. unfold try_except. specialize (Hc l g HP).
  destruct (c l g) as [[[a|e] l'] g']; simpl in Hc.
  - exact Hc.
  - now apply Hh.
Qed.

Lemma triple_weaken {A} (P P' : L -> Prop) (Q Q' : outcome A -> L -> Prop) (c : M W L A) :
  triple P' c Q' -> (forall l, P l -> P' l) -> (forall o l, Q' o l -> Q o l) ->
  triple P c Q.
Proof. intros Hc HP HQ l g H. apply HQ, Hc, HP, H. Qed.

(** What a method returns is what its body ends with, from the frame the
    method starts in. *)
Lemma triple_method {A} (Q : outcome A -> Prop) (init : L) (body : M W L A) :
  triple (fun l => l = init) body (fun o _ => Q o) ->
  forall g, Q (fst (method init body g)).
Proof.
  intros Hb g. unfold method. specialize (Hb init g eq_refl).
  destruct (body init g) as [[o l'] g']. exact Hb.
Qed.

End Triples.

Section LoopsThatAppend.
Context {W A X : Type}.
Variable Q : X -> Prop.

(** A loop whose turns append at most one element each. *)
Lemma for_each_adds_at_most (f : A -> M W (list X) unit) (xs : list A) :
  (forall x l g, exists added,
     snd (fst (f x l g)) = l ++ added /\ (List.length added <= 1)%nat /\ Forall Q added) ->
  forall l g, exists added,
    snd (fst (for_each xs f l g)) = l ++ added /\
    (List.length added <= List.length xs)%nat /\ Forall Q added.
Proof.
  intros Hf. induction xs as [|x xs IH]; intros l g; simpl.
  - exists []. rewrite app_nil_r. repeat split; auto.
  - unfold bind. destruct (Hf x l g) as (a1 & E1 & L1 & Q1).
    destruct (f x l g) as [[[u|e] l1] g1]; simpl in E1; subst l1.
    + destruct (IH (l ++ a1) g1) as (a2 & E2 & L2 & Q2).
      exists (a1 ++ a2). rewrite E2, app_assoc, length_app. repeat split; [lia | ].
      apply Forall_app. now split.
    + exists a1. simpl. repeat split; [lia | exact Q1].
Qed.


End LoopsThatAppend.

(* ===================================================================== *)
(** ** How many records the strategies of robust_collectors hand back     *)
(* ===================================================================== *)

Lemma chars_take_length (n : nat) (s : string) : (List.length (Str.chars (Str.take n s)) <= n)%nat.
Proof.
  revert s. induction n as [|n IH]; intros s; simpl; [lia | ].
  destruct s as [|c s]; simpl; [lia | ]. specialize (IH s). lia.
Qed.

(** [for item in v[:n]] has at most [n] turns. *)
Lemma sliced_items_at_most (v recent : pyval) (n : nat) (items : list pyval) :
  Py.slice_to v n = Return recent -> Py.iter recent = Return items ->
  (List.length items <= n)%nat.
Proof.
  destruct v; simpl; try discriminate; intros E; inversion E; subst; simpl;
    intros E'; inversion E'; subst.
  - rewrite length_map. apply chars_take_length.
  - rewrite length_firstn. lia.
Qed.

Lemma list_or_none_up_to (cap : nat) (Q : pyval -> Prop) (results : list pyval) :
  (List.length results <= cap)%nat -> Forall Q results ->
  none_or_up_to cap Q (list_or_none results).
Proof.
  intros Hlen HQ. destruct results as [|r rs]; [left; reflexivity | right].
  exists (r :: rs). repeat split; auto. simpl. lia.
Qed.

Ltac triple_step :=
  match goal with
  | |- triple _ (bind (lift _) _) _ =>
      apply triple_bind_lift; [ intros ? ? ? ?; exact I | intros ? ? ]
  | |- triple _ (bind (json _) _) _ =>
      unfold json at 1; apply triple_bind_lift; [ intros ? ? ? ?; exact I | intros ? ? ]
  | |- triple _ (bind (session_get _ _) _) _ =>
      apply triple_bind_keeps; [ apply keeps_session_get | intros ? ? ?; exact I | intro ]
  | |- triple _ (bind (datetime_now _) _) _ =>
      apply triple_bind_keeps; [ apply keeps_datetime_now | intros ? ? ?; exact I | intro ]
  | |- triple _ (bind (raise_for_status _) _) _ =>
      apply triple_bind_keeps; [ apply keeps_raise_for_status | intros ? ? ?; exact I | intro ]
  | |- triple _ (bind (call _) _) _ =>
      apply triple_bind_keeps; [ apply keeps_call | intros ? ? ?; exact I | intro ]
  | |- triple _ (bind (set_local _) _) _ => apply triple_set_local
  | |- triple _ (bind get_local _) _ => apply triple_get_local; intros ? ?
  | |- triple _ (if ?b then _ else _) _ => destruct b eqn:?
  | |- triple _ (match ?x with _ => _ end) _ => destruct x eqn:?
  | |- triple _ (ret _) _ => apply triple_ret; intros ? ?
  end.

Section RobustCounts.
Context {W : Type}.
Variable http_get : request -> W -> (exn + response) * W.
Variable now : W -> clock.

Import Robust.

Lemma keeps_has_observations {L : Type} (data : pyval) :
  keeps (W:=W) (L:=L) (WorldBankCollector.has_observations data).
Proof.
  unfold WorldBankCollector.has_observations.
  apply keeps_bind; [apply keeps_lift | intros n].
  destruct (1 <? n)%nat; [ | apply keeps_ret ].
  apply keeps_bind; [apply keeps_lift | intros; apply keeps_ret].
Qed.

(** One turn of the loop over the observations appends one record of the
    API, or nothing. *)
Lemma fetch_turn_adds (item : pyval) (l : list pyval) (g : globals W) :
  exists added,
    snd (fst ((v <- lift (Py.get item "value") ;;
               if Py.truthy v
               then r <- WorldBankCollector.api_record item ;; append r
               else ret tt) l g)) = l ++ added /\
    (List.length added <= 1)%nat /\ Forall is_api_record added.
Proof.
  assert (Hnone : exists added : list pyval,
             l = l ++ added /\ (List.length added <= 1)%nat /\ Forall is_api_record added).
  { exists []. rewrite app_nil_r. repeat split; auto. }
  destruct item; try exact Hnone.
  unfold bind at 1. unfold lift at 1. cbn [Py.get].
  destruct (Py.assoc "value" d) as [value|] eqn:Ev; [ | exact Hnone ].
  destruct (Py.truthy value) eqn:Tv; [ | exact Hnone ].
  unfold WorldBankCollector.api_record, bind, lift, append, get_local, set_local, ret.
  cbn [Py.getitem_str]. rewrite Ev.
  destruct (Py.assoc "indicator" d) as [i|]; [ | exact Hnone ].
  destruct i; try exact Hnone. cbn [Py.getitem_str].
  destruct (Py.assoc "value" d0) as [indicator|]; [ | exact Hnone ].
  destruct (Py.assoc "date" d) as [year|]; [ | exact Hnone ].
  simpl. eexists [_]. repeat split; auto.
  constructor; [ | constructor ]. exists indicator, year, value. now split.
Qed.

(** X4.  The Fetch strategy of [robust_collectors] always returns, and what
    it returns is [None] or a list of one to five records; every record has
    the keys Indicator, Year, Value, Country and Source, in this order, with
    the country 'Zambia', the source 'World Bank API' and a value that
    counts as true. *)
Theorem fetch_hands_back_up_to_five (data_type : string) (g : globals W) :
  exists api_data g1,
    WorldBankCollector._try_world_bank_api http_get data_type g = (Return api_data, g1) /\
    none_or_up_to 5 is_api_record api_data.
Proof.
  destruct (_try_world_bank_api_returns http_get data_type g) as (api_data & g1 & E & _).
  exists api_data, g1. split; [exact E | ].
  unfold WorldBankCollector._try_world_bank_api in E.
  match type of E with
  | method ?init ?body g = _ =>
      pose proof (fun H => triple_method
                    (fun o => match o with
                              | Return v => none_or_up_to 5 is_api_record v
                              | Raise _ => True
                              end) init body H g) as Hm
  end.
  rewrite E in Hm. apply Hm. clear Hm E.
  apply triple_try_except with (R := fun _ _ => True);
    [ | intros e; apply triple_ret; intros; now left ].
  repeat triple_step; try (now left).
  apply triple_bind_keeps;
    [ apply keeps_has_observations | intros ? ? ?; exact I | intros c ].
  repeat triple_step; try (now left).
  match goal with
  | |- triple _ (bind (for_each ?items ?f) _) _ =>
      apply triple_bind with
        (R := fun _ l => (List.length l <= 5)%nat /\ Forall is_api_record l)
  end.
  - intros l g' ->.
    match goal with
    | |- context [for_each ?items ?f [] g'] =>
        destruct (for_each_adds_at_most is_api_record f items fetch_turn_adds [] g')
          as (added & Eadd & Ladd & Qadd);
        destruct (for_each items f [] g') as [[o l'] g'']
    end.
    simpl in Eadd |- *. subst l'.
    match goal with
    | Hi : Py.iter _ = Return ?items |- _ =>
        assert (List.length items <= 5)%nat by (eapply sliced_items_at_most; eauto)
    end.
    destruct o; [split; [lia | exact Qadd] | exact I].
  - intros _. repeat triple_step. subst.
    match goal with H : _ /\ _ |- _ => destruct H as [Hlen HQ] end.
    now apply list_or_none_up_to.
Qed.




End RobustCounts.

(** A page with seven qualifying tags: five records come back. *)
Example scrape_stops_at_five :
  exists records,
    fst (Robust.WorldBankCollector._scrape_world_bank_page
           (Mock.site (repeat (mkElement "p" ["data-point"] "GDP grew 4%") 7))
           Mock.clk "economy" Mock.g0)
    = Return (PyList records) /\ List.length records = 5%nat.
Proof. eexists. split; [vm_compute; reflexivity | reflexivity]. Qed.

(* ===================================================================== *)
(** ** robust_collectors without a network                                *)
(* ===================================================================== *)

Section Unreachable.
Context {W : Type}.
Variable http_get : request -> W -> (exn + response) * W.
Variable now : W -> clock.

Import Robust.

Lemma fetch_none_when_unreachable (data_type : string) (g : globals W) :
  unreachable http_get ->
  fst (WorldBankCollector._try_world_bank_api http_get data_type g) = Return PyNone.
Proof.
  intros Hun. unfold WorldBankCollector._try_world_bank_api, method, try_except.
  destruct (Py.assoc (Str.lower data_type) WorldBankCollector.indicators) as [indicator|];
    [ | reflexivity ].
  destruct (String.eqb indicator ""); [reflexivity | ].
  unfold bind at 1. unfold session_get at 1.
  specialize (Hun (WorldBankCollector.api_request indicator) (world g)).
  destruct (http_get (WorldBankCollector.api_request indicator) (world g)) as [[e|resp] w'];
    simpl in Hun |- *; [reflexivity | ].
  apply Z.eqb_neq in Hun. rewrite Hun. reflexivity.
Qed.

Lemma scrape_none_when_unreachable (data_type : string) (g : globals W) :
  unreachable http_get ->
  fst (WorldBankCollector._scrape_world_bank_page http_get now data_type g) = Return PyNone.
Proof.
  intros Hun. unfold WorldBankCollector._scrape_world_bank_page, method, try_except.
  unfold bind at 1. unfold session_get at 1.
  specialize (Hun WorldBankCollector.page_request (world g)).
  destruct (http_get WorldBankCollector.page_request (world g)) as [[e|resp] w'];
    simpl in Hun |- *; [reflexivity | ].
  apply Z.eqb_neq in Hun. rewrite Hun. reflexivity.
Qed.

Lemma imf_scrape_none_when_unreachable (data_type : string) (g : globals W) :
  unreachable http_get ->
  fst (IMFCollector._scrape_imf_data http_get now data_type g) = Return PyNone.
Proof.
  intros Hun. unfold IMFCollector._scrape_imf_data, method, try_except.
  unfold bind at 1. unfold session_get at 1.
  specialize (Hun IMFCollector.page_request (world g)).
  destruct (http_get IMFCollector.page_request (world g)) as [[e|resp] w'];
    simpl in Hun |- *; [reflexivity | ].
  apply Z.eqb_neq in Hun. rewrite Hun. reflexivity.
Qed.

Lemma fallback_records_tagged (data_type : string) :
  Forall (tagged "World Bank Reference Data"
            "Current estimates - verify with official World Bank data")
         (WorldBankCollector._get_fallback_data data_type).
Proof.
  unfold WorldBankCollector._get_fallback_data. apply Forall_map, Forall_forall.
  intros item _. repeat split.
Qed.

Lemma imf_fallback_records_tagged (data_type : string) :
  Forall (tagged "IMF Reference Data" "Based on IMF Article IV consultation and forecasts")
         (IMFCollector._get_imf_fallback_data data_type).
Proof.
  unfold IMFCollector._get_imf_fallback_data. apply Forall_map, Forall_forall.
  intros item _. repeat split.
Qed.

(** X6.  When no request is answered with status 200 (each one raises or
    comes back with another status), [collect_data] of the World Bank and of
    the IMF collector of [robust_collectors] answers, for every topic, with
    a success whose data are the reference records for the topic and whose
    source is the reference data; every record carries its source, the note
    that marks it as an estimate, and the country. *)
Theorem reference_when_unreachable (data_type : string) (g : globals W) :
  unreachable http_get ->
  (exists g',
     WorldBankCollector.collect_data http_get now data_type g
     = (Return (success_result (PyList (WorldBankCollector._get_fallback_data data_type))
                  [("source", PyStr "World Bank Reference Data"); ("country", PyStr "Zambia")]),
        g') /\
     Forall (tagged "World Bank Reference Data"
               "Current estimates - verify with official World Bank data")
            (WorldBankCollector._get_fallback_data data_type))
  /\
  (exists g',
     IMFCollector.collect_data http_get now data_type g
     = (Return (success_result (PyList (IMFCollector._get_imf_fallback_data data_type))
                  [("source", PyStr "IMF Reference Data"); ("country", PyStr "Zambia")]),
        g') /\
     Forall (tagged "IMF Reference Data" "Based on IMF Article IV consultation and forecasts")
            (IMFCollector._get_imf_fallback_data data_type)).
Proof.
  intros Hun. split.
  - destruct (collect_data_chain http_get now data_type g)
      as (api & g1 & scr & g2 & E1 & E2 & _ & _ & E).
    pose proof (fetch_none_when_unreachable data_type g Hun) as F1.
    pose proof (scrape_none_when_unreachable data_type g1 Hun) as F2.
    rewrite E1 in F1. rewrite E2 in F2. simpl in F1, F2.
    inversion F1. inversion F2. subst api scr. simpl in E.
    exists g2. split; [exact E | apply fallback_records_tagged].
  - destruct (imf_collect_data_chain http_get now data_type g) as (scr & g1 & E1 & _ & E).
    pose proof (imf_scrape_none_when_unreachable data_type g Hun) as F1.
    rewrite E1 in F1. simpl in F1. inversion F1. subst scr. simpl in E.
    exists g1. split; [exact E | apply imf_fallback_records_tagged].
Qed.

Lemma imf_fallback_nonempty (data_type : string) :
  IMFCollector._get_imf_fallback_data data_type <> [].
Proof.
  unfold IMFCollector._get_imf_fallback_data, Py.get_default, IMFCollector.imf_data.
  simpl. repeat (destruct (String.eqb (Str.lower data_type) _); [discriminate | ]).
  discriminate.
Qed.

(** X7.  [collect_data] of the World Bank and of the IMF collector of
    [robust_collectors] answers every topic, in every world, with a success:
    the failure its [except] clause builds is never returned.  The data of
    the IMF collector always hold a record, for a topic its reference table
    does not list as well: there the records of ['economy'] stand in. *)
Theorem robust_always_succeeds (data_type : string) (g : globals W) :
  (exists data metadata g',
     WorldBankCollector.collect_data http_get now data_type g
     = (Return (success_result data metadata), g'))
  /\
  (exists records metadata g',
     IMFCollector.collect_data http_get now data_type g
     = (Return (success_result (PyList records) metadata), g') /\
     records <> []).
Proof.
  split.
  - destruct (collect_data_chain http_get now data_type g)
      as (api & g1 & scr & g2 & _ & _ & _ & _ & E).
    rewrite E. destruct (Py.truthy api); [ | destruct (Py.truthy scr) ];
      eexists _, _, _; reflexivity.
  - destruct (imf_collect_data_chain http_get now data_type g) as (scr & g1 & _ & S & E).
    rewrite E.
    destruct (truthy_shape _ S) as [[-> T] | (records & -> & Hne & T)]; rewrite T.
    + eexists _, _, _. split; [reflexivity | apply imf_fallback_nonempty].
    + eexists _, _, _. split; [reflexivity | exact Hne].
Qed.

End Unreachable.

(** A server that answers every request with status 503. *)
Lemma reference_when_unreachable_witness :
  fst (Robust.WorldBankCollector.collect_data
         (fun rq w => (inr (mkResponse 503 (Return PyNone) [] None), w))
         Mock.clk "health" Mock.g0)
  = Return (success_result (PyList (Robust.WorldBankCollector._get_fallback_data "health"))
              [("source", PyStr "World Bank Reference Data"); ("country", PyStr "Zambia")]).
Proof.
  destruct (reference_when_unreachable
              (fun rq (w : unit) => (inr (mkResponse 503 (Return PyNone) [] None), w))
              Mock.clk "health" Mock.g0) as [(g' & E & _) _].
  - intros rq w. simpl. discriminate.
  - rewrite E. reflexivity.
Defined.

(* ===================================================================== *)
(** ** The collectors of robust_collectors that only read a table         *)
(* ===================================================================== *)




(* ===================================================================== *)
(** ** The IMF collector of data_collectors                               *)
(* ===================================================================== *)

Section DataIMF.
Context {W : Type}.
Variable http_get : request -> W -> (exn + response) * W.
Variable now : W -> clock.

Import Data.

Lemma quiet_emit (limit : nat) (matches : list string) (label type : string) :
  quiet (IMFCollector.emit now limit matches label type).
Proof. unfold IMFCollector.emit. effects. Qed.

Lemma _parse_imf_content_quiet (content data_type : string) (g : globals W) :
  snd (IMFCollector._parse_imf_content now content data_type g) = g.
Proof.
  unfold IMFCollector._parse_imf_content, method.
  match goal with
  | |- context [?c [] g] =>
      assert (Hq : quiet c) by
        (destruct (String.eqb (Str.lower data_type) "economy");
         repeat (apply quiet_bind; [ | intro ]);
         try apply quiet_emit; try apply quiet_get_local; apply quiet_ret);
      specialize (Hq [] g); destruct (c [] g) as [[o l'] g']
  end.
  exact Hq.
Qed.

(** X9.  [collect_data] of the IMF collector of [data_collectors] issues
    exactly one request, to the country page with timeout 30, and always
    returns.  Its answer is a success only when the page came back with a
    status outside 400..599, text could be extracted from it, and the parse
    of that text gave at least one record; the data are then those records.
    In every other case the answer is a failure. *)
Theorem data_imf_answer (data_type : string) (g : globals W) :
  exists result g',
    IMFCollector.collect_data http_get now data_type g = (Return result, g') /\
    requests g' = requests g ++ [mkRequest IMFCollector.url [] 30] /\
    (is_success result \/ is_failure result) /\
    (is_success result ->
     exists resp w' content records,
       http_get (mkRequest IMFCollector.url [] 30) (world g) = (inr resp, w') /\
       ((400 <=? status_code resp) && (status_code resp <? 600))%Z = false /\
       resp_extract resp = Some content /\ content <> "" /\
       fst (IMFCollector._parse_imf_content now content data_type g') = Return (PyList records) /\
       records <> [] /\
       field "data" result = Some (PyList records)).
Proof.
  unfold IMFCollector.collect_data, IMFCollector.collect_body, method, try_except.
  unfold bind at 1. unfold session_get at 1.
  destruct (http_get (mkRequest IMFCollector.url [] 30) (world g)) as [[e|resp] w'] eqn:Eget.
  { eexists _, _. split; [reflexivity | ]. split; [reflexivity | ].
    split; [apply failure_is_result; discriminate | intros H; discriminate H]. }
  unfold bind at 1. unfold raise_for_status.
  destruct ((400 <=? status_code resp) && (status_code resp <? 600))%Z eqn:Est.
  { eexists _, _. split; [reflexivity | ]. split; [reflexivity | ].
    split; [apply failure_is_result; discriminate | intros H; discriminate H]. }
  cbn [ret].
  destruct (resp_extract resp) as [content|] eqn:Eex.
  2:{ eexists _, _. split; [reflexivity | ]. split; [reflexivity | ].
      split; [apply failure_is_result; discriminate | intros H; discriminate H]. }
  destruct (String.eqb_spec content "") as [Eempty | Hcontent].
  { eexists _, _. split; [reflexivity | ]. split; [reflexivity | ].
    split; [apply failure_is_result; discriminate | intros H; discriminate H]. }
  unfold bind, call.
  pose proof (_parse_imf_content_quiet content data_type
                {| world := w'; requests := requests g ++ [mkRequest IMFCollector.url [] 30] |})
    as Hq.
  destruct (IMFCollector._parse_imf_content now content data_type
              {| world := w'; requests := requests g ++ [mkRequest IMFCollector.url [] 30] |})
    as [[data|e] g1] eqn:Eparse; simpl in Hq; subst g1.
  2:{ eexists _, _. split; [reflexivity | ]. split; [reflexivity | ].
      split; [apply failure_is_result; discriminate | intros H; discriminate H]. }
  destruct (Py.truthy data) eqn:Tdata; cbn [negb].
  2:{ eexists _, _. split; [reflexivity | ]. split; [reflexivity | ].
      split; [apply failure_is_result; discriminate | intros H; discriminate H]. }
  eexists _, _. split; [reflexivity | ]. split; [reflexivity | ].
  split; [apply success_is_result | intros _].
  assert (Hlist : exists records, data = PyList records).
  { revert Eparse. unfold IMFCollector._parse_imf_content, method.
    destruct (String.eqb (Str.lower data_type) "economy").
    - unfold bind at 1. rewrite data_emit_appends.
      unfold bind at 1. rewrite data_emit_appends.
      intros E. inversion E. eexists. reflexivity.
    - unfold bind at 1. rewrite data_emit_appends.
      intros E. inversion E. eexists. reflexivity. }
  destruct Hlist as (records & ->).
  exists resp, w', content, records. rewrite Eparse.
  repeat split; auto. destruct records; [discriminate Tdata | discriminate].
Qed.

End DataIMF.

Lemma data_imf_answer_witness :
  exists records,
    fst (Data.IMFCollector._parse_imf_content Mock.clk "Inflation eased to 11.3 percent"
           "economy" (mkGlobals tt [mkRequest Data.IMFCollector.url [] 30]))
    = Return (PyList records) /\
    records <> [].
Proof.
  destruct (data_imf_answer (Mock.page "Inflation eased to 11.3 percent") Mock.clk
              "economy" Mock.g0) as (result & g' & E & _ & _ & Hsuccess).
  vm_compute in E. inversion E. subst result g'.
  destruct (Hsuccess eq_refl) as (resp & w' & content & records & Eget & _ & Eex & _ & Ep & Hne & _).
  vm_compute in Eget. inversion Eget. subst resp w'.
  simpl in Eex. inversion Eex. subst content.
  exists records. split; [exact Ep | exact Hne].
Defined.

(* ===================================================================== *)
(** ** The route that fetches data                                        *)
(* ===================================================================== *)

Section Routes.
Context {W : Type}.

Lemma respond_answers (result : pyval) (g0 g : globals W) :
  (exists payload status,
     respond result tt g = (Return (payload, status), tt, g) /\
     ((status = 200%Z /\
       exists data metadata,
         payload = jsonify [("success", PyBool true); ("data", data); ("metadata", metadata)])
      \/
      (status = 500%Z /\
       exists error, payload = jsonify [("success", PyBool false); ("error", error)])))
  \/ (exists e, respond result tt g = (Raise e, tt, g)).
Proof.
  unfold respond, bind, lift.
  destruct (Py.getitem_str result "success") as [success|e]; [ | right; eexists; reflexivity ].
  destruct (Py.truthy success).
  - destruct (Py.getitem_str result "data") as [data|e]; [ | right; eexists; reflexivity ].
    destruct (Py.get_or result "metadata" (PyDict [])) as [metadata|e];
      [ | right; eexists; reflexivity ].
    left. eexists _, _. split; [reflexivity | left]. split; [reflexivity | ].
    eexists _, _. reflexivity.
  - destruct (Py.getitem_str result "error") as [error|e]; [ | right; eexists; reflexivity ].
    left. eexists _, _. split; [reflexivity | right]. split; [reflexivity | ].
    eexists. reflexivity.
Qed.

Ltac answer_500_server :=
  eexists _, _, _; split; [reflexivity | ];
  right; right; split; [reflexivity | right]; eexists; reflexivity.

Ltac answer_400 :=
  eexists _, _, _; split; [reflexivity | ];
  right; left; split; [reflexivity | split; [reflexivity | ] ];
  (left; reflexivity) || (right; reflexivity).

(** The branch of a route that calls [collector]. *)
Ltac answer_routed collector data_type g :=
  unfold bind, call;
  let result := fresh "result" in
  let e := fresh "e" in
  let g1 := fresh "g1" in
  destruct (collector data_type g) as [[result|e] g1];
  [ let payload := fresh "payload" in
    let status := fresh "status" in
    let E := fresh "E" in
    let Hp := fresh "Hp" in
    destruct (respond_answers result g g1)
      as [(payload & status & E & [[-> Hp] | [-> Hp]]) | (e & E)]; rewrite E;
    [ eexists _, _, _; split; [reflexivity | ]; left; split; [reflexivity | exact Hp]
    | eexists _, _, _; split; [reflexivity | ];
      right; right; split; [reflexivity | left; exact Hp]
    | answer_500_server ]
  | answer_500_server ].

(** X10.  The route [fetch_data] of [app.py] and of [simple_app.py] always
    answers, whatever the request body is and whatever the collectors do,
    with one of three statuses.  200 comes with the body
    [{success: True, data, metadata}].  400 comes with one of the two
    messages for a missing parameter or an unknown source, and then no
    collector has run: the world is as it was.  500 comes with
    [{success: False, error}], or with a 'Server error: ...' text when
    something raised. *)
Theorem route_always_answers
    (wb imf usaid un afdb zs : pyval -> Method W pyval)
    (get_json : outcome pyval) (g : globals W) :
  (exists payload status g',
     App.fetch_data wb imf usaid un get_json g = (Return (payload, status), g') /\
     route_answer g g' payload status)
  /\
  (exists payload status g',
     SimpleApp.fetch_data wb imf usaid un afdb zs get_json g = (Return (payload, status), g') /\
     route_answer g g' payload status).
Proof.
  split.
  - unfold App.fetch_data, method, try_except.
    unfold bind at 1. unfold lift at 1.
    destruct get_json as [data|e]; [ | answer_500_server ].
    unfold bind at 1. unfold lift at 1.
    destruct (Py.get data "source") as [source|e]; [ | answer_500_server ].
    unfold bind at 1. unfold lift at 1.
    destruct (Py.get data "data_type") as [data_type|e]; [ | answer_500_server ].
    destruct (negb (Py.truthy source) || negb (Py.truthy data_type)); [answer_400 | ].
    destruct (eq_str source "world_bank"); [answer_routed wb data_type g | ].
    destruct (eq_str source "imf"); [answer_routed imf data_type g | ].
    destruct (eq_str source "usaid"); [answer_routed usaid data_type g | ].
    destruct (eq_str source "un"); [answer_routed un data_type g | ].
    answer_400.
  - unfold SimpleApp.fetch_data, method, try_except.
    unfold bind at 1. unfold lift at 1.
    destruct get_json as [data|e]; [ | answer_500_server ].
    unfold bind at 1. unfold lift at 1.
    destruct (Py.get data "source") as [source|e]; [ | answer_500_server ].
    unfold bind at 1. unfold lift at 1.
    destruct (Py.get data "data_type") as [data_type|e]; [ | answer_500_server ].
    destruct (negb (Py.truthy source) || negb (Py.truthy data_type)); [answer_400 | ].
    destruct (eq_str source "world_bank"); [answer_routed wb data_type g | ].
    destruct (eq_str source "imf"); [answer_routed imf data_type g | ].
    destruct (eq_str source "usaid"); [answer_routed usaid data_type g | ].
    destruct (eq_str source "un"); [answer_routed un data_type g | ].
    destruct (eq_str source "afdb"); [answer_routed afdb data_type g | ].
    destruct (eq_str source "zambian_stats"); [answer_routed zs data_type g | ].
    answer_400.
Qed.



End Routes.


(* ===================================================================== *)
(** ** The World Bank collector of enhanced_collectors                    *)
(* ===================================================================== *)

Section EnhancedWorldBank.
Context {W : Type}.
Variable http_get : request -> W -> (exn + response) * W.
Variable now : W -> clock.

Import Enhanced.

Lemma estimates_loop (items : list (list (string * pyval)))
    (l : list pyval) (g : globals W) :
  for_each items (fun item =>
    t <- datetime_now now ;;
    append (WorldBankCollector.estimate_record (now_ymd t) item)) l g
  = (Return tt,
     l ++ map (WorldBankCollector.estimate_record (now_ymd (now (world g)))) items, g).
Proof.
  revert l. induction items as [|item items IH]; intros l; simpl.
  - now rewrite app_nil_r.
  - unfold bind at 1. unfold bind at 1. simpl. rewrite IH. now rewrite <- app_assoc.
Qed.

(** The estimates are the entries of the topic, or of ['economy'] for a
    topic the table does not list, each dated with the day of the call. *)
Lemma _get_current_estimates_today (data_type : string) (g : globals W) :
  WorldBankCollector._get_current_estimates now data_type g
  = (Return (PyList (map (WorldBankCollector.estimate_record (now_ymd (now (world g))))
                       (Py.get_default (Str.lower data_type) WorldBankCollector.current_data
                          WorldBankCollector.economy_estimates))), g).
Proof.
  unfold WorldBankCollector._get_current_estimates, method. cbv zeta.
  unfold bind at 1. cbn [set_local]. unfold bind at 1.
  rewrite estimates_loop. reflexivity.
Qed.

Lemma four_estimates (data_type : string) :
  List.length (Py.get_default (Str.lower data_type) WorldBankCollector.current_data
                 WorldBankCollector.economy_estimates) = 4%nat.
Proof.
  unfold Py.get_default, WorldBankCollector.current_data. simpl.
  repeat (destruct (String.eqb (Str.lower data_type) _); [reflexivity | ]).
  reflexivity.
Qed.

(** X12.  [collect_data] of the World Bank collector of
    [enhanced_collectors] answers every topic in every world with a success
    whose data hold a record.  They are the records the two API endpoints
    gave, if any; otherwise the four current estimates of the topic, those
    of ['economy'] for an unlisted topic, each stamped with the date of the
    call, so the fallback of two different days differs. *)
Theorem enhanced_answer (data_type : string) (g : globals W) :
  exists api_data g',
    WorldBankCollector._fetch_from_multiple_apis http_get data_type g = (Return api_data, g') /\
    ((exists records,
        api_data = PyList records /\ records <> [] /\
        WorldBankCollector.collect_data http_get now data_type g
        = (Return (success_result (PyList records)
                     [ ("source", PyStr "World Bank API"); ("country", PyStr "Zambia");
                       ("year", PyStr "2025") ]), g'))
     \/
     (api_data = PyNone /\
      exists estimates,
        List.length estimates = 4%nat /\
        Py.get_default (Str.lower data_type) WorldBankCollector.current_data
          WorldBankCollector.economy_estimates = estimates /\
        WorldBankCollector.collect_data http_get now data_type g
        = (Return (success_result
                     (PyList (map (WorldBankCollector.estimate_record
                                     (now_ymd (now (world g')))) estimates))
                     [ ("source", PyStr "World Bank Current Estimates");
                       ("country", PyStr "Zambia"); ("year", PyStr "2025") ]), g'))).
Proof.
  destruct (enhanced_fetch_returns_loop http_get data_type g) as (all_data & g' & _ & E).
  exists (list_or_none all_data), g'. split; [exact E | ].
  unfold WorldBankCollector.collect_data, WorldBankCollector.collect_body,
    method, try_except, bind, call.
  rewrite E. destruct all_data as [|r rs].
  - right. split; [reflexivity | ].
    eexists. split; [apply (four_estimates data_type) | split; [reflexivity | ] ].
    simpl. rewrite _get_current_estimates_today. reflexivity.
  - left. exists (r :: rs). split; [reflexivity | split; [discriminate | reflexivity] ].
Qed.

End EnhancedWorldBank.

(** The same topic on two days without a network: the estimates differ in
    their Date only. *)
Example estimates_carry_the_day :
  fst (Enhanced.WorldBankCollector._get_current_estimates
         (fun _ : unit => mkClock "2025-06-01" 2025) "mining" Mock.g0)
  <> fst (Enhanced.WorldBankCollector._get_current_estimates
            (fun _ : unit => mkClock "2025-06-02" 2025) "mining" Mock.g0).
Proof. vm_compute. discriminate. Qed.

(* ===================================================================== *)
(** ** The USAID and UN collectors of data_collectors                     *)
(* ===================================================================== *)


Lemma quiet_call {W L A : Type} (m : Method W A) :
  (forall g, snd (m g) = g) -> quiet (call (L:=L) m).
Proof. intros Hm l g. unfold call. specialize (Hm g). destruct (m g). exact Hm. Qed.

Section DataParsers.
Context {W : Type}.
Variable http_get : request -> W -> (exn + response) * W.
Variable now : W -> clock.

Import Data.

Lemma emit_with_appends (limit : nat) (matches : list string)
    (record : nat -> string -> string -> pyval) (l : list pyval) (g : globals W) :
  emit_with now limit matches record l g
  = (Return tt, l ++ emitted_with now limit matches record g, g).
Proof.
  unfold emit_with, emitted_with.
  generalize (enumerate (firstn limit matches)) as xs. intros xs. revert l.
  induction xs as [|iv xs IH]; intros l; simpl.
  - now rewrite app_nil_r.
  - unfold bind at 1. unfold bind at 1. simpl. rewrite IH. now rewrite <- app_assoc.
Qed.

Lemma emitted_with_length (limit : nat) (matches : list string)
    (record : nat -> string -> string -> pyval) (g : globals W) :
  List.length (emitted_with now limit matches record g) = Nat.min limit (List.length matches).
Proof. unfold emitted_with. now rewrite length_map, capped_length. Qed.


Lemma _parse_usaid_content_emits (content data_type : string) (g : globals W) :
  USAIDCollector._parse_usaid_content now content data_type g
  = (Return (PyList
       (emitted_with now 5 (Re.findall true USAIDCollector.funding_pattern content)
          USAIDCollector.funding_record g ++
        emitted_with now 5 (Re.findall true USAIDCollector.program_pattern content)
          USAIDCollector.program_record g ++
        (if existsb (String.eqb (Str.lower data_type)) USAIDCollector.sectors then
           emitted_with now 3
             (Re.findall true (USAIDCollector.sector_pattern data_type) content)
             (USAIDCollector.sector_record data_type) g
         else []))), g).
Proof.
  unfold USAIDCollector._parse_usaid_content, method. cbv zeta.
  unfold bind at 1. rewrite emit_with_appends.
  unfold bind at 1. rewrite emit_with_appends.
  unfold bind at 1.
  destruct (existsb (String.eqb (Str.lower data_type)) USAIDCollector.sectors).
  - rewrite emit_with_appends. simpl. now rewrite <- ?app_assoc.
  - simpl. now rewrite ?app_nil_r, <- ?app_assoc.
Qed.


End DataParsers.


(* ===================================================================== *)
(** ** The page collectors of [data_collectors]                           *)
(* ===================================================================== *)

Section DataPages.
Context {W : Type}.
Variable http_get : request -> W -> (exn + response) * W.
Variable now : W -> clock.

Import Data.



(** The parser of the USAID collector hands back a list of at most 13
    records and leaves the world alone. *)
Lemma usaid_records_capped (content data_type : string) (g : globals W) :
  exists records,
    USAIDCollector._parse_usaid_content now content data_type g = (Return (PyList records), g) /\
    (List.length records <= 13)%nat.
Proof.
  rewrite _parse_usaid_content_emits. eexists. split; [reflexivity | ].
  rewrite !length_app, !emitted_with_length.
  destruct (existsb (String.eqb (Str.lower data_type)) USAIDCollector.sectors);
    rewrite ?emitted_with_length; cbn [List.length]; lia.
Qed.

Lemma failure_result_fails (msg : string) : msg <> "" -> is_failure (failure_result msg).
Proof. intros H. split; [reflexivity | ]. exists msg. split; [reflexivity | exact H]. Qed.

(** X15.  [collect_data] of the USAID collector of [data_collectors] always
    returns after exactly one request, to the country page with timeout 30.
    Its answer is a success or a failure; a success carries between one and
    thirteen records, and is only given when the page came back with a
    status outside 400..599 and text could be extracted from it. *)
Theorem usaid_answer (data_type : string) (g : globals W) :
  exists result g',
    USAIDCollector.collect_data http_get now data_type g = (Return result, g') /\
    requests g' = requests g ++ [mkRequest USAIDCollector.url [] 30] /\
    ((is_failure result /\ field "data" result = None)
     \/
     (is_success result /\
      exists resp content records,
        fst (http_get (mkRequest USAIDCollector.url [] 30) (world g)) = inr resp /\
        ((400 <=? status_code resp) && (status_code resp <? 600))%Z = false /\
        resp_extract resp = Some content /\
        String.eqb content "" = false /\
        fst (USAIDCollector._parse_usaid_content now content data_type g')
          = Return (PyList records) /\
        (0 < List.length records <= 13)%nat /\
        field "data" result = Some (PyList records))).
Proof.
  unfold USAIDCollector.collect_data, USAIDCollector.collect_body, method, try_except.
  unfold bind at 1. unfold session_get at 1.
  destruct (http_get (mkRequest USAIDCollector.url [] 30) (world g)) as [[e|resp] w'] eqn:Eget.
  { eexists _, _. split; [reflexivity | ]. split; [reflexivity | ].
    left. split; [apply failure_result_fails; discriminate | reflexivity]. }
  unfold bind at 1. unfold raise_for_status.
  destruct ((400 <=? status_code resp) && (status_code resp <? 600))%Z eqn:Est.
  { eexists _, _. split; [reflexivity | ]. split; [reflexivity | ].
    left. split; [apply failure_result_fails; discriminate | reflexivity]. }
  cbn [ret].
  destruct (resp_extract resp) as [content|] eqn:Eex.
  2:{ eexists _, _. split; [reflexivity | ]. split; [reflexivity | ].
      left. split; [apply failure_result_fails; discriminate | reflexivity]. }
  destruct (String.eqb content "") eqn:Econtent.
  { eexists _, _. split; [reflexivity | ]. split; [reflexivity | ].
    left. split; [apply failure_result_fails; discriminate | reflexivity]. }
  unfold bind, call.
  destruct (usaid_records_capped content data_type
              (mkGlobals w' (requests g ++ [mkRequest USAIDCollector.url [] 30])))
    as (records & Hrec & Hlen).
  rewrite Hrec.
  destruct records as [|r records]; cbn [Py.truthy negb].
  { eexists _, _. split; [reflexivity | ]. split; [reflexivity | ].
    left. split; [apply failure_result_fails; discriminate | reflexivity]. }
  eexists _, _. split; [reflexivity | ]. split; [reflexivity | ].
  right. split; [reflexivity | ].
  exists resp, content, (r :: records).
  rewrite Hrec. repeat split; auto; simpl in *; lia.
Qed.

End DataPages.

(* ===================================================================== *)
(** ** The USAID collector of [working_collectors]                        *)
(* ===================================================================== *)

Section WorkingUSAID.
Context {W : Type}.
Variable http_get : request -> W -> (exn + response) * W.
Variable now : W -> clock.

Import Working.






End WorkingUSAID.

(* ===================================================================== *)
(** ** The table walks of [working_collectors]                            *)
(* ===================================================================== *)



Section WorkingIMF.
Context {W : Type}.
Variable http_get : request -> W -> (exn + response) * W.
Variable now : W -> clock.
Variable soup_tables : response -> list (list (list string)).

Import Working.







End WorkingIMF.


Section WorkingUN.
Context {W : Type}.
Variable http_get : request -> W -> (exn + response) * W.
Variable now : W -> clock.
Variable soup_tables : response -> list (list (list string)).

Import Working.





End WorkingUN.


(** The loop over the addresses is left at the first page that gives a
    record, and a portal that is down is answered with the notices. *)
Example working_usaid_stops_at_first_page :
  requests (snd (Working.USAIDCollector.collect_data
                   (Mock.page "USAID invested $5 million in 12 schools") Mock.clk
                   "health" Mock.g0))
  = [mkRequest "https://www.usaid.gov/zambia" [] 10].
Proof. vm_compute. reflexivity. Qed.

Example working_un_notices_when_down :
  fst (Working.UNCollector.collect_data Mock.down Mock.clk (fun _ => []) "Health" Mock.g0)
  = Return (success_result
              (PyList (map (fun indicator =>
                              Working.UNCollector.notice "Health" indicator "2025-06-01")
                           ["Life Expectancy"; "Infant Mortality Rate"; "Maternal Mortality"]))
              [ ("source", PyStr "UN Agencies"); ("data_type", PyStr "Health") ]).
Proof. vm_compute. reflexivity. Qed.
